(** * Youtube-audio-transcription: time codes, segment pipeline, query responder

    A shallow embedding of [app/utils/time_utils.py], [app/transcriber.py],
    [app/llm_services.py] and the processing logic of [main.py], with the
    properties of the design document checked against it.

    Conventions.
    - A Python [str] is a [string] whose characters are code points below 256.
    - A Python [int] is a [Z].
    - A Python [float] is an IEEE-754 binary64 value, see [pyfloat]: every
      finite double is an integer multiple of 2^-1074, so a finite value is
      kept as that integer.
    - A call that can raise returns a [result]; code that touches the file
      system, the Streamlit page or the session runs in the state monad [M]. *)

From Stdlib Require Import ZArith Lia Ascii String List Bool QArith Qabs.
From stdpp Require Import base tactics option list gmap strings sets.

Local Open Scope Z_scope.

#[local] Set Warnings "-clear-no-such-hyp".

(* ===================================================================== *)
(** * Part I. Definitions                                                  *)
(* ===================================================================== *)

(** ** Exceptions and results *)

(** The exception classes the code can meet.  [KeyboardInterrupt] and
    [SystemExit] derive from [BaseException] only; all others derive from
    [Exception]. *)
Inductive exn_class :=
| ValueError | OverflowError | IndexError | FileNotFoundError
| AttributeError | RuntimeError | KeyboardInterrupt | SystemExit.

Record exn := PyExn { exn_cls : exn_class; exn_msg : string }.

(** [isinstance(e, Exception)] *)
Definition is_Exception (e : exn) : bool :=
  match exn_cls e with
  | KeyboardInterrupt | SystemExit => false
  | _ => true
  end.

Inductive result (A : Type) :=
| Ok (a : A)
| Raise (e : exn).
Arguments Ok {A} a.
Arguments Raise {A} e.

Definition rbind {A B} (r : result A) (f : A -> result B) : result B :=
  match r with
  | Ok a => f a
  | Raise e => Raise e
  end.

Definition is_ok {A} (r : result A) : bool :=
  match r with Ok _ => true | Raise _ => false end.

Definition raise_cls {A} (c : exn_class) (msg : string) : result A :=
  Raise (PyExn c msg).

Declare Scope result_scope.
Delimit Scope result_scope with result.
Notation "'try!' x := c1 'in' c2" := (rbind c1 (fun x => c2))
  (at level 10, x pattern, c1 at level 100, c2 at level 200)
  : result_scope.

(** ** Strings *)

Definition chr (n : nat) : ascii := ascii_of_nat n.
Definition ord (c : ascii) : nat := nat_of_ascii c.

Definition char_eqb (a b : ascii) : bool := Ascii.eqb a b.

(** [c in s] for a one-character [c] *)
Fixpoint str_contains (c : ascii) (s : string) : bool :=
  match s with
  | EmptyString => false
  | String d s' => char_eqb d c || str_contains c s'
  end.

(** [s.split(sep)] for a one-character separator: never empty, one more
    piece than there are separators. *)
Fixpoint str_split (sep : ascii) (s : string) : list string :=
  match s with
  | EmptyString => [EmptyString]
  | String c s' =>
      if char_eqb c sep then EmptyString :: str_split sep s'
      else match str_split sep s' with
           | x :: xs => String c x :: xs
           | [] => [String c EmptyString]
           end
  end.

(** [sep.join(xs)] *)
Fixpoint str_join (sep : string) (xs : list string) : string :=
  match xs with
  | [] => EmptyString
  | [x] => x
  | x :: rest => x +:+ sep +:+ str_join sep rest
  end.

Fixpoint lstrip_with (f : ascii -> bool) (s : string) : string :=
  match s with
  | EmptyString => EmptyString
  | String c s' => if f c then lstrip_with f s' else s
  end.

Fixpoint rstrip_with (f : ascii -> bool) (s : string) : string :=
  match s with
  | EmptyString => EmptyString
  | String c s' =>
      match rstrip_with f s' with
      | EmptyString => if f c then EmptyString else String c EmptyString
      | r => String c r
      end
  end.

(** White space for [str.strip]: [str.isspace] on code points below 256. *)
Definition is_space (c : ascii) : bool :=
  let n := ord c in
  ((9 <=? n) && (n <=? 13) || (28 <=? n) && (n <=? 32)
   || (n =? 133) || (n =? 160))%nat.

(** White space skipped around a number by [int] and [float]. *)
Definition is_num_space (c : ascii) : bool :=
  let n := ord c in
  ((9 <=? n) && (n <=? 13) || (n =? 32) || (n =? 133) || (n =? 160))%nat.

(** [s.strip()] *)
Definition str_strip (s : string) : string :=
  rstrip_with is_space (lstrip_with is_space s).

Definition is_digit (c : ascii) : bool :=
  let n := ord c in ((48 <=? n) && (n <=? 57))%nat.

Definition digit_val (c : ascii) : Z := Z.of_nat (ord c) - 48.

Definition digit_chr (d : Z) : ascii := chr (Z.to_nat (48 + d)).

(** Decimal digits of a non-negative integer, most significant first. *)
Fixpoint dec_digits (fuel : nat) (n : Z) (acc : string) : string :=
  match fuel with
  | O => acc
  | S fuel' =>
      let acc' := String (digit_chr (n mod 10)) acc in
      if n <? 10 then acc' else dec_digits fuel' (n / 10) acc'
  end.

Definition str_of_nonneg (n : Z) : string :=
  dec_digits (S (Z.to_nat (Z.log2 n))) n EmptyString.

(** [str(n)] for an int *)
Definition str_of_int (n : Z) : string :=
  if n <? 0 then String "-" (str_of_nonneg (- n)) else str_of_nonneg n.

Fixpoint zeros (k : nat) : string :=
  match k with
  | O => EmptyString
  | S k' => String "0" (zeros k')
  end.

(** Sign-aware zero padding, as the [0] flag of a format spec does it:
    [sign] then zeros then [body], at least [width] characters. *)
Definition zero_pad (width : nat) (sign body : string) : string :=
  sign +:+ zeros (width - String.length sign - String.length body)
       +:+ body.

(** [f"{n:02d}"] *)
Definition format_02d (n : Z) : string :=
  zero_pad 2 (if n <? 0 then "-" else "") (str_of_nonneg (Z.abs n)).

(** ** Parsing an int *)

(** Digits with single underscores between them, as [int] and [float]
    accept them: the digit values, or [None] when the text is empty, has
    another character, or has an underscore that is not between digits. *)
Fixpoint scan_digits (prev_digit : bool) (s : string) : option (list Z) :=
  match s with
  | EmptyString => if prev_digit then Some [] else None
  | String c s' =>
      if is_digit c then
        match scan_digits true s' with
        | Some ds => Some (digit_val c :: ds)
        | None => None
        end
      else if char_eqb c "_" then
        (if prev_digit then
           match s' with
           | String d _ => if is_digit d then scan_digits false s' else None
           | EmptyString => None
           end
         else None)
      else None
  end.

Definition digits_value (ds : list Z) : Z :=
  fold_left (fun acc d => 10 * acc + d) ds 0.

(** [sys.get_int_max_str_digits()], the interpreter's default *)
Definition int_max_str_digits : nat := 4300.

Definition split_sign (s : string) : bool * string :=
  match s with
  | String "-" s' => (true, s')
  | String "+" s' => (false, s')
  | _ => (false, s)
  end.

(** [int(s)] for a [str] in base 10 *)
Definition py_int (s : string) : result Z :=
  let t := rstrip_with is_num_space (lstrip_with is_num_space s) in
  let '(neg, body) := split_sign t in
  match scan_digits false body with
  | Some ds =>
      if (int_max_str_digits <? length ds)%nat
      then raise_cls ValueError "Exceeds the limit for integer string conversion"
      else Ok (if neg then - digits_value ds else digits_value ds)
  | None => raise_cls ValueError "invalid literal for int() with base 10"
  end.

(** ** Floats: IEEE-754 binary64 *)

(** The unit of the representation: 2^1074 units make 1.0. *)
Definition float_unit : Z := 2 ^ 1074.

(** First magnitude, in units, that is too large for a finite double:
    2^1024. *)
Definition float_huge : Z := 2 ^ 2098.

(** [FNum n] is the finite value n * 2^-1074 ([FNum 0] is +0.0),
    [FNegZero] is -0.0. *)
Inductive pyfloat :=
| FNum (n : Z)
| FNegZero
| FInf (neg : bool)
| FNan.

(** a / b rounded to an integer, ties to even; [0 <= a], [0 < b] *)
Definition rhe_div (a b : Z) : Z :=
  let q := a / b in
  match 2 * (a mod b) ?= b with
  | Lt => q
  | Gt => q + 1
  | Eq => if Z.even q then q else q + 1
  end.

(** The double nearest to p / q units (53 significant bits, ties to even),
    itself in units; [0 <= p], [0 < q].  Below 2^53 units the spacing of
    doubles is one unit, which covers the subnormal range. *)
Definition round_ratio (p q : Z) : Z :=
  let k := Z.max 0 (Z.log2 (p / q) - 52) in
  rhe_div p (q * 2 ^ k) * 2 ^ k.

Definition round53 (n : Z) : Z := round_ratio n 1.

(** [n] units is a double: [FNum n] then stands for a real float. *)
Definition is_double (n : Z) : bool :=
  (Z.abs n <? float_huge) && (round53 (Z.abs n) =? Z.abs n).

(** The float nearest to the exact value p / q units of sign [neg]; a
    magnitude that rounds to 2^1024 or more is infinite, one that rounds to
    nothing is a signed zero. *)
Definition float_of_ratio (neg : bool) (p q : Z) : pyfloat :=
  let r := round_ratio p q in
  if float_huge <=? r then FInf neg
  else if r =? 0 then (if neg then FNegZero else FNum 0)
  else FNum (if neg then - r else r).

(** The float nearest to an exact, non-zero value of [n] units. *)
Definition float_round (n : Z) : pyfloat :=
  float_of_ratio (n <? 0) (Z.abs n) 1.

(** [float(z)] for an int: [OverflowError] when too large. *)
Definition float_of_int (z : Z) : result pyfloat :=
  let r := round53 (Z.abs z * float_unit) in
  if float_huge <=? r
  then raise_cls OverflowError "int too large to convert to float"
  else Ok (FNum (if z <? 0 then - r else r)).

Definition float_neg (x : pyfloat) : pyfloat :=
  match x with
  | FNum 0 => FNegZero
  | FNum n => FNum (- n)
  | FNegZero => FNum 0
  | FInf neg => FInf (negb neg)
  | FNan => FNan
  end.

(** [x + y] on floats, round to nearest *)
Definition float_add (x y : pyfloat) : pyfloat :=
  match x, y with
  | FNan, _ | _, FNan => FNan
  | FInf a, FInf b => if Bool.eqb a b then FInf a else FNan
  | FInf a, _ => FInf a
  | _, FInf b => FInf b
  | FNegZero, FNegZero => FNegZero
  | FNegZero, FNum n => FNum n
  | FNum n, FNegZero => FNum n
  | FNum a, FNum b =>
      if a + b =? 0 then FNum 0 else float_round (a + b)
  end.

(** [x - y] on floats *)
Definition float_sub (x y : pyfloat) : pyfloat := float_add x (float_neg y).

(** [x / w] on floats for a finite [w > 0] of [w] units *)
Definition float_div_pos (x : pyfloat) (w : Z) : pyfloat :=
  match x with
  | FNan => FNan
  | FInf neg => FInf neg
  | FNegZero => FNegZero
  | FNum n => float_of_ratio (n <? 0) (Z.abs n * float_unit) w
  end.

(** [math.floor] as C has it: a float *)
Definition float_floor (x : pyfloat) : pyfloat :=
  match x with
  | FNum n => FNum (n / float_unit * float_unit)
  | _ => x
  end.

(** [bool(x)] for a float: non-zero *)
Definition float_truthy (x : pyfloat) : bool :=
  match x with
  | FNum n => negb (n =? 0)
  | FNegZero => false
  | _ => true
  end.

(** [x > y] for floats *)
Definition float_gt (x y : pyfloat) : bool :=
  match x, y with
  | FNan, _ | _, FNan => false
  | FInf a, FInf b => negb a && b
  | FInf a, _ => negb a
  | _, FInf b => b
  | FNum a, FNum b => b <? a
  | FNum a, FNegZero => 0 <? a
  | FNegZero, FNum b => b <? 0
  | FNegZero, FNegZero => false
  end.

Definition float_is_neg (x : pyfloat) : bool :=
  match x with
  | FNum n => n <? 0
  | FNegZero => true
  | FInf neg => neg
  | FNan => false
  end.

(** [divmod(x, w)] of a float by the int [w], [0 < w < 2^53], the way
    CPython's [float_divmod] computes it: the pair (x // w, x % w). *)
Definition float_divmod (x : pyfloat) (w : Z) : pyfloat * pyfloat :=
  let wu := w * float_unit in
  (* mod = fmod(vx, wx), exact, with the sign of vx *)
  let fm :=
    match x with
    | FNum n =>
        let r := Z.rem n wu in
        if (r =? 0) && (n <? 0) then FNegZero else FNum r
    | FNegZero => FNegZero
    | _ => FNan
    end in
  (* div = (vx - mod) / wx *)
  let div := float_div_pos (float_sub x fm) wu in
  let '(md, div) :=
    if float_truthy fm then
      (* wx > 0: adjust when mod < 0 *)
      if float_is_neg fm
      then (float_add fm (FNum wu), float_sub div (FNum float_unit))
      else (fm, div)
    else (FNum 0, div) in
  let floordiv :=
    if float_truthy div then
      let fl := float_floor div in
      if float_gt (float_sub div fl) (FNum (float_unit / 2))
      then float_add fl (FNum float_unit) else fl
    else
      (* copysign(0.0, vx / wx) *)
      (if float_is_neg x then FNegZero else FNum 0) in
  (floordiv, md).

Definition float_floordiv (x : pyfloat) (w : Z) : pyfloat :=
  fst (float_divmod x w).

Definition float_mod (x : pyfloat) (w : Z) : pyfloat :=
  snd (float_divmod x w).

(** [int(x)] for a float: truncation, an error on nan and on infinities *)
Definition int_of_float (x : pyfloat) : result Z :=
  match x with
  | FNum n => Ok (Z.quot n float_unit)
  | FNegZero => Ok 0
  | FInf _ => raise_cls OverflowError "cannot convert float infinity to integer"
  | FNan => raise_cls ValueError "cannot convert float NaN to integer"
  end.

(** [x - k] for a float and an int *)
Definition float_sub_int (x : pyfloat) (k : Z) : result pyfloat :=
  match float_of_int k with
  | Ok y => Ok (float_sub x y)
  | Raise e => Raise e
  end.

(** [k + x] for an int and a float *)
Definition int_add_float (k : Z) (x : pyfloat) : result pyfloat :=
  match float_of_int k with
  | Ok y => Ok (float_add y x)
  | Raise e => Raise e
  end.

Definition pad_left_zeros (width : nat) (s : string) : string :=
  zeros (width - String.length s) +:+ s.

(** [f"{x:06.3f}"]: the exact value rounded to three decimals, ties to
    even, zero-padded to six characters. *)
Definition format_06_3f (x : pyfloat) : string :=
  match x with
  | FNum n =>
      let m := rhe_div (Z.abs n * 1000) float_unit in
      zero_pad 6 (if n <? 0 then "-" else "")
        (str_of_nonneg (m / 1000) +:+ "." +:+
         pad_left_zeros 3 (str_of_nonneg (m mod 1000)))
  | FNegZero => "-0.000"
  | FInf neg => zero_pad 6 (if neg then "-" else "") "inf"
  | FNan => "000nan"
  end.

(** ** Parsing a float *)

(** Underscores of a numeric literal: each must stand between two digits;
    the literal without them, or [None].  [prev] is the character before. *)
Fixpoint drop_underscores (prev : ascii) (s : string) : option string :=
  match s with
  | EmptyString => if char_eqb prev "_" then None else Some EmptyString
  | String c s' =>
      if char_eqb c "_" then
        (if is_digit prev then drop_underscores c s' else None)
      else if char_eqb prev "_" && negb (is_digit c) then None
      else match drop_underscores c s' with
           | Some t => Some (String c t)
           | None => None
           end
  end.

Fixpoint take_digits (s : string) : list Z * string :=
  match s with
  | EmptyString => ([], EmptyString)
  | String c s' =>
      if is_digit c then
        let '(ds, r) := take_digits s' in (digit_val c :: ds, r)
      else ([], s)
  end.

Definition char_lower (c : ascii) : ascii :=
  let n := ord c in
  if ((65 <=? n) && (n <=? 90))%nat then chr (n + 32) else c.

Fixpoint str_lower (s : string) : string :=
  match s with
  | EmptyString => EmptyString
  | String c s' => String (char_lower c) (str_lower s')
  end.

(** The exponent part of a float literal: empty, or [e] or [E], an optional
    sign and at least one digit, up to the end of the text. *)
Definition parse_exponent (s : string) : option Z :=
  match s with
  | EmptyString => Some 0
  | String c s' =>
      if char_eqb (char_lower c) "e" then
        let '(neg, body) := split_sign s' in
        match take_digits body with
        | (d :: ds, EmptyString) =>
            let v := digits_value (d :: ds) in
            Some (if neg then - v else v)
        | _ => None
        end
      else None
  end.

(** The float nearest to d * 10^e, of sign [neg]; [0 <= d]. *)
Definition float_of_decimal (neg : bool) (d e : Z) : pyfloat :=
  if d =? 0 then (if neg then FNegZero else FNum 0)
  else if 0 <=? e then float_of_ratio neg (d * 10 ^ e * float_unit) 1
  else float_of_ratio neg (d * float_unit) (10 ^ (- e)).

Definition parse_float_literal (t : string) : option pyfloat :=
  let '(neg, body) := split_sign t in
  let low := str_lower body in
  if String.eqb low "inf" || String.eqb low "infinity" then Some (FInf neg)
  else if String.eqb low "nan" then Some FNan
  else
    let '(ip, r1) := take_digits body in
    let '(fp, r2) :=
      match r1 with
      | String "." r => take_digits r
      | _ => ([], r1)
      end in
    match ip ++ fp with
    | [] => None
    | ds =>
        match parse_exponent r2 with
        | Some e =>
            Some (float_of_decimal neg (digits_value ds)
                    (e - Z.of_nat (length fp)))
        | None => None
        end
    end.

(** [float(s)] for a [str] *)
Definition py_float (s : string) : result pyfloat :=
  let t := rstrip_with is_num_space (lstrip_with is_num_space s) in
  match drop_underscores "000" t with
  | Some u =>
      match parse_float_literal u with
      | Some x => Ok x
      | None => raise_cls ValueError "could not convert string to float"
      end
  | None => raise_cls ValueError "could not convert string to float"
  end.

(** ** Regular expressions, as far as the time pattern needs them *)

Inductive regex :=
| RBol                              (* ^ *)
| REol                              (* $ *)
| RLit (c : ascii)
| RRange (lo hi : ascii)            (* [lo-hi] *)
| RSeq (a b : regex)
| ROpt (a : regex)                  (* a? *)
| RRep (a : regex) (lo hi : nat).   (* a{lo,hi} *)

Definition newline : ascii := chr 10.

(** A position in the subject: characters consumed, text left. *)
Definition mstate : Type := nat * string.

(** Between [lo] and [hi] matches in a row of the matcher [m]. *)
Fixpoint rep_match (m : mstate -> list mstate) (lo hi : nat) (st : mstate)
  : list mstate :=
  match hi with
  | O => if (lo =? 0)%nat then [st] else []
  | S hi' =>
      flat_map (rep_match m (Nat.pred lo) hi') (m st)
      ++ (if (lo =? 0)%nat then [st] else [])
  end.

(** All positions a match of [r] started at [st] can end at.  [$] holds at
    the end of the text and just before a newline that ends it. *)
Fixpoint rmatch (r : regex) (st : mstate) : list mstate :=
  match r with
  | RBol => if (fst st =? 0)%nat then [st] else []
  | REol =>
      match snd st with
      | EmptyString => [st]
      | String c EmptyString => if char_eqb c newline then [st] else []
      | _ => []
      end
  | RLit c =>
      match snd st with
      | String d t => if char_eqb d c then [(S (fst st), t)] else []
      | EmptyString => []
      end
  | RRange lo hi =>
      match snd st with
      | String d t =>
          if ((ord lo <=? ord d) && (ord d <=? ord hi))%nat
          then [(S (fst st), t)] else []
      | EmptyString => []
      end
  | RSeq a b => flat_map (rmatch b) (rmatch a st)
  | ROpt a => rmatch a st ++ [st]
  | RRep a lo hi => rep_match (rmatch a) lo hi st
  end.

(** [re.match(pattern, text) is not None] *)
Definition re_match (pattern : regex) (text : string) : bool :=
  match rmatch pattern (O, text) with
  | [] => false
  | _ => true
  end.

Definition re_digit : regex := RRange "0" "9".

(** ([0-9]{1,2}:)?[0-5]?[0-9]:[0-5][0-9](\.[0-9]{1,3})? *)
Definition time_regex : regex :=
  RSeq (ROpt (RSeq (RRep re_digit 1 2) (RLit ":")))
  (RSeq (ROpt (RRange "0" "5"))
  (RSeq re_digit
  (RSeq (RLit ":")
  (RSeq (RRange "0" "5")
  (RSeq re_digit
        (ROpt (RSeq (RLit ".") (RRep re_digit 1 3)))))))).

(** r'^([0-9]{1,2}:)?[0-5]?[0-9]:[0-5][0-9](\.[0-9]{1,3})?$' *)
Definition time_pattern : regex := RSeq RBol (RSeq time_regex REol).

(** *** What it means for a text to match a regular expression

    The language of an expression without anchors, the way the textbooks
    have it: the whole text is spelled by the expression. *)

Fixpoint lang_pow (L : string -> Prop) (k : nat) (t : string) : Prop :=
  match k with
  | O => t = EmptyString
  | S k' => exists t1 t2, t = t1 +:+ t2 /\ L t1 /\ lang_pow L k' t2
  end.

Fixpoint lang (r : regex) (t : string) : Prop :=
  match r with
  | RBol | REol => False
  | RLit c => t = String c EmptyString
  | RRange lo hi =>
      exists d, t = String d EmptyString /\ (ord lo <= ord d <= ord hi)%nat
  | RSeq a b => exists t1 t2, t = t1 +:+ t2 /\ lang a t1 /\ lang b t2
  | ROpt a => t = EmptyString \/ lang a t
  | RRep a lo hi => exists k, (lo <= k <= hi)%nat /\ lang_pow (lang a) k t
  end.

Fixpoint anchor_free (r : regex) : bool :=
  match r with
  | RBol | REol => false
  | RLit _ | RRange _ _ => true
  | RSeq a b => anchor_free a && anchor_free b
  | ROpt a => anchor_free a
  | RRep a _ _ => anchor_free a
  end.

(** The matcher run on the whole text: some match ends at its end. *)
Definition full_match (r : regex) (text : string) : bool :=
  existsb (fun st => String.eqb (snd st) EmptyString) (rmatch r (O, text)).

(** ** app/utils/time_utils.py *)

Module TimeUtils.

Local Open Scope result_scope.

Definition seconds_to_hms (seconds : pyfloat) : result string :=
  try! hours := int_of_float (float_floordiv seconds 3600) in
  try! minutes :=
    int_of_float (float_floordiv (float_mod seconds 3600) 60) in
  try! secs := float_sub_int seconds (hours * 3600 + minutes * 60) in
  Ok (format_02d hours +:+ ":" +:+ format_02d minutes +:+ ":"
      +:+ format_06_3f secs).

Definition hms_to_seconds (hms : string) : result pyfloat :=
  try! t_ms :=
    (if str_contains "." hms then
       match str_split "." hms with
       | [t; ms] =>
           try! ms := py_float ("0." +:+ ms) in Ok (t, ms)
       | _ => raise_cls ValueError "too many values to unpack (expected 2)"
       end
     else Ok (hms, FNum 0)) in
  let '(t, ms) := t_ms in
  let parts := str_split ":" t in
  if (length parts =? 3)%nat then
    match parts with
    | [h; m; s] =>
        try! h := py_int h in
        try! m := py_int m in
        try! s := py_int s in
        int_add_float (h * 3600 + m * 60 + s) ms
    | _ => raise_cls ValueError "not enough values to unpack"
    end
  else if (length parts =? 2)%nat then
    match parts with
    | [m; s] =>
        try! m := py_int m in
        try! s := py_int s in
        int_add_float (m * 60 + s) ms
    | _ => raise_cls ValueError "not enough values to unpack"
    end
  else
    match parts with
    | p0 :: _ => try! v := py_int p0 in int_add_float v ms
    | [] => raise_cls IndexError "list index out of range"
    end.

Definition validate_time_format (time_str : string) : bool :=
  re_match time_pattern time_str.

End TimeUtils.


(** ** The world the pipeline runs in *)

(** Diarization output: [{"speaker", "start", "end"}] *)
Record DiarSegment := {
  d_speaker : string;
  d_start : pyfloat;
  d_end : pyfloat
}.

(** A transcript entry: [{"speaker", "text", "start", "end"}] *)
Record Transcription := {
  t_speaker : string;
  t_text : string;
  t_start : pyfloat;
  t_end : pyfloat
}.

(** What the page shows and what goes to standard output. *)
Inductive ui_event :=
| StError (msg : string)
| Printed (msg : string).

(** The three keys of [st.session_state] the code uses. *)
Record Session := {
  ss_transcriptions : list Transcription;
  ss_transcript_text : string;
  ss_llm_response : string
}.

(** The files that exist, the number of temporary directories handed out,
    the page events so far (oldest first) and the session. *)
Record World := {
  files : gset string;
  tmp_count : nat;
  ui : list ui_event;
  session : Session
}.

(** A computation that reads and changes the world and may raise; the world
    it leaves behind is kept when it raises. *)
Definition M (A : Type) : Type := World -> result A * World.

Definition ret {A} (a : A) : M A := fun w => (Ok a, w).

Definition bind {A B} (c : M A) (f : A -> M B) : M B :=
  fun w =>
    match c w with
    | (Ok a, w') => f a w'
    | (Raise e, w') => (Raise e, w')
    end.

Definition lift {A} (r : result A) : M A := fun w => (r, w).

Declare Scope M_scope.
Delimit Scope M_scope with M.
Notation "'run!' x := c1 'in' c2" := (bind c1 (fun x => c2))
  (at level 10, x pattern, c1 at level 100, c2 at level 200)
  : M_scope.

(** The collaborators that are not part of the code under study, each
    an oracle over its arguments: the trim and download primitives (which
    decide whether they succeed), the diarization engine, the Whisper
    engine, and the language-model client. *)
Record Collaborators := {
  whisper_handle : Type;
  (* input, start, end, output: does the trim succeed? *)
  trim_succeeds : string -> string -> option string -> string -> bool;
  (* url, output: does the download succeed? *)
  download_succeeds : string -> string -> bool;
  (* app.diarizer.run_diarization *)
  run_diarization : string -> result (list DiarSegment);
  (* whisper.load_model *)
  whisper_load_model : string -> result whisper_handle;
  (* model.transcribe(audio_file)["text"] *)
  whisper_transcribe : whisper_handle -> string -> result string;
  (* Client(model=model_name) *)
  llm_client : string -> result unit;
  (* client.chat.completions.create(messages, temperature): the
     [message.content] of each of [response.choices] *)
  llm_create :
    string -> list (string * string) -> pyfloat -> result (list (option string))
}.

(** [st.error(msg)] *)
Definition st_error (msg : string) : M unit :=
  fun w => (Ok tt, {| files := files w; tmp_count := tmp_count w;
                      ui := ui w ++ [StError msg]; session := session w |}).

(** [print(msg)] *)
Definition py_print (msg : string) : M unit :=
  fun w => (Ok tt, {| files := files w; tmp_count := tmp_count w;
                      ui := ui w ++ [Printed msg]; session := session w |}).

Definition set_files (fs : gset string) (w : World) : World :=
  {| files := fs; tmp_count := tmp_count w; ui := ui w;
     session := session w |}.

(** The directory [tempfile.mkdtemp()] hands out as its [n]-th. *)
Definition tmp_dir_name (n : nat) : string :=
  "/tmp/tmp" +:+ str_of_int (Z.of_nat n).

(** [tempfile.mkdtemp()] *)
Definition mkdtemp : M string :=
  fun w => (Ok (tmp_dir_name (tmp_count w)),
            {| files := files w; tmp_count := S (tmp_count w);
               ui := ui w; session := session w |}).

Fixpoint str_last (s : string) : option ascii :=
  match s with
  | EmptyString => None
  | String c EmptyString => Some c
  | String _ s' => str_last s'
  end.

(** [os.path.join(a, b)] on POSIX *)
Definition os_path_join (a b : string) : string :=
  match b with
  | String "/" _ => b
  | _ =>
      match str_last a with
      | None => b
      | Some c => if char_eqb c "/" then a +:+ b else a +:+ "/" +:+ b
      end
  end.

(** [os.remove(path)] *)
Definition os_remove (path : string) : M unit :=
  fun w =>
    if decide (path ∈ files w)
    then (Ok tt, set_files (files w ∖ {[ path ]}) w)
    else (raise_cls FileNotFoundError "No such file or directory", w).

(** Modelled from the spec: [app.audio_processor.trim_audio] is not among
    the sources.  The trim primitive is a function over file paths which
    either produces the bounded clip at the output path and returns that
    path, or fails and returns nothing. *)
Definition trim_audio (env : Collaborators)
    (input_file start_time : string) (end_time : option string)
    (output_file : string) : M (option string) :=
  fun w =>
    if trim_succeeds env input_file start_time end_time output_file
    then (Ok (Some output_file), set_files (files w ∪ {[ output_file ]}) w)
    else (Ok None, w).

(** Modelled from the spec: [app.audio_processor.download_youtube_audio] is
    not among the sources.  It downloads the audio track to the output path
    and returns that path, or fails and returns nothing. *)
Definition download_youtube_audio (env : Collaborators)
    (url output_file : string) : M (option string) :=
  fun w =>
    if download_succeeds env url output_file
    then (Ok (Some output_file), set_files (files w ∪ {[ output_file ]}) w)
    else (Ok None, w).

(** ** app/transcriber.py *)

Module Transcriber.

Record WhisperTranscriber (env : Collaborators) := {
  model : whisper_handle env
}.
Arguments model {env} _.

(** [WhisperTranscriber(model_name)] *)
Definition init (env : Collaborators) (model_name : string)
  : result (WhisperTranscriber env) :=
  match whisper_load_model env model_name with
  | Ok m => Ok {| model := m |}
  | Raise e => Raise e
  end.

(** [self.transcribe(audio_file)] *)
Definition transcribe {env : Collaborators} (self : WhisperTranscriber env)
    (audio_file : string) : result string :=
  match whisper_transcribe env (model self) audio_file with
  | Ok text => Ok (str_strip text)
  | Raise e => Raise e
  end.

End Transcriber.

(** ** app/llm_services.py *)

Module LlmServices.

Local Open Scope M_scope.

Definition system_prompt : string :=
  "You are a helpful assistant. You carefully follow the user's instructions and use any provided context. "
  +:+ "If the context does not contain enough information to fully answer, state so politely. "
  +:+ "Be concise and clear in your response.".

Definition user_prompt (context question : string) : string :=
  "
    Context or conversation details:
    " +:+ context +:+ "

    User Instruction / Question:
    " +:+ question +:+ "

    Please follow the user's instructions as best as you can, using the above context if relevant.
    If the question cannot be answered from the context, respond accordingly.
    ".

(** The body of the [try] block. *)
Definition ask_model (env : Collaborators)
    (messages : list (string * string)) (model_name : string)
    (temperature : pyfloat) : result string :=
  match llm_client env model_name with
  | Raise e => Raise e
  | Ok _ =>
      match llm_create env model_name messages temperature with
      | Raise e => Raise e
      | Ok choices =>
          match choices with
          | [] => raise_cls IndexError "list index out of range"
          | None :: _ =>
              raise_cls AttributeError
                "'NoneType' object has no attribute 'strip'"
          | Some content :: _ => Ok (str_strip content)
          end
      end
  end.

Definition answer_with_llm (env : Collaborators)
    (context question model_name : string) (temperature : pyfloat)
  : M string :=
  let messages :=
    [("system", system_prompt); ("user", user_prompt context question)] in
  match ask_model env messages model_name temperature with
  | Ok answer => ret answer
  | Raise e =>
      (* except Exception as e *)
      if is_Exception e then
        run! _ := st_error ("Error calling LLM: " +:+ exn_msg e) in
        ret "LLM request failed."
      else lift (Raise e)
  end.

End LlmServices.

(** ** main.py *)

Module Main.

Local Open Scope result_scope.

Definition seconds_to_hms (seconds : pyfloat) : result string :=
  try! hours := int_of_float (float_floordiv seconds 3600) in
  try! minutes :=
    int_of_float (float_floordiv (float_mod seconds 3600) 60) in
  try! secs := float_sub_int seconds (hours * 3600 + minutes * 60) in
  Ok (format_02d hours +:+ ":" +:+ format_02d minutes +:+ ":"
      +:+ format_06_3f secs).

Definition hms_to_seconds (hms : string) : result pyfloat :=
  try! tm :=
    (if str_contains "." hms then
       match str_split "." hms with
       | [time_part; ms_part] =>
           try! ms := py_float ("0." +:+ ms_part) in Ok (time_part, ms)
       | _ => raise_cls ValueError "too many values to unpack (expected 2)"
       end
     else Ok (hms, FNum 0)) in
  let '(time_part, ms) := tm in
  let parts := str_split ":" time_part in
  match length parts with
  | 3%nat =>
      match parts with
      | [h; m; s] =>
          try! h := py_int h in
          try! m := py_int m in
          try! s := py_int s in
          int_add_float (h * 3600 + m * 60 + s) ms
      | _ => raise_cls ValueError "not enough values to unpack"
      end
  | 2%nat =>
      match parts with
      | [m; s] =>
          try! m := py_int m in
          try! s := py_int s in
          int_add_float (m * 60 + s) ms
      | _ => raise_cls ValueError "not enough values to unpack"
      end
  | _ =>
      match parts with
      | p0 :: _ => try! v := py_int p0 in int_add_float v ms
      | [] => raise_cls IndexError "list index out of range"
      end
  end.

Definition validate_time_format (time_str : string) : bool :=
  re_match time_pattern time_str.

(** [combine_transcriptions]: one ["speaker: text"] line per segment *)
Definition combine_transcriptions (transcriptions : list Transcription)
  : string :=
  str_join (String newline EmptyString)
    (map (fun seg => t_speaker seg +:+ ": " +:+ t_text seg) transcriptions).

Local Open Scope M_scope.

(** [os.path.join(temp_dir, f"segment_{i}.wav")] *)
Definition segment_path (temp_dir : string) (i : nat) : string :=
  os_path_join temp_dir ("segment_" +:+ str_of_int (Z.of_nat i) +:+ ".wav").

(** One turn of the loop of [process_audio]: the transcript so far, then
    the transcript after span [i]. *)
Definition process_segment (env : Collaborators)
    (transcriber : Transcriber.WhisperTranscriber env)
    (temp_dir trimmed_file : string) (i : nat) (segment : DiarSegment)
    (transcriptions : list Transcription) : M (list Transcription) :=
  run! seg_start := lift (seconds_to_hms (d_start segment)) in
  run! seg_end := lift (seconds_to_hms (d_end segment)) in
  let segment_path := segment_path temp_dir i in
  run! segment_file :=
    trim_audio env trimmed_file seg_start (Some seg_end) segment_path in
  match segment_file with
  | Some (String c p) =>
      (* if segment_file *)
      let segment_file := String c p in
      run! text := lift (Transcriber.transcribe transcriber segment_file) in
      let transcriptions :=
        transcriptions ++
          [{| t_speaker := d_speaker segment; t_text := text;
              t_start := d_start segment; t_end := d_end segment |}] in
      run! _ := os_remove segment_file in
      ret transcriptions
  | _ => ret transcriptions
  end.

(** [for i, segment in enumerate(diarization_segments)], from index [i] *)
Fixpoint process_segments (env : Collaborators)
    (transcriber : Transcriber.WhisperTranscriber env)
    (temp_dir trimmed_file : string) (i : nat)
    (segments : list DiarSegment) (transcriptions : list Transcription)
  : M (list Transcription) :=
  match segments with
  | [] => ret transcriptions
  | segment :: rest =>
      run! transcriptions :=
        process_segment env transcriber temp_dir trimmed_file i segment
          transcriptions in
      process_segments env transcriber temp_dir trimmed_file (S i) rest
        transcriptions
  end.

Definition process_audio (env : Collaborators)
    (file_path start_time : string) (end_time : option string)
    (whisper_model : string) : M (list Transcription) :=
  run! temp_dir := mkdtemp in
  let trimmed_path := os_path_join temp_dir "trimmed_audio.wav" in
  (* 1) trim to the requested time range *)
  run! trimmed_file :=
    trim_audio env file_path start_time end_time trimmed_path in
  match trimmed_file with
  | Some (String c p) =>
      (* a non-empty path is true *)
      let trimmed_file := String c p in
      (* 2) diarize *)
      run! diarization_segments := lift (run_diarization env trimmed_file) in
      (* 3) transcribe *)
      run! transcriber := lift (Transcriber.init env whisper_model) in
      run! transcriptions :=
        process_segments env transcriber temp_dir trimmed_file 0
          diarization_segments [] in
      run! _ := os_remove trimmed_file in
      ret transcriptions
  | _ =>
      (* if not trimmed_file *)
      ret []
  end.

Definition store_session (transcriptions : list Transcription) : M unit :=
  fun w =>
    (Ok tt,
     {| files := files w; tmp_count := tmp_count w; ui := ui w;
        session :=
          {| ss_transcriptions := transcriptions;
             ss_transcript_text := combine_transcriptions transcriptions;
             ss_llm_response := "" |} |}).

(** The part of [transcribe_audio_source] from [# Process] on. *)
Definition process_and_store (env : Collaborators)
    (final_path start_time : string) (end_time : option string)
    (whisper_model : string) : M unit :=
  run! transcriptions :=
    process_audio env final_path start_time end_time whisper_model in
  match transcriptions with
  | [] =>
      (* if not transcriptions *)
      st_error "No transcriptions generated."
  | _ =>
      run! _ := store_session transcriptions in
      py_print ("Transcriptions: " +:+ combine_transcriptions transcriptions)
  end.

Definition transcribe_audio_source (env : Collaborators)
    (audio_source : string) (is_youtube : bool) (start_time : string)
    (end_time : option string) (whisper_model : string) : M unit :=
  run! temp_dir := mkdtemp in
  if is_youtube then
    let output_file := os_path_join temp_dir "youtube_audio.wav" in
    run! audio_file := download_youtube_audio env audio_source output_file in
    match audio_file with
    | Some (String c p) =>
        process_and_store env (String c p) start_time end_time whisper_model
    | _ =>
        (* if not audio_file *)
        st_error "Failed to download audio from YouTube."
    end
  else
    process_and_store env audio_source start_time end_time whisper_model.

End Main.

(** ** What the design document expects of the pipeline *)

(** The spans the loop visits, each with its index. *)
Definition indexed_spans (spans : list DiarSegment)
  : list (nat * DiarSegment) :=
  zip (seq 0 (length spans)) spans.

(** Span [i] has its sub-clip created: its bounds print and the trim
    primitive succeeds on them. *)
Definition sub_clip_created (env : Collaborators) (temp_dir clip : string)
    (isp : nat * DiarSegment) : bool :=
  match Main.seconds_to_hms (d_start (snd isp)),
        Main.seconds_to_hms (d_end (snd isp)) with
  | Ok a, Ok b =>
      trim_succeeds env clip a (Some b) (Main.segment_path temp_dir (fst isp))
  | _, _ => false
  end.

(** The transcript entry of span [i]: the span's speaker and bounds, and
    the text of its sub-clip. *)
Definition segment_of_span (env : Collaborators)
    (transcriber : Transcriber.WhisperTranscriber env) (temp_dir : string)
    (isp : nat * DiarSegment) : Transcription :=
  {| t_speaker := d_speaker (snd isp);
     t_text :=
       match Transcriber.transcribe transcriber
               (Main.segment_path temp_dir (fst isp)) with
       | Ok text => text
       | Raise _ => EmptyString
       end;
     t_start := d_start (snd isp);
     t_end := d_end (snd isp) |}.

(** One entry per span whose sub-clip was created, in diarization order. *)
Definition expected_transcript (env : Collaborators)
    (transcriber : Transcriber.WhisperTranscriber env)
    (temp_dir clip : string) (spans : list (nat * DiarSegment))
  : list Transcription :=
  map (segment_of_span env transcriber temp_dir)
      (filter (fun isp => sub_clip_created env temp_dir clip isp = true)
              spans).

(** The temporary directory and the main clip of a run started in [w]. *)
Definition run_temp_dir (w : World) : string := tmp_dir_name (tmp_count w).

Definition run_clip (w : World) : string :=
  os_path_join (run_temp_dir w) "trimmed_audio.wav".

(** No clip of the run started in [w] exists yet: the directory
    [mkdtemp] hands out is new. *)
Definition clips_fresh (w : World) : Prop :=
  (run_clip w ∉ files w) /\
  (forall i : nat, Main.segment_path (run_temp_dir w) i ∉ files w).

(** The bounds of a span print as time codes. *)
Definition span_prints (segment : DiarSegment) : Prop :=
  is_ok (Main.seconds_to_hms (d_start segment)) = true /\
  is_ok (Main.seconds_to_hms (d_end segment)) = true.

(** What [os.path.join] puts before a relative name. *)
Definition join_prefix (a : string) : string :=
  match str_last a with
  | None => EmptyString
  | Some c => if char_eqb c "/" then a else a +:+ "/"
  end.

(** The world after [mkdtemp] and a successful trim of the main clip. *)
Definition world_with_clip (w : World) : World :=
  {| files := files w ∪ {[ run_clip w ]}; tmp_count := S (tmp_count w);
     ui := ui w; session := session w |}.

(** ** What the design document expects of the time codes *)

Fixpoint str_all (f : ascii -> bool) (s : string) : bool :=
  match s with
  | EmptyString => true
  | String c s' => f c && str_all f s'
  end.

(** A non-empty run of decimal digits. *)
Definition is_number (s : string) : bool :=
  match s with
  | EmptyString => false
  | _ => str_all is_digit s
  end.

Fixpoint str_vals (s : string) : list Z :=
  match s with
  | EmptyString => []
  | String c s' => digit_val c :: str_vals s'
  end.

(** The number a run of decimal digits denotes. *)
Definition dec_value (s : string) : Z := digits_value (str_vals s).

(** The fraction [0.f] as a float, for a run of digits [f]. *)
Definition fraction_value (f : string) : pyfloat :=
  float_of_decimal false (dec_value f) (- Z.of_nat (String.length f)).

Definition nl : string := String newline EmptyString.

(** Exactly two decimal digits, for [0 <= k < 100]. *)
Definition two_digits (k : Z) : string :=
  String (digit_chr (k / 10)) (String (digit_chr (k mod 10)) EmptyString).

(** Exactly three decimal digits, for [0 <= k < 1000]. *)
Definition three_digits (k : Z) : string :=
  String (digit_chr (k / 100))
    (String (digit_chr (k / 10 mod 10))
       (String (digit_chr (k mod 10)) EmptyString)).

(** The hours field: as many digits as the number has, and no less than
    two. *)
Definition hours_field (h : Z) : string :=
  if h <? 10 then two_digits h else str_of_nonneg h.

Definition is_0_to_5 (c : ascii) : bool :=
  ((ord "0" <=? ord c) && (ord c <=? ord "5"))%nat.

(** The exact form HH:MM:SS.mmm: two digits each for hours, minutes and
    seconds, minutes and seconds below 60, three digits of milliseconds. *)
Definition is_canonical_hms (s : string) : bool :=
  match s with
  | String h1 (String h2 (String c1 (String m1 (String m2 (String c2
      (String s1 (String s2 (String dot (String f1 (String f2
        (String f3 EmptyString))))))))))) =>
      is_digit h1 && is_digit h2 && char_eqb c1 ":"
      && is_0_to_5 m1 && is_digit m2 && char_eqb c2 ":"
      && is_0_to_5 s1 && is_digit s2 && char_eqb dot "."
      && is_digit f1 && is_digit f2 && is_digit f3
  | _ => false
  end.

(** A component of a time text: a run of digits (no more than [int]
    reads), white space after it or not; [v] is the number it denotes. *)
Definition component (p : string) (v : Z) : Prop :=
  exists d ws,
    p = d +:+ ws /\ is_number d = true /\
    (String.length d <= int_max_str_digits)%nat /\
    str_all is_num_space ws = true /\ v = dec_value d.

(** The end of a time text: nothing, or a dot and digits, white space
    after them or not; [ms] is the fraction of a second it denotes. *)
Definition fraction (tail : string) (ms : pyfloat) : Prop :=
  (tail = EmptyString /\ ms = FNum 0) \/
  exists f ws,
    tail = "." +:+ f +:+ ws /\ str_all is_digit f = true /\
    str_all is_num_space ws = true /\ ms = fraction_value f.

(** The exponent of the spacing of doubles around p / q units. *)
Definition ratio_exp (p q : Z) : Z := Z.max 0 (Z.log2 (p / q) - 52).

(** ** Sample collaborators and worlds *)

Definition span (speaker : string) (from to : Z) : DiarSegment :=
  {| d_speaker := speaker;
     d_start := FNum (from * float_unit);
     d_end := FNum (to * float_unit) |}.

Definition three_spans : list DiarSegment :=
  [span "SPEAKER_00" 0 2; span "SPEAKER_01" 2 5; span "SPEAKER_00" 5 9].

Definition empty_session : Session :=
  {| ss_transcriptions := []; ss_transcript_text := "";
     ss_llm_response := "" |}.

(** A world with the source file on disk and nothing else. *)
Definition world0 : World :=
  {| files := {[ "/data/talk.wav" ]}; tmp_count := 0; ui := [];
     session := empty_session |}.

(** Every call succeeds, except the calls [bad_trim] and [bad_clip] pick
    out: a trim to an output path in [bad_trim] fails, and transcribing a
    clip in [bad_clip] raises. *)
Definition sample_env (spans : list DiarSegment)
    (bad_trim bad_clip : string -> bool) : Collaborators :=
  {| whisper_handle := unit;
     trim_succeeds := fun _ _ _ output => negb (bad_trim output);
     download_succeeds := fun _ _ => true;
     run_diarization := fun _ => Ok spans;
     whisper_load_model := fun _ => Ok tt;
     whisper_transcribe := fun _ clip =>
       if bad_clip clip
       then raise_cls RuntimeError "failed to load audio"
       else Ok (" words of " +:+ clip +:+ " ");
     llm_client := fun _ => Ok tt;
     llm_create := fun _ _ _ => Ok [Some " An answer. "] |}.

Definition sample_transcriber (spans : list DiarSegment)
    (bad_trim bad_clip : string -> bool)
  : Transcriber.WhisperTranscriber (sample_env spans bad_trim bad_clip) :=
  Transcriber.Build_WhisperTranscriber (sample_env spans bad_trim bad_clip) tt.

Definition none : string -> bool := fun _ => false.
Definition all : string -> bool := fun _ => true.
Definition only (path : string) : string -> bool :=
  fun p => String.eqb p path.

(** A language model that cannot be reached. *)
Definition offline_env : Collaborators :=
  {| whisper_handle := unit;
     trim_succeeds := fun _ _ _ _ => true;
     download_succeeds := fun _ _ => true;
     run_diarization := fun _ => Ok [];
     whisper_load_model := fun _ => Ok tt;
     whisper_transcribe := fun _ _ => Ok "";
     llm_client := fun _ => Ok tt;
     llm_create := fun _ _ _ =>
       raise_cls RuntimeError "connection refused" |}.

(** A language-model call that the user interrupts with Ctrl-C. *)
Definition interrupted_env : Collaborators :=
  {| whisper_handle := unit;
     trim_succeeds := fun _ _ _ _ => true;
     download_succeeds := fun _ _ => true;
     run_diarization := fun _ => Ok [];
     whisper_load_model := fun _ => Ok tt;
     whisper_transcribe := fun _ _ => Ok "";
     llm_client := fun _ => Ok tt;
     llm_create := fun _ _ _ => raise_cls KeyboardInterrupt "" |}.

(* ===================================================================== *)
(** * Part II. Properties                                                  *)
(* ===================================================================== *)


(** ** The duplicated time-code helpers *)

(** C10: the helpers of [main.py] and those of [app/utils/time_utils.py]
    are interchangeable: on every input each pair returns the same value
    or raises the same exception. *)
Theorem time_helpers_agree :
  (forall seconds,
      Main.seconds_to_hms seconds = TimeUtils.seconds_to_hms seconds) /\
  (forall hms, Main.hms_to_seconds hms = TimeUtils.hms_to_seconds hms) /\
  (forall time_str,
      Main.validate_time_format time_str
      = TimeUtils.validate_time_format time_str).
Proof.
  split; [reflexivity | split; [ | reflexivity]].
  intros hms. unfold Main.hms_to_seconds, TimeUtils.hms_to_seconds.
  destruct (str_contains "." hms).
  - destruct (str_split "." hms) as [ | t [ | ms [ | x l]]]; try reflexivity.
    destruct (py_float ("0." +:+ ms)) as [x | e]; [ | reflexivity].
    cbn [rbind].
    destruct (str_split ":" t) as [ | a [ | b [ | c [ | d l]]]]; reflexivity.
  - cbn [rbind].
    destruct (str_split ":" hms) as [ | a [ | b [ | c [ | d l]]]]; reflexivity.
Qed.

(** ** The query responder *)

Section QueryResponder.

Variable env : Collaborators.
Variables context question model_name : string.
Variable temperature : pyfloat.

Let messages : list (string * string) :=
  [("system", LlmServices.system_prompt);
   ("user", LlmServices.user_prompt context question)].

Lemma answer_with_llm_caught (e : exn) (w : World) :
  LlmServices.ask_model env messages model_name temperature = Raise e ->
  is_Exception e = true ->
  LlmServices.answer_with_llm env context question model_name temperature w
  = (Ok "LLM request failed.",
     {| files := files w; tmp_count := tmp_count w;
        ui := ui w ++ [StError ("Error calling LLM: " +:+ exn_msg e)];
        session := session w |}).
Proof.
  intros Hask Hexc. unfold LlmServices.answer_with_llm.
  fold messages. rewrite Hask, Hexc. reflexivity.
Qed.

End QueryResponder.

(** C9, as the code has it: the handler is [except Exception].  Whenever
    the language-model call fails with an instance of [Exception] (the
    client cannot be built, the request raises, or the response has no
    usable text), [answer_with_llm] returns exactly "LLM request failed."
    and raises nothing; when the call succeeds it returns the answer text
    with the white space at both ends stripped; and an exception that is not
    an instance of [Exception] ([KeyboardInterrupt], [SystemExit]) is not
    caught: [answer_with_llm] raises it and changes nothing. *)
Theorem answer_with_llm_sentinel
    (env : Collaborators) (context question model_name : string)
    (temperature : pyfloat) (w : World) :
  let messages :=
    [("system", LlmServices.system_prompt);
     ("user", LlmServices.user_prompt context question)] in
  let answer :=
    LlmServices.answer_with_llm env context question model_name temperature w
  in
  (forall e,
      is_Exception e = true ->
      llm_client env model_name = Raise e \/
      (is_ok (llm_client env model_name) = true /\
       llm_create env model_name messages temperature = Raise e) ->
      fst answer = Ok "LLM request failed.") /\
  (forall choices,
      is_ok (llm_client env model_name) = true ->
      llm_create env model_name messages temperature = Ok choices ->
      head choices = None \/ head choices = Some None ->
      fst answer = Ok "LLM request failed.") /\
  (forall content rest,
      is_ok (llm_client env model_name) = true ->
      llm_create env model_name messages temperature
      = Ok (Some content :: rest) ->
      answer = (Ok (str_strip content), w)) /\
  (forall e,
      is_Exception e = false ->
      llm_client env model_name = Raise e \/
      (is_ok (llm_client env model_name) = true /\
       llm_create env model_name messages temperature = Raise e) ->
      answer = (Raise e, w)).
Proof.
  intros messages answer. subst answer.
  split; [ | split; [ | split]].
  - intros e He Hfail.
    rewrite (answer_with_llm_caught env context question model_name
               temperature e w); [reflexivity | | exact He].
    unfold LlmServices.ask_model. fold messages.
    destruct Hfail as [Hc | [Hc Hr]].
    + rewrite Hc. reflexivity.
    + destruct (llm_client env model_name); [ | discriminate Hc].
      rewrite Hr. reflexivity.
  - intros choices Hc Hr Hbad.
    destruct (llm_client env model_name) as [u | e0] eqn:Ec;
      [ | discriminate Hc].
    destruct choices as [ | [content | ] rest]; cbn in Hbad.
    + rewrite (answer_with_llm_caught env context question model_name
                 temperature (PyExn IndexError "list index out of range") w);
        [reflexivity | | reflexivity].
      unfold LlmServices.ask_model. fold messages. rewrite Ec, Hr.
      reflexivity.
    + destruct Hbad as [H | H]; discriminate H.
    + rewrite (answer_with_llm_caught env context question model_name
                 temperature
                 (PyExn AttributeError
                    "'NoneType' object has no attribute 'strip'") w);
        [reflexivity | | reflexivity].
      unfold LlmServices.ask_model. fold messages. rewrite Ec, Hr.
      reflexivity.
  - intros content rest Hc Hr.
    unfold LlmServices.answer_with_llm, LlmServices.ask_model.
    fold messages.
    destruct (llm_client env model_name) as [u | e0]; [ | discriminate Hc].
    rewrite Hr. reflexivity.
  - intros e He Hfail.
    unfold LlmServices.answer_with_llm, LlmServices.ask_model.
    fold messages.
    destruct Hfail as [Hc | [Hc Hr]].
    + rewrite Hc, He. reflexivity.
    + destruct (llm_client env model_name); [ | discriminate Hc].
      rewrite Hr, He. reflexivity.
Qed.

(** The responder against a model that cannot be reached, against one that
    answers, and against a call that is interrupted. *)
Lemma answer_with_llm_sentinel_witness :
  fst (LlmServices.answer_with_llm offline_env "A: hi" "Summarize" "ollama:phi4"
         (FNum (3 * float_unit / 4)) world0)
  = Ok "LLM request failed." /\
  LlmServices.answer_with_llm (sample_env [] none none) "A: hi" "Summarize"
    "ollama:phi4" (FNum (3 * float_unit / 4)) world0
  = (Ok "An answer.", world0) /\
  LlmServices.answer_with_llm interrupted_env "A: hi" "Summarize"
    "ollama:phi4" (FNum (3 * float_unit / 4)) world0
  = (Raise (PyExn KeyboardInterrupt ""), world0).
Proof.
  split; [ | split].
  - apply (proj1 (answer_with_llm_sentinel offline_env "A: hi" "Summarize"
                    "ollama:phi4" (FNum (3 * float_unit / 4)) world0)
             (PyExn RuntimeError "connection refused")).
    + reflexivity.
    + right. split; reflexivity.
  - apply (proj1 (proj2 (proj2 (answer_with_llm_sentinel
                                  (sample_env [] none none)
                                  "A: hi" "Summarize" "ollama:phi4"
                                  (FNum (3 * float_unit / 4)) world0)))
             " An answer. " []).
    + reflexivity.
    + reflexivity.
  - apply (proj2 (proj2 (proj2 (answer_with_llm_sentinel interrupted_env
                                  "A: hi" "Summarize" "ollama:phi4"
                                  (FNum (3 * float_unit / 4)) world0)))
             (PyExn KeyboardInterrupt "")).
    + reflexivity.
    + right. split; reflexivity.
Defined.

(** C9 as stated fails: the call raises [KeyboardInterrupt], and
    [answer_with_llm] raises it too instead of returning the sentinel. *)
Lemma answer_with_llm_propagates_counterexample :
  llm_create interrupted_env "ollama:phi4"
    [("system", LlmServices.system_prompt);
     ("user", LlmServices.user_prompt "A: hi" "Summarize")]
    (FNum (3 * float_unit / 4))
  = Raise (PyExn KeyboardInterrupt "") /\
  fst (LlmServices.answer_with_llm interrupted_env "A: hi" "Summarize"
         "ollama:phi4" (FNum (3 * float_unit / 4)) world0)
  = Raise (PyExn KeyboardInterrupt "") /\
  fst (LlmServices.answer_with_llm interrupted_env "A: hi" "Summarize"
         "ollama:phi4" (FNum (3 * float_unit / 4)) world0)
  <> Ok "LLM request failed.".
Proof.
  split; [reflexivity | ]. split; [reflexivity | ].
  intros H. discriminate H.
Qed.

(** ** The segment pipeline *)

Lemma os_path_join_nonempty (a : string) (c : ascii) (b : string) :
  exists c' p, os_path_join a (String c b) = String c' p.
Proof.
  unfold os_path_join.
  assert (Hb : exists c' p, String c b = String c' p) by eauto.
  assert (Hab : forall sep, exists c' p,
             a +:+ sep +:+ String c b = String c' p).
  { intros sep. destruct a as [ | x a]; cbn.
    - destruct sep; cbn; eauto.
    - eauto. }
  assert (Hgoal : exists c' p,
             match str_last a with
             | Some c0 =>
                 if char_eqb c0 "/" then a +:+ String c b
                 else a +:+ "/" +:+ String c b
             | None => String c b
             end = String c' p).
  { destruct (str_last a) as [c0 | ]; [ | exact Hb].
    destruct (char_eqb c0 "/"); [exact (Hab "") | exact (Hab "/")]. }
  destruct c as [[] [] [] [] [] [] [] []]; first [exact Hgoal | exact Hb].
Qed.

Lemma segment_path_nonempty (temp_dir : string) (i : nat) :
  exists c p, Main.segment_path temp_dir i = String c p.
Proof. unfold Main.segment_path. cbn. apply os_path_join_nonempty. Qed.

Lemma set_files_same (w : World) : set_files (files w) w = w.
Proof. destruct w; reflexivity. Qed.

Lemma remove_created (fs : gset string) (p : string) :
  p ∉ fs -> (fs ∪ {[ p ]}) ∖ {[ p ]} = fs.
Proof. set_solver. Qed.

Section Pipeline.

Variable env : Collaborators.
Variable transcriber : Transcriber.WhisperTranscriber env.
Variables temp_dir clip : string.

(** What one turn of the loop returns when the bounds print and the
    sub-clip, if created, transcribes. *)
Lemma process_segment_result i segment transcriptions w :
  span_prints segment ->
  (sub_clip_created env temp_dir clip (i, segment) = true ->
   is_ok (Transcriber.transcribe transcriber (Main.segment_path temp_dir i))
   = true) ->
  fst (Main.process_segment env transcriber temp_dir clip i segment
         transcriptions w)
  = Ok (transcriptions
        ++ expected_transcript env transcriber temp_dir clip [(i, segment)]).
Proof.
  intros [Hs He] Ht.
  unfold Main.process_segment, expected_transcript, segment_of_span,
    bind, lift, trim_audio, os_remove, ret.
  unfold sub_clip_created in *.
  cbn [fst snd filter list_filter] in *.
  destruct (Main.seconds_to_hms (d_start segment)) as [a | ];
    [ | discriminate Hs].
  destruct (Main.seconds_to_hms (d_end segment)) as [b | ];
    [ | discriminate He].
  destruct (segment_path_nonempty temp_dir i) as (c & p & Hp).
  rewrite Hp in *.
  destruct (trim_succeeds env clip a (Some b) (String c p)) eqn:Htrim.
  - specialize (Ht eq_refl).
    rewrite (decide_True (P := true = true)) by reflexivity.
    cbn [map fst snd]. rewrite Hp.
    destruct (Transcriber.transcribe transcriber (String c p)) as [text | ];
      [ | discriminate Ht].
    cbn [files set_files].
    rewrite decide_True by set_solver. reflexivity.
  - rewrite (decide_False (P := false = true)) by (intros H; discriminate H).
    cbn. rewrite app_nil_r. reflexivity.
Qed.

(** One turn of the loop that returns leaves the files as they were,
    provided the path of its sub-clip was free. *)
Lemma process_segment_world i segment transcriptions w r w' :
  Main.process_segment env transcriber temp_dir clip i segment
    transcriptions w = (Ok r, w') ->
  Main.segment_path temp_dir i ∉ files w ->
  w' = w.
Proof.
  unfold Main.process_segment, bind, lift, trim_audio, os_remove, ret.
  destruct (Main.seconds_to_hms (d_start segment)) as [a | ];
    [ | intros H; discriminate H].
  destruct (Main.seconds_to_hms (d_end segment)) as [b | ];
    [ | intros H; discriminate H].
  destruct (segment_path_nonempty temp_dir i) as (c & p & Hp).
  rewrite Hp.
  destruct (trim_succeeds env clip a (Some b) (String c p)).
  - destruct (Transcriber.transcribe transcriber (String c p)) as [text | ];
      [ | intros H; discriminate H].
    cbn [files set_files].
    rewrite decide_True by set_solver.
    intros H Hfresh. injection H as _ <-.
    destruct w as [fs n u ss]. unfold set_files. cbn in *.
    rewrite remove_created by exact Hfresh. reflexivity.
  - intros H _. injection H as _ <-. reflexivity.
Qed.

Lemma indexed_from_cons (i : nat) (x : DiarSegment) (l : list DiarSegment) :
  zip (seq i (length (x :: l))) (x :: l)
  = (i, x) :: zip (seq (S i) (length l)) l.
Proof. reflexivity. Qed.

Lemma expected_transcript_cons isp rest :
  expected_transcript env transcriber temp_dir clip (isp :: rest)
  = expected_transcript env transcriber temp_dir clip [isp]
    ++ expected_transcript env transcriber temp_dir clip rest.
Proof.
  unfold expected_transcript. cbn [filter list_filter].
  destruct (decide (sub_clip_created env temp_dir clip isp = true));
    reflexivity.
Qed.

(** The loop, when the bounds of every span print and every sub-clip that
    is created transcribes: the spans whose sub-clip was created, in
    order, after what was there. *)
Lemma process_segments_result spans :
  forall i transcriptions w,
    Forall span_prints spans ->
    (forall k segment,
        spans !! k = Some segment ->
        sub_clip_created env temp_dir clip ((i + k)%nat, segment) = true ->
        is_ok (Transcriber.transcribe transcriber
                 (Main.segment_path temp_dir (i + k))) = true) ->
    fst (Main.process_segments env transcriber temp_dir clip i spans
           transcriptions w)
    = Ok (transcriptions
          ++ expected_transcript env transcriber temp_dir clip
               (zip (seq i (length spans)) spans)).
Proof.
  induction spans as [ | segment rest IH]; intros i acc w Hprint Htr.
  - cbn. rewrite app_nil_r. reflexivity.
  - rewrite indexed_from_cons, expected_transcript_cons.
    cbn [Main.process_segments]. unfold bind at 1.
    inversion Hprint as [ | ? ? Hseg Hrest]; subst.
    assert (Hhead :
              sub_clip_created env temp_dir clip (i, segment) = true ->
              is_ok (Transcriber.transcribe transcriber
                       (Main.segment_path temp_dir i)) = true).
    { intros Hc. specialize (Htr 0%nat segment eq_refl).
      rewrite Nat.add_0_r in Htr. exact (Htr Hc). }
    pose proof (process_segment_result i segment acc w Hseg Hhead) as Hstep.
    destruct (Main.process_segment env transcriber temp_dir clip i segment
                acc w) as [[r | e] w1]; cbn in Hstep; [ | discriminate Hstep].
    injection Hstep as ->.
    rewrite IH.
    + rewrite <- app_assoc. reflexivity.
    + exact Hrest.
    + intros k seg Hk Hc.
      replace (S i + k)%nat with (i + S k)%nat in * by lia.
      exact (Htr (S k) seg Hk Hc).
Qed.

(** The loop, when it returns, leaves the world as it found it. *)
Lemma process_segments_world spans :
  forall i transcriptions w r w',
    Main.process_segments env transcriber temp_dir clip i spans
      transcriptions w = (Ok r, w') ->
    (forall j, Main.segment_path temp_dir j ∉ files w) ->
    w' = w.
Proof.
  induction spans as [ | segment rest IH]; intros i acc w r w' Hrun Hfresh.
  - cbn in Hrun. injection Hrun as _ <-. reflexivity.
  - cbn [Main.process_segments] in Hrun. unfold bind at 1 in Hrun.
    destruct (Main.process_segment env transcriber temp_dir clip i segment
                acc w) as [[r1 | e] w1] eqn:Hstep; [ | discriminate Hrun].
    apply process_segment_world in Hstep; [ | apply Hfresh]. subst w1.
    exact (IH _ _ _ _ _ Hrun Hfresh).
Qed.

(** The loop stops at the first span whose transcription raises. *)
Lemma process_segments_raises spans :
  forall i transcriptions w k segment e,
    spans !! k = Some segment ->
    Forall span_prints spans ->
    sub_clip_created env temp_dir clip ((i + k)%nat, segment) = true ->
    Transcriber.transcribe transcriber (Main.segment_path temp_dir (i + k))
    = Raise e ->
    (forall j, (j < k)%nat ->
       is_ok (Transcriber.transcribe transcriber
                (Main.segment_path temp_dir (i + j))) = true) ->
    fst (Main.process_segments env transcriber temp_dir clip i spans
           transcriptions w) = Raise e.
Proof.
  induction spans as [ | s0 rest IH];
    intros i acc w k segment e Hk Hprint Hkept Hfail Hbefore.
  - discriminate Hk.
  - inversion Hprint as [ | ? ? Hseg Hrest]; subst.
    cbn [Main.process_segments]. unfold bind at 1.
    destruct k as [ | k].
    + cbn in Hk. injection Hk as ->.
      rewrite Nat.add_0_r in Hkept, Hfail.
      unfold Main.process_segment, bind, lift, trim_audio.
      unfold sub_clip_created in Hkept. cbn [fst snd] in Hkept.
      destruct (Main.seconds_to_hms (d_start segment)) as [a | ];
        [ | discriminate Hkept].
      destruct (Main.seconds_to_hms (d_end segment)) as [b | ];
        [ | discriminate Hkept].
      rewrite Hkept.
      destruct (segment_path_nonempty temp_dir i) as (c & p & Hp).
      rewrite Hp in *. rewrite Hfail. reflexivity.
    + cbn in Hk.
      pose proof (process_segment_result i s0 acc w Hseg) as Hstep.
      specialize (Hbefore 0%nat) as H0. rewrite Nat.add_0_r in H0.
      specialize (Hstep (fun _ => H0 ltac:(lia))).
      destruct (Main.process_segment env transcriber temp_dir clip i s0
                  acc w) as [[r | e0] w1]; cbn in Hstep;
        [ | discriminate Hstep].
      apply (IH (S i) r w1 k segment e Hk Hrest).
      * replace (S i + k)%nat with (i + S k)%nat by lia. exact Hkept.
      * replace (S i + k)%nat with (i + S k)%nat by lia. exact Hfail.
      * intros j Hj. replace (S i + j)%nat with (i + S j)%nat by lia.
        apply Hbefore. lia.
Qed.

End Pipeline.

Lemma str_app_cancel (a x y : string) : a +:+ x = a +:+ y -> x = y.
Proof.
  induction a as [ | c a IH]; cbn; intros H; [exact H | ].
  injection H as H. exact (IH H).
Qed.

Lemma str_app_assoc (a b c : string) : (a +:+ b) +:+ c = a +:+ b +:+ c.
Proof.
  induction a as [ | x a IH]; [reflexivity | ].
  change (String x ((a +:+ b) +:+ c) = String x (a +:+ b +:+ c)).
  rewrite IH. reflexivity.
Qed.

Lemma os_path_join_relative (a : string) (c : ascii) (b : string) :
  c <> "/"%char ->
  os_path_join a (String c b) = join_prefix a +:+ String c b.
Proof.
  intros Hc. unfold join_prefix.
  assert (Hgoal :
            match str_last a with
            | Some c0 =>
                if char_eqb c0 "/" then a +:+ String c b
                else a +:+ "/" +:+ String c b
            | None => String c b
            end
            = match str_last a with
              | Some c0 => if char_eqb c0 "/" then a else a +:+ "/"
              | None => EmptyString
              end +:+ String c b).
  { destruct (str_last a) as [c0 | ]; [ | reflexivity].
    destruct (char_eqb c0 "/"); [reflexivity | ].
    exact (eq_sym (str_app_assoc a "/" (String c b))). }
  unfold os_path_join.
  destruct c as [[] [] [] [] [] [] [] []];
    first [exact Hgoal | contradiction Hc; reflexivity].
Qed.

(** A sub-clip never takes the path of the main clip. *)
Lemma segment_path_not_clip (temp_dir : string) (i : nat) :
  Main.segment_path temp_dir i <> os_path_join temp_dir "trimmed_audio.wav".
Proof.
  change (Main.segment_path temp_dir i)
    with (os_path_join temp_dir
            (String "s" ("egment_" +:+ str_of_int (Z.of_nat i) +:+ ".wav"))).
  rewrite !os_path_join_relative by (intros H; discriminate H).
  intros H. apply str_app_cancel in H. discriminate H.
Qed.

Section PipelineFrame.

Variable env : Collaborators.
Variable transcriber : Transcriber.WhisperTranscriber env.
Variables temp_dir clip : string.

(** One turn of the loop touches no file but its own sub-clip, and leaves
    the page and the session alone, whatever its outcome. *)
Lemma process_segment_frame i segment transcriptions w r w' :
  Main.process_segment env transcriber temp_dir clip i segment
    transcriptions w = (r, w') ->
  (forall q, q <> Main.segment_path temp_dir i ->
             q ∈ files w' <-> q ∈ files w) /\
  ui w' = ui w /\ session w' = session w /\ tmp_count w' = tmp_count w.
Proof.
  unfold Main.process_segment, bind, lift, trim_audio, os_remove, ret.
  destruct (Main.seconds_to_hms (d_start segment)) as [a | ];
    [ | intros [= _ <-]; tauto].
  destruct (Main.seconds_to_hms (d_end segment)) as [b | ];
    [ | intros [= _ <-]; tauto].
  destruct (segment_path_nonempty temp_dir i) as (c & p & Hp).
  rewrite Hp.
  destruct (trim_succeeds env clip a (Some b) (String c p));
    [ | intros [= _ <-]; tauto].
  destruct (Transcriber.transcribe transcriber (String c p)) as [text | ].
  - cbn [files set_files].
    rewrite decide_True by set_solver. intros [= _ <-]. cbn.
    repeat split; try reflexivity; set_solver.
  - intros [= _ <-]. cbn. repeat split; try reflexivity; set_solver.
Qed.

Lemma process_segments_frame spans :
  forall i transcriptions w r w',
    Main.process_segments env transcriber temp_dir clip i spans
      transcriptions w = (r, w') ->
    (forall q, (forall j, q <> Main.segment_path temp_dir j) ->
               q ∈ files w' <-> q ∈ files w) /\
    ui w' = ui w /\ session w' = session w /\ tmp_count w' = tmp_count w.
Proof.
  induction spans as [ | segment rest IH]; intros i acc w r w' Hrun.
  - cbn in Hrun. injection Hrun as _ <-. tauto.
  - cbn [Main.process_segments] in Hrun. unfold bind at 1 in Hrun.
    destruct (Main.process_segment env transcriber temp_dir clip i segment
                acc w) as [[r1 | e] w1] eqn:Hstep;
      apply process_segment_frame in Hstep;
      destruct Hstep as (Hf1 & Hu1 & Hs1 & Ht1).
    + apply IH in Hrun. destruct Hrun as (Hf & Hu & Hs & Ht).
      split.
      * intros q Hq. rewrite (Hf q Hq). apply Hf1. apply Hq.
      * rewrite Hu, Hs, Ht, Hu1, Hs1, Ht1. tauto.
    + injection Hrun as _ <-.
      split; [ | tauto].
      intros q Hq. apply Hf1. apply Hq.
Qed.

End PipelineFrame.

Lemma run_clip_nonempty (w : World) : exists c p, run_clip w = String c p.
Proof. apply os_path_join_nonempty. Qed.

(** [process_audio] once the main clip is there. *)
Lemma process_audio_after_trim env file_path start_time end_time model w
      spans transcriber :
  trim_succeeds env file_path start_time end_time (run_clip w) = true ->
  run_diarization env (run_clip w) = Ok spans ->
  Transcriber.init env model = Ok transcriber ->
  Main.process_audio env file_path start_time end_time model w
  = match Main.process_segments env transcriber (run_temp_dir w) (run_clip w)
            0 spans [] (world_with_clip w) with
    | (Ok transcriptions, w1) =>
        match os_remove (run_clip w) w1 with
        | (Ok _, w2) => (Ok transcriptions, w2)
        | (Raise e, w2) => (Raise e, w2)
        end
    | (Raise e, w1) => (Raise e, w1)
    end.
Proof.
  intros Htrim Hdia Hinit.
  unfold Main.process_audio, bind, mkdtemp, trim_audio, lift.
  fold (run_temp_dir w). fold (run_clip w). cbn [files].
  rewrite Htrim. unfold world_with_clip.
  destruct (run_clip_nonempty w) as (c & p & Hp).
  rewrite Hp in *. rewrite Hdia, Hinit. unfold set_files, ret. cbn.
  destruct (Main.process_segments env transcriber (run_temp_dir w)
              (String c p) 0 spans [] _) as [[r | e] w1]; [ | reflexivity].
  destruct (os_remove (String c p) w1) as [[u | e] w2]; reflexivity.
Qed.

(** The main clip is still there after the loop, so its removal succeeds. *)
Lemma clip_survives_loop env transcriber w spans :
  run_clip w ∈
    files (snd (Main.process_segments env transcriber (run_temp_dir w)
                  (run_clip w) 0 spans [] (world_with_clip w))).
Proof.
  destruct (Main.process_segments env transcriber (run_temp_dir w)
              (run_clip w) 0 spans [] (world_with_clip w))
    as [r w'] eqn:Hrun.
  apply process_segments_frame in Hrun. destruct Hrun as [Hf _].
  cbn [snd]. apply Hf.
  - intros j H. symmetry in H. exact (segment_path_not_clip _ _ H).
  - cbn. set_solver.
Qed.

(** C1: when the main clip is trimmed, diarized and the model loaded, the
    bounds of every span print, and the sub-clip of every span that has one
    transcribes, [process_audio] visits the spans in diarization order and
    returns exactly one entry per span whose sub-clip was created, in that
    order; a span whose trim fails is skipped, whatever the transcriber
    would do with the clip that is not there, and the run goes on. *)
Theorem process_audio_skip_and_continue
    (env : Collaborators) (file_path start_time : string)
    (end_time : option string) (whisper_model : string) (w : World)
    (spans : list DiarSegment)
    (transcriber : Transcriber.WhisperTranscriber env) :
  trim_succeeds env file_path start_time end_time (run_clip w) = true ->
  run_diarization env (run_clip w) = Ok spans ->
  Transcriber.init env whisper_model = Ok transcriber ->
  Forall span_prints spans ->
  (forall k segment,
      spans !! k = Some segment ->
      sub_clip_created env (run_temp_dir w) (run_clip w) (k, segment) = true ->
      is_ok (Transcriber.transcribe transcriber
               (Main.segment_path (run_temp_dir w) k)) = true) ->
  fst (Main.process_audio env file_path start_time end_time whisper_model w)
  = Ok (expected_transcript env transcriber (run_temp_dir w) (run_clip w)
          (indexed_spans spans)).
Proof.
  intros Htrim Hdia Hinit Hprint Htr.
  rewrite (process_audio_after_trim _ _ _ _ _ _ _ _ Htrim Hdia Hinit).
  pose proof (process_segments_result env transcriber (run_temp_dir w)
                (run_clip w) spans 0%nat [] (world_with_clip w) Hprint Htr)
    as Hloop.
  pose proof (clip_survives_loop env transcriber w spans) as Hclip.
  destruct (Main.process_segments env transcriber (run_temp_dir w)
              (run_clip w) 0 spans [] (world_with_clip w))
    as [[r | e] w1]; cbn [fst snd] in *; [ | discriminate Hloop].
  injection Hloop as ->.
  unfold os_remove. rewrite decide_True by exact Hclip. reflexivity.
Qed.

(** Three spans, the trim of the second fails, and the transcriber would
    raise on the clip that was never created: two entries, for the first
    and the third span, in that order. *)
Lemma process_audio_skip_and_continue_witness :
  length three_spans = 3%nat /\
  is_ok (Transcriber.transcribe
           (sample_transcriber three_spans (only "/tmp/tmp0/segment_1.wav")
              (only "/tmp/tmp0/segment_1.wav"))
           "/tmp/tmp0/segment_1.wav") = false /\
  fst (Main.process_audio
         (sample_env three_spans (only "/tmp/tmp0/segment_1.wav")
            (only "/tmp/tmp0/segment_1.wav"))
         "/data/talk.wav" "00:00" (Some "00:30") "base" world0)
  = Ok [ {| t_speaker := "SPEAKER_00";
            t_text := "words of /tmp/tmp0/segment_0.wav";
            t_start := FNum 0; t_end := FNum (2 * float_unit) |};
         {| t_speaker := "SPEAKER_00";
            t_text := "words of /tmp/tmp0/segment_2.wav";
            t_start := FNum (5 * float_unit);
            t_end := FNum (9 * float_unit) |} ].
Proof.
  split; [reflexivity | split; [reflexivity | ]].
  rewrite (process_audio_skip_and_continue
             (sample_env three_spans (only "/tmp/tmp0/segment_1.wav")
                (only "/tmp/tmp0/segment_1.wav"))
             "/data/talk.wav" "00:00" (Some "00:30") "base" world0
             three_spans
             (sample_transcriber three_spans
                (only "/tmp/tmp0/segment_1.wav")
                (only "/tmp/tmp0/segment_1.wav"))).
  - vm_compute. reflexivity.
  - reflexivity.
  - reflexivity.
  - reflexivity.
  - repeat constructor.
  - intros k segment Hk Hc.
    destruct k as [ | [ | [ | k]]]; cbn in Hk.
    + reflexivity.
    + injection Hk as <-. vm_compute in Hc. discriminate Hc.
    + reflexivity.
    + discriminate Hk.
Defined.

(** C2, as the code has it: nothing in [process_audio] or in
    [WhisperTranscriber.transcribe] catches an exception, so when the
    transcription of the sub-clip of a span raises, [process_audio] raises
    the same exception and returns no transcript.  Skipping is what happens
    to a span whose trim fails, not to one whose transcription fails. *)
Theorem transcription_failure_aborts
    (env : Collaborators) (file_path start_time : string)
    (end_time : option string) (whisper_model : string) (w : World)
    (spans : list DiarSegment)
    (transcriber : Transcriber.WhisperTranscriber env)
    (k : nat) (segment : DiarSegment) (e : exn) :
  trim_succeeds env file_path start_time end_time (run_clip w) = true ->
  run_diarization env (run_clip w) = Ok spans ->
  Transcriber.init env whisper_model = Ok transcriber ->
  Forall span_prints spans ->
  spans !! k = Some segment ->
  sub_clip_created env (run_temp_dir w) (run_clip w) (k, segment) = true ->
  Transcriber.transcribe transcriber (Main.segment_path (run_temp_dir w) k)
  = Raise e ->
  (forall j, (j < k)%nat ->
     is_ok (Transcriber.transcribe transcriber
              (Main.segment_path (run_temp_dir w) j)) = true) ->
  fst (Main.process_audio env file_path start_time end_time whisper_model w)
  = Raise e.
Proof.
  intros Htrim Hdia Hinit Hprint Hk Hkept Hfail Hbefore.
  rewrite (process_audio_after_trim _ _ _ _ _ _ _ _ Htrim Hdia Hinit).
  pose proof (process_segments_raises env transcriber (run_temp_dir w)
                (run_clip w) spans 0%nat [] (world_with_clip w) k segment e
                Hk Hprint Hkept Hfail Hbefore) as Hloop.
  destruct (Main.process_segments env transcriber (run_temp_dir w)
              (run_clip w) 0 spans [] (world_with_clip w))
    as [[r | e0] w1]; cbn [fst] in Hloop; [discriminate Hloop | ].
  exact Hloop.
Qed.

(** Three spans, the transcription of the second raises: the run raises. *)
Lemma transcription_failure_aborts_witness :
  fst (Main.process_audio
         (sample_env three_spans none (only "/tmp/tmp0/segment_1.wav"))
         "/data/talk.wav" "00:00" (Some "00:30") "base" world0)
  = Raise (PyExn RuntimeError "failed to load audio").
Proof.
  apply (transcription_failure_aborts
           (sample_env three_spans none (only "/tmp/tmp0/segment_1.wav"))
           "/data/talk.wav" "00:00" (Some "00:30") "base" world0
           three_spans
           (sample_transcriber three_spans none
              (only "/tmp/tmp0/segment_1.wav"))
           1%nat (span "SPEAKER_01" 2 5)).
  - reflexivity.
  - reflexivity.
  - reflexivity.
  - repeat constructor.
  - reflexivity.
  - vm_compute. reflexivity.
  - reflexivity.
  - intros j Hj. assert (j = 0%nat) as -> by lia. reflexivity.
Defined.

(** C2 as stated fails: with three spans whose sub-clips are all created
    and a transcriber that raises on the second, the other two spans would
    transcribe, yet [process_audio] returns no transcript at all. *)
Lemma transcription_failure_counterexample :
  let env := sample_env three_spans none (only "/tmp/tmp0/segment_1.wav") in
  let transcriber :=
    sample_transcriber three_spans none (only "/tmp/tmp0/segment_1.wav") in
  Transcriber.transcribe transcriber "/tmp/tmp0/segment_0.wav"
  = Ok "words of /tmp/tmp0/segment_0.wav" /\
  Transcriber.transcribe transcriber "/tmp/tmp0/segment_2.wav"
  = Ok "words of /tmp/tmp0/segment_2.wav" /\
  is_ok (fst (Main.process_audio env "/data/talk.wav" "00:00"
                (Some "00:30") "base" world0)) = false.
Proof. vm_compute. repeat split. Qed.

(** C3, as the code has it: when the main clip is trimmed, the diarizer
    returns zero spans and the Whisper model loads, [process_audio] returns
    the empty list, which is also what it returns when the trim of the main
    clip fails; [transcribe_audio_source], for a local file and for audio
    downloaded from YouTube alike, treats both cases the same: it reports
    "No transcriptions generated." as an error and leaves the session as it
    was. *)
Theorem empty_transcript_is_reported
    (env : Collaborators) (audio_source : string) (is_youtube : bool)
    (start_time : string) (end_time : option string)
    (whisper_model : string) (w : World) :
  let final_path :=
    if is_youtube then os_path_join (run_temp_dir w) "youtube_audio.wav"
    else audio_source in
  (is_youtube = true ->
   download_succeeds env audio_source final_path = true) ->
  (forall out,
      trim_succeeds env final_path start_time end_time out = true) /\
  (forall clip, run_diarization env clip = Ok []) /\
  is_ok (whisper_load_model env whisper_model) = true
  \/ (forall out,
        trim_succeeds env final_path start_time end_time out = false) ->
  (forall w0, exists w',
      Main.process_audio env final_path start_time end_time whisper_model w0
      = (Ok [], w')) /\
  (exists w',
      Main.transcribe_audio_source env audio_source is_youtube start_time
        end_time whisper_model w = (Ok tt, w') /\
      ui w' = ui w ++ [StError "No transcriptions generated."] /\
      session w' = session w).
Proof.
  intros final_path Hdl Hcase.
  assert (Hrun : forall w0,
    exists w',
      Main.process_audio env final_path start_time end_time whisper_model
        w0 = (Ok [], w') /\ ui w' = ui w0 /\ session w' = session w0).
  { intros w0. destruct Hcase as [(Htrim & Hdia & Hload) | Htrim].
    - destruct (whisper_load_model env whisper_model) as [m | ] eqn:Hm;
        [ | discriminate Hload].
      rewrite (process_audio_after_trim env final_path start_time end_time
                 whisper_model w0 [] {| Transcriber.model := m |}
                 (Htrim _) (Hdia _)).
      + cbn [Main.process_segments ret]. unfold os_remove.
        rewrite decide_True by (cbn; set_solver).
        eexists. split; [reflexivity | ]. split; reflexivity.
      + unfold Transcriber.init. rewrite Hm. reflexivity.
    - unfold Main.process_audio, bind, mkdtemp, trim_audio.
      rewrite Htrim. eexists. split; [reflexivity | ]. split; reflexivity. }
  split.
  - intros w0. destruct (Hrun w0) as (w' & Hw' & _). eauto.
  - unfold Main.transcribe_audio_source.
    unfold bind at 1. unfold mkdtemp. fold (run_temp_dir w).
    destruct is_youtube.
    + specialize (Hdl eq_refl). subst final_path.
      unfold bind at 1, download_youtube_audio. rewrite Hdl.
      destruct (os_path_join_nonempty (run_temp_dir w) "y" "outube_audio.wav")
        as (c & p & Hp).
      rewrite Hp in *.
      unfold Main.process_and_store. unfold bind at 1.
      match goal with
      | |- context [Main.process_audio _ _ _ _ _ ?w1] =>
          destruct (Hrun w1) as (w' & Hw' & Hui & Hss)
      end.
      rewrite Hw'. unfold st_error.
      eexists. split; [reflexivity | ]. cbn. rewrite Hui, Hss.
      split; reflexivity.
    + subst final_path.
      unfold Main.process_and_store. unfold bind at 1.
      match goal with
      | |- context [Main.process_audio _ _ _ _ _ ?w1] =>
          destruct (Hrun w1) as (w' & Hw' & Hui & Hss)
      end.
      rewrite Hw'. unfold st_error.
      eexists. split; [reflexivity | ]. cbn. rewrite Hui, Hss.
      split; reflexivity.
Qed.

(** A silent clip (zero spans) downloaded from YouTube, and a local file
    that cannot be trimmed: the same report. *)
Lemma empty_transcript_is_reported_witness :
  (exists w',
      Main.transcribe_audio_source (sample_env [] none none)
        "https://www.youtube.com/watch?v=x" true "00:00" (Some "00:30")
        "base" world0 = (Ok tt, w') /\
      ui w' = ui world0 ++ [StError "No transcriptions generated."] /\
      session w' = session world0) /\
  (exists w',
      Main.process_audio (sample_env three_spans all none) "/data/talk.wav"
        "00:00" (Some "00:30") "base" world0 = (Ok [], w')).
Proof.
  split.
  - apply (empty_transcript_is_reported (sample_env [] none none)
             "https://www.youtube.com/watch?v=x" true
             "00:00" (Some "00:30") "base" world0).
    + intros _. reflexivity.
    + left. repeat split.
  - apply (empty_transcript_is_reported (sample_env three_spans all none)
             "/data/talk.wav" false "00:00" (Some "00:30") "base" world0).
    + intros H. discriminate H.
    + right. intros out. reflexivity.
Defined.

(** C3 as stated fails: a silent clip is reported as the error
    "No transcriptions generated.", and what [process_audio] returns for
    it is what it returns when the main clip cannot be trimmed. *)
Lemma empty_transcript_counterexample :
  let silent := sample_env [] none none in
  let untrimmable := sample_env three_spans all none in
  ui (snd (Main.transcribe_audio_source silent "/data/talk.wav" false
             "00:00" (Some "00:30") "base" world0))
  = [StError "No transcriptions generated."] /\
  fst (Main.process_audio silent "/data/talk.wav" "00:00" (Some "00:30")
         "base" world0)
  = fst (Main.process_audio untrimmable "/data/talk.wav" "00:00"
           (Some "00:30") "base" world0) /\
  Main.transcribe_audio_source silent "/data/talk.wav" false "00:00"
    (Some "00:30") "base" world0
  = Main.transcribe_audio_source untrimmable "/data/talk.wav" false "00:00"
      (Some "00:30") "base" world0.
Proof. vm_compute. repeat split. Qed.

(** C4, as the code has it: when [process_audio] returns, every clip of
    the run is gone again, the files are what they were before; and each
    turn of the loop that returns has removed the sub-clip it created.
    Nothing is promised for a run that raises. *)
Theorem clips_released_on_return
    (env : Collaborators) (file_path start_time : string)
    (end_time : option string) (whisper_model : string) (w : World)
    (r : list Transcription) (w' : World) :
  clips_fresh w ->
  Main.process_audio env file_path start_time end_time whisper_model w
  = (Ok r, w') ->
  files w' = files w /\
  (forall transcriber i segment transcriptions w1 r1 w2,
      Main.segment_path (run_temp_dir w) i ∉ files w1 ->
      Main.process_segment env transcriber (run_temp_dir w) (run_clip w) i
        segment transcriptions w1 = (Ok r1, w2) ->
      files w2 = files w1).
Proof.
  intros [Hclip Hsegs] Hrun. split.
  - unfold Main.process_audio, bind, mkdtemp, trim_audio, lift in Hrun.
    fold (run_temp_dir w) in Hrun. fold (run_clip w) in Hrun.
    cbn [files] in Hrun.
    destruct (trim_succeeds env file_path start_time end_time (run_clip w));
      [ | injection Hrun as _ <-; reflexivity].
    destruct (run_clip_nonempty w) as (c & p & Hp).
    rewrite Hp in Hrun.
    destruct (run_diarization env (String c p)) as [spans | ];
      [ | discriminate Hrun].
    destruct (Transcriber.init env whisper_model) as [transcriber | ];
      [ | discriminate Hrun].
    unfold set_files in Hrun. cbn [files tmp_count ui session] in Hrun.
    destruct (Main.process_segments env transcriber (run_temp_dir w)
                (String c p) 0 spans [] _) as [[r1 | e] w1] eqn:Hloop;
      [ | discriminate Hrun].
    apply process_segments_world in Hloop.
    + subst w1. unfold os_remove in Hrun. cbn [files] in Hrun.
      rewrite decide_True in Hrun by set_solver.
      unfold ret in Hrun. injection Hrun as _ <-. cbn [files].
      rewrite <- Hp. apply remove_created. exact Hclip.
    + intros j. cbn [files]. rewrite <- Hp.
      pose proof (segment_path_not_clip (run_temp_dir w) j) as Hne.
      specialize (Hsegs j). fold (run_clip w) in Hne. set_solver.
  - intros transcriber i segment acc w1 r1 w2 Hfree Hstep.
    apply process_segment_world in Hstep; [ | exact Hfree].
    subst w2. reflexivity.
Qed.

Lemma world0_fresh : clips_fresh world0.
Proof.
  split.
  - vm_compute. set_solver.
  - intros i. cbn [files world0].
    change (Main.segment_path (run_temp_dir world0) i)
      with (os_path_join "/tmp/tmp0"
              (String "s"
                 ("egment_" +:+ str_of_int (Z.of_nat i) +:+ ".wav"))).
    rewrite os_path_join_relative by (intros H; discriminate H).
    intros H. apply elem_of_singleton in H. discriminate H.
Qed.

(** A run over three spans that returns leaves only the source file. *)
Lemma clips_released_on_return_witness :
  files (snd (Main.process_audio
                (sample_env three_spans (only "/tmp/tmp0/segment_1.wav")
                   none)
                "/data/talk.wav" "00:00" (Some "00:30") "base" world0))
  = files world0.
Proof.
  destruct (Main.process_audio
              (sample_env three_spans (only "/tmp/tmp0/segment_1.wav") none)
              "/data/talk.wav" "00:00" (Some "00:30") "base" world0)
    as [[r | e] w'] eqn:Hrun.
  - exact (proj1 (clips_released_on_return _ _ _ _ _ _ _ _
                    world0_fresh Hrun)).
  - exfalso. vm_compute in Hrun. discriminate Hrun.
Defined.

(** C4 as stated fails: when the transcription of the second span raises,
    the run ends with the sub-clip of that span and the main clip still on
    disk. *)
Lemma clips_left_behind_counterexample :
  let w' :=
    snd (Main.process_audio
           (sample_env three_spans none (only "/tmp/tmp0/segment_1.wav"))
           "/data/talk.wav" "00:00" (Some "00:30") "base" world0) in
  bool_decide ("/tmp/tmp0/segment_1.wav" ∈ files w') = true /\
  bool_decide ("/tmp/tmp0/trimmed_audio.wav" ∈ files w') = true /\
  bool_decide ("/tmp/tmp0/segment_0.wav" ∈ files w') = false.
Proof. vm_compute. repeat split. Qed.

(** ** The time pattern *)

Lemma str_length_app (a b : string) :
  String.length (a +:+ b) = (String.length a + String.length b)%nat.
Proof.
  induction a as [ | c a IH]; [reflexivity | ].
  change (S (String.length (a +:+ b))
          = S (String.length a + String.length b)).
  rewrite IH. reflexivity.
Qed.

Lemma str_app_empty_r (a : string) : a +:+ EmptyString = a.
Proof.
  induction a as [ | c a IH]; [reflexivity | ].
  change (String c (a +:+ EmptyString) = String c a). rewrite IH.
  reflexivity.
Qed.

(** What it means for a matcher to decide a language: its end positions
    are the ends of the prefixes the language holds. *)
Definition decides (m : mstate -> list mstate) (L : string -> Prop) : Prop :=
  forall n s n' rest,
    In (n', rest) (m (n, s)) <->
    exists t, s = t +:+ rest /\ n' = (n + String.length t)%nat /\ L t.

Lemma rep_match_decides m L (lo hi : nat) :
  decides m L ->
  decides (rep_match m lo hi)
          (fun t => exists k, (lo <= k <= hi)%nat /\ lang_pow L k t).
Proof.
  intros Hm. revert lo.
  induction hi as [ | hi IH]; intros lo n s n' rest.
  - cbn [rep_match]. split.
    + destruct (Nat.eqb_spec lo 0) as [-> | Hlo]; [ | intros []].
      intros [[= <- <-] | []]. exists EmptyString.
      repeat split; [cbn; lia | ]. exists 0%nat. split; [lia | reflexivity].
    + intros (t & -> & -> & k & Hk & Hpow).
      assert (k = 0%nat) as -> by lia. assert (lo = 0%nat) as -> by lia.
      cbn in Hpow. subst t. left. f_equal. cbn. lia.
  - cbn [rep_match]. rewrite in_app_iff, in_flat_map. split.
    + intros [((n1 & s1) & Hstep & Hrest) | Hskip].
      * apply Hm in Hstep. destruct Hstep as (t1 & -> & -> & Ht1).
        apply IH in Hrest.
        destruct Hrest as (t2 & -> & -> & k & Hk & Hpow).
        exists (t1 +:+ t2). rewrite str_app_assoc, str_length_app.
        repeat split; [cbn; lia | ].
        exists (S k). split; [lia | ]. cbn. eauto.
      * destruct (Nat.eqb_spec lo 0) as [-> | Hlo]; [ | destruct Hskip].
        destruct Hskip as [[= <- <-] | []]. exists EmptyString.
        repeat split; [cbn; lia | ]. exists 0%nat. split; [lia | reflexivity].
    + intros (t & -> & -> & k & Hk & Hpow). destruct k as [ | k].
      * right. assert (lo = 0%nat) as -> by lia. cbn in Hpow. subst t.
        left. f_equal. cbn. lia.
      * left. cbn in Hpow. destruct Hpow as (t1 & t2 & -> & Ht1 & Hpow).
        exists ((n + String.length t1)%nat, t2 +:+ rest). split.
        -- apply Hm. exists t1. rewrite str_app_assoc. auto.
        -- apply IH. exists t2. rewrite str_length_app.
           repeat split; [cbn; lia | ]. exists k. split; [lia | exact Hpow].
Qed.

(** The matcher decides the language of every expression without
    anchors. *)
Lemma rmatch_decides (r : regex) :
  anchor_free r = true -> decides (rmatch r) (lang r).
Proof.
  induction r as [ | | c | lo hi | a IHa b IHb | a IHa | a IHa lo hi];
    cbn [anchor_free]; intros Hfree; try discriminate Hfree.
  - intros n s n' rest. cbn [rmatch lang fst snd]. split.
    + destruct s as [ | d s]; [intros [] | ].
      destruct (Ascii.eqb_spec d c) as [-> | Hd];
        unfold char_eqb; [rewrite Ascii.eqb_refl | ].
      * intros [[= <- <-] | []]. exists (String c EmptyString).
        repeat split. cbn. lia.
      * apply Ascii.eqb_neq in Hd. rewrite Hd. intros [].
    + intros (t & -> & -> & ->).
      change (String c "" +:+ rest) with (String c rest).
      cbv beta iota.
      unfold char_eqb. rewrite Ascii.eqb_refl. left. f_equal. cbn. lia.
  - intros n s n' rest. cbn [rmatch lang fst snd]. split.
    + destruct s as [ | d s]; [intros [] | ].
      destruct ((ord lo <=? ord d)%nat && (ord d <=? ord hi)%nat) eqn:Hr;
        [ | intros []].
      intros [[= <- <-] | []]. exists (String d EmptyString).
      repeat split; [cbn; lia | ].
      exists d. split; [reflexivity | ].
      apply andb_prop in Hr. destruct Hr as [H1 H2].
      apply Nat.leb_le in H1, H2. lia.
    + intros (t & -> & -> & d & -> & Hd).
      change (String d "" +:+ rest) with (String d rest).
      cbv beta iota.
      match goal with
      | |- context [if ?c then _ else _] => destruct c eqn:Hr
      end.
      * left. f_equal. cbn. lia.
      * exfalso. apply andb_false_iff in Hr.
        destruct Hr as [H | H]; apply Nat.leb_gt in H; lia.
  - apply andb_prop in Hfree. destruct Hfree as [Ha Hb].
    specialize (IHa Ha). specialize (IHb Hb).
    intros n s n' rest. cbn [rmatch lang]. rewrite in_flat_map. split.
    + intros ((n1 & s1) & H1 & H2).
      apply IHa in H1. destruct H1 as (t1 & -> & -> & Ht1).
      apply IHb in H2. destruct H2 as (t2 & -> & -> & Ht2).
      exists (t1 +:+ t2). rewrite str_app_assoc, str_length_app.
      repeat split; [cbn; lia | ]. eauto.
    + intros (t & -> & -> & t1 & t2 & -> & Ht1 & Ht2).
      exists ((n + String.length t1)%nat, t2 +:+ rest). split.
      * apply IHa. exists t1. rewrite str_app_assoc. auto.
      * apply IHb. exists t2. rewrite str_length_app.
        repeat split; [lia | exact Ht2].
  - specialize (IHa Hfree).
    intros n s n' rest. cbn [rmatch lang]. rewrite in_app_iff. split.
    + intros [H | [[= <- <-] | []]].
      * apply IHa in H. destruct H as (t & -> & -> & Ht). eauto.
      * exists EmptyString. repeat split; [cbn; lia | ]. left. reflexivity.
    + intros (t & -> & -> & [-> | Ht]).
      * right. left. f_equal. cbn. lia.
      * left. apply IHa. eauto.
  - specialize (IHa Hfree).
    exact (rep_match_decides (rmatch a) (lang a) lo hi IHa).
Qed.

Lemma full_match_lang (r : regex) (text : string) :
  anchor_free r = true -> full_match r text = true <-> lang r text.
Proof.
  intros Hfree. unfold full_match. rewrite existsb_exists. split.
  - intros ((n & rest) & Hin & Hrest). cbn [snd] in Hrest.
    apply String.eqb_eq in Hrest. subst rest.
    apply (rmatch_decides r Hfree) in Hin.
    destruct Hin as (t & -> & _ & Ht). rewrite str_app_empty_r. exact Ht.
  - intros Ht. exists (String.length text, EmptyString). split.
    + apply (rmatch_decides r Hfree). exists text.
      rewrite str_app_empty_r. auto.
    + reflexivity.
Qed.

Lemma nonempty_exists {A} (l : list A) :
  match l with [] => false | _ => true end = true <-> exists x, In x l.
Proof.
  destruct l as [ | x l]; split.
  - intros H. discriminate H.
  - intros [x []].
  - intros _. exists x. left. reflexivity.
  - reflexivity.
Qed.

(** [$] after a match: at the end, or before a newline that ends the
    text. *)
Lemma eol_holds (st : mstate) :
  (exists x, In x (rmatch REol st)) <->
  snd st = EmptyString \/ snd st = String newline EmptyString.
Proof.
  destruct st as [n s]. cbn [rmatch snd]. split.
  - intros [x Hx]. destruct s as [ | c [ | d s]]; [auto | | destruct Hx].
    destruct (Ascii.eqb_spec c newline) as [-> | Hc]; [auto | ].
    unfold char_eqb in Hx. apply Ascii.eqb_neq in Hc. rewrite Hc in Hx.
    destruct Hx.
  - intros [-> | ->].
    + eexists. left. reflexivity.
    + eexists. left. reflexivity.
Qed.

(** The validator as a search for a prefix matching the time pattern that
    ends where [$] holds. *)
Lemma validate_time_format_search (text : string) :
  TimeUtils.validate_time_format text = true <->
  exists x st, In st (rmatch time_regex (0%nat, text)) /\
               In x (rmatch REol st).
Proof.
  unfold TimeUtils.validate_time_format, re_match.
  rewrite nonempty_exists.
  change (rmatch time_pattern (0%nat, text))
    with (flat_map (rmatch REol) (rmatch time_regex (0%nat, text)) ++ []).
  rewrite app_nil_r. split.
  - intros [x Hx]. apply in_flat_map in Hx. destruct Hx as (st & Hst & Hx).
    eauto.
  - intros (x & st & Hst & Hx). exists x. apply in_flat_map. eauto.
Qed.

(** A text that the validator accepts is a text of the time pattern, or
    such a text followed by one newline. *)
Lemma validate_time_format_lang (text : string) :
  TimeUtils.validate_time_format text = true ->
  lang time_regex text \/
  exists t, text = t +:+ String newline EmptyString /\ lang time_regex t.
Proof.
  intros H. apply validate_time_format_search in H.
  destruct H as (x & st & Hst & Hx).
  assert (Heol : exists x, In x (rmatch REol st)) by eauto.
  apply eol_holds in Heol. destruct st as [n rest]. cbn [snd] in Heol.
  apply (rmatch_decides time_regex eq_refl) in Hst.
  destruct Hst as (t & -> & _ & Ht). destruct Heol as [-> | ->].
  - left. rewrite str_app_empty_r. exact Ht.
  - right. eauto.
Qed.

(** ** Rounding *)

Section Rounding.

Local Open Scope Z_scope.

Lemma rhe_div_error (a b : Z) :
  0 < b -> 2 * Z.abs (rhe_div a b * b - a) <= b.
Proof.
  intros Hb. unfold rhe_div.
  pose proof (Z.div_mod a b ltac:(lia)) as Hdm.
  pose proof (Z.mod_pos_bound a b Hb) as Hr.
  set (q := a / b) in *. set (r := a mod b) in *.
  destruct (Z.compare_spec (2 * r) b) as [He | Hl | Hg].
  - destruct (Z.even q); lia.
  - lia.
  - lia.
Qed.

Lemma rhe_div_unique (a b q : Z) :
  0 < b -> 2 * Z.abs (a - q * b) < b -> rhe_div a b = q.
Proof.
  intros Hb Hq. unfold rhe_div.
  destruct (Z_le_gt_dec (q * b) a) as [Hle | Hgt].
  - assert (Hd : a / b = q).
    { symmetry. apply (Z.div_unique a b q (a - q * b)); lia. }
    assert (Hm : a mod b = a - q * b).
    { rewrite Z.mod_eq by lia. rewrite Hd. lia. }
    rewrite Hd, Hm.
    destruct (Z.compare_spec (2 * (a - q * b)) b); lia.
  - assert (Hd : a / b = q - 1).
    { symmetry. apply (Z.div_unique a b (q - 1) (a - (q - 1) * b)); lia. }
    assert (Hm : a mod b = a - (q - 1) * b).
    { rewrite Z.mod_eq by lia. rewrite Hd. lia. }
    rewrite Hd, Hm.
    destruct (Z.compare_spec (2 * (a - (q - 1) * b)) b); lia.
Qed.

Lemma rhe_div_exact (q b : Z) : 0 < b -> rhe_div (q * b) b = q.
Proof. intros Hb. apply rhe_div_unique; [exact Hb | ]. lia. Qed.

Lemma rhe_div_scale (a b c : Z) :
  0 < b -> 0 < c -> rhe_div (a * c) (b * c) = rhe_div a b.
Proof.
  intros Hb Hc. unfold rhe_div.
  rewrite Z.div_mul_cancel_r by lia.
  rewrite Z.mul_mod_distr_r by lia.
  replace (2 * (a mod b * c)) with (2 * (a mod b) * c) by lia.
  destruct (Z.compare_spec (2 * (a mod b) * c) (b * c)),
    (Z.compare_spec (2 * (a mod b)) b); try reflexivity; nia.
Qed.

Lemma rhe_div_lower (a b q : Z) : 0 < b -> q * b <= a -> q <= rhe_div a b.
Proof.
  intros Hb Hq. unfold rhe_div.
  assert (q <= a / b) by (apply Z.div_le_lower_bound; lia).
  destruct (2 * (a mod b) ?= b); [destruct (Z.even (a / b)) | | ]; lia.
Qed.

Lemma rhe_div_upper (a b q : Z) : 0 < b -> a <= q * b -> rhe_div a b <= q.
Proof.
  intros Hb Hq. unfold rhe_div.
  pose proof (Z.div_mod a b ltac:(lia)) as Hdm.
  pose proof (Z.mod_pos_bound a b Hb) as Hr.
  assert (Hd : a / b <= q).
  { apply Z.div_le_upper_bound; lia. }
  destruct (Z.eq_dec (a / b) q) as [He | Hne].
  - assert (a mod b = 0) by nia.
    replace (2 * (a mod b) ?= b) with Lt; [lia | ].
    symmetry. apply Z.compare_lt_iff. lia.
  - destruct (2 * (a mod b) ?= b); [destruct (Z.even (a / b)) | | ]; lia.
Qed.

Lemma rhe_div_nonneg (a b : Z) : 0 <= a -> 0 < b -> 0 <= rhe_div a b.
Proof. intros Ha Hb. apply rhe_div_lower; lia. Qed.

Lemma round_ratio_unfold (p q : Z) :
  round_ratio p q = rhe_div p (q * 2 ^ ratio_exp p q) * 2 ^ ratio_exp p q.
Proof. reflexivity. Qed.

Lemma ratio_exp_nonneg (p q : Z) : 0 <= ratio_exp p q.
Proof. unfold ratio_exp. lia. Qed.

Lemma pow2_pos (k : Z) : 0 <= k -> 0 < 2 ^ k.
Proof. intros Hk. apply Z.pow_pos_nonneg; lia. Qed.

(** The rounding error is at most half the spacing. *)
Lemma round_ratio_error (p q : Z) :
  0 < q ->
  2 * Z.abs (round_ratio p q * q - p) <= q * 2 ^ ratio_exp p q.
Proof.
  intros Hq. rewrite round_ratio_unfold.
  pose proof (pow2_pos _ (ratio_exp_nonneg p q)) as Hk.
  pose proof (rhe_div_error p (q * 2 ^ ratio_exp p q) ltac:(nia)) as He.
  replace (rhe_div p (q * 2 ^ ratio_exp p q) * 2 ^ ratio_exp p q * q - p)
    with (rhe_div p (q * 2 ^ ratio_exp p q) * (q * 2 ^ ratio_exp p q) - p)
    by ring.
  exact He.
Qed.

Lemma round_ratio_nonneg (p q : Z) : 0 <= p -> 0 < q -> 0 <= round_ratio p q.
Proof.
  intros Hp Hq. rewrite round_ratio_unfold.
  pose proof (pow2_pos _ (ratio_exp_nonneg p q)) as Hk.
  pose proof (rhe_div_nonneg p (q * 2 ^ ratio_exp p q) Hp ltac:(nia)).
  nia.
Qed.

(** A multiple of the spacing rounds to itself. *)
Lemma round53_multiple (n : Z) :
  0 <= n -> (2 ^ ratio_exp n 1 | n) -> round53 n = n.
Proof.
  intros Hn [c Hc]. unfold round53. rewrite round_ratio_unfold.
  pose proof (pow2_pos _ (ratio_exp_nonneg n 1)) as Hk.
  rewrite Z.mul_1_l. rewrite Hc at 1.
  rewrite rhe_div_exact by exact Hk. lia.
Qed.

Lemma ratio_exp_one_small (n : Z) : 0 <= n < 2 ^ 53 -> ratio_exp n 1 = 0.
Proof.
  intros Hn. unfold ratio_exp. rewrite Z.div_1_r.
  destruct (Z.eq_dec n 0) as [-> | Hne]; [reflexivity | ].
  assert (Z.log2 n < 53) by (apply Z.log2_lt_pow2; lia). lia.
Qed.

Lemma round53_small (n : Z) : 0 <= n < 2 ^ 53 -> round53 n = n.
Proof.
  intros Hn. apply round53_multiple; [lia | ].
  rewrite ratio_exp_one_small by exact Hn. apply Z.divide_1_l.
Qed.

Lemma ratio_exp_one_le (n : Z) (e : Z) :
  0 <= n < 2 ^ (53 + e) -> 0 <= e -> ratio_exp n 1 <= e.
Proof.
  intros Hn He. unfold ratio_exp. rewrite Z.div_1_r.
  destruct (Z.eq_dec n 0) as [-> | Hne]; [cbn; lia | ].
  assert (Z.log2 n < 53 + e) by (apply Z.log2_lt_pow2; lia). lia.
Qed.

Lemma pow2_divide (a b : Z) : 0 <= a <= b -> (2 ^ a | 2 ^ b).
Proof.
  intros H. exists (2 ^ (b - a)). rewrite <- Z.pow_add_r by lia.
  f_equal. lia.
Qed.

(** An integer below 2^53, in units of 1.0, is a double. *)
Lemma round53_scaled (z : Z) :
  0 <= z < 2 ^ 53 -> round53 (z * float_unit) = z * float_unit.
Proof.
  intros Hz. apply round53_multiple.
  - unfold float_unit. pose proof (pow2_pos 1074 ltac:(lia)). nia.
  - apply Z.divide_trans with float_unit; [ | apply Z.divide_factor_r].
    apply pow2_divide. split; [apply ratio_exp_nonneg | ].
    apply ratio_exp_one_le; [ | lia].
    unfold float_unit. rewrite Z.pow_add_r by lia.
    pose proof (pow2_pos 1074 ltac:(lia)). nia.
Qed.

Lemma round_ratio_divisible (c q : Z) :
  0 < q -> round_ratio (c * q) q = round53 c.
Proof.
  intros Hq. unfold round53. rewrite !round_ratio_unfold.
  unfold ratio_exp. rewrite Z.div_mul by lia. rewrite Z.div_1_r.
  set (k := Z.max 0 (Z.log2 c - 52)).
  assert (Hk : 0 < 2 ^ k) by (apply pow2_pos; lia).
  replace (q * 2 ^ k) with (2 ^ k * q) by ring.
  rewrite rhe_div_scale by lia. rewrite Z.mul_1_l. reflexivity.
Qed.

Lemma ratio_exp_mono (a b : Z) :
  0 <= a <= b -> ratio_exp a 1 <= ratio_exp b 1.
Proof.
  intros H. unfold ratio_exp. rewrite !Z.div_1_r.
  pose proof (Z.log2_le_mono a b ltac:(lia)). lia.
Qed.

(** What rounds to itself is a multiple of its spacing. *)
Lemma round53_fixed_divide (n : Z) :
  round53 n = n -> (2 ^ ratio_exp n 1 | n).
Proof.
  intros H. unfold round53 in H. rewrite round_ratio_unfold in H.
  exists (rhe_div n (1 * 2 ^ ratio_exp n 1)). symmetry. exact H.
Qed.

(** Below a double, what differs from it by whole units of 1.0 is a
    double, as long as the spacing divides 1.0. *)
Lemma round53_below (n s k : Z) :
  0 <= s <= n -> n < 2 ^ 53 * float_unit -> round53 n = n ->
  s = n - k * float_unit -> round53 s = s.
Proof.
  intros Hs Hn Hfix Hk. apply round53_multiple; [lia | ].
  apply Z.divide_trans with (2 ^ ratio_exp n 1).
  - apply pow2_divide. split; [apply ratio_exp_nonneg | ].
    apply ratio_exp_mono. lia.
  - rewrite Hk. apply Z.divide_sub_r.
    + apply round53_fixed_divide. exact Hfix.
    + apply Z.divide_trans with float_unit; [ | apply Z.divide_factor_r].
      apply pow2_divide. split; [apply ratio_exp_nonneg | ].
      apply ratio_exp_one_le; [ | lia].
      unfold float_unit in Hn. rewrite Z.pow_add_r by lia. lia.
Qed.

Lemma float_unit_pos : 0 < float_unit.
Proof. unfold float_unit. apply pow2_pos. lia. Qed.

Lemma float_unit_lt_huge (z : Z) :
  z < 2 ^ 53 -> z * float_unit < float_huge.
Proof.
  intros Hz. unfold float_unit, float_huge.
  replace 2098 with (1024 + 1074) by lia. rewrite Z.pow_add_r by lia.
  pose proof (pow2_pos 1074 ltac:(lia)).
  assert (2 ^ 53 < 2 ^ 1024) by (apply Z.pow_lt_mono_r; lia). nia.
Qed.

End Rounding.

(** ** Float operations that are exact *)

Section ExactFloats.

Local Open Scope Z_scope.

Lemma float_of_ratio_exact (r : Z) :
  0 <= r < float_huge -> round53 r = r ->
  float_of_ratio false r 1 = FNum r.
Proof.
  intros Hr Hfix. unfold float_of_ratio. fold (round53 r). rewrite Hfix.
  destruct (Z.leb_spec float_huge r); [lia | ].
  destruct (Z.eqb_spec r 0) as [-> | Hne]; reflexivity.
Qed.

Lemma float_neg_num (b : Z) : b <> 0 -> float_neg (FNum b) = FNum (- b).
Proof. intros Hb. destruct b; [contradiction Hb | | ]; reflexivity. Qed.

(** [a - b] is exact when the difference is a double. *)
Lemma float_sub_exact (a b : Z) :
  0 <= b <= a -> a - b < float_huge -> round53 (a - b) = a - b ->
  float_sub (FNum a) (FNum b) = FNum (a - b).
Proof.
  intros Hab Hh Hfix. unfold float_sub.
  destruct (Z.eq_dec b 0) as [-> | Hb].
  - cbn. f_equal. lia.
  - rewrite float_neg_num by exact Hb. unfold float_add.
    destruct (Z.eqb_spec (a + - b) 0) as [He | Hne].
    + f_equal. lia.
    + unfold float_round.
      destruct (Z.ltb_spec (a + - b) 0); [lia | ].
      rewrite Z.abs_eq by lia.
      replace (a + - b) with (a - b) by lia.
      apply float_of_ratio_exact; [lia | exact Hfix].
Qed.

(** [float(k)] is exact below 2^53. *)
Lemma float_of_int_exact (k : Z) :
  0 <= k < 2 ^ 53 -> float_of_int k = Ok (FNum (k * float_unit)).
Proof.
  intros Hk. unfold float_of_int. rewrite Z.abs_eq by lia.
  rewrite round53_scaled by exact Hk.
  pose proof (float_unit_lt_huge k ltac:(lia)).
  destruct (Z.leb_spec float_huge (k * float_unit)); [lia | ].
  destruct (Z.ltb_spec k 0); [lia | reflexivity].
Qed.

(** A whole multiple of the divisor divides exactly. *)
Lemma float_div_pos_exact (q wu : Z) :
  0 <= q < 2 ^ 53 -> 0 < wu ->
  float_div_pos (FNum (q * wu)) wu = FNum (q * float_unit).
Proof.
  intros Hq Hw. unfold float_div_pos, float_of_ratio.
  rewrite Z.abs_eq by nia.
  replace (q * wu * float_unit) with (q * float_unit * wu) by ring.
  rewrite round_ratio_divisible by exact Hw.
  rewrite round53_scaled by exact Hq.
  pose proof (float_unit_lt_huge q ltac:(lia)).
  pose proof float_unit_pos.
  destruct (Z.leb_spec float_huge (q * float_unit)); [lia | ].
  destruct (Z.ltb_spec (q * wu) 0); [nia | ].
  destruct (Z.eqb_spec (q * float_unit) 0) as [He | Hne];
    [rewrite He | ]; reflexivity.
Qed.

(** Below 2^53 and for a positive int divisor, [divmod] is the exact
    quotient and remainder. *)
Lemma float_divmod_exact (n w : Z) :
  0 <= n < 2 ^ 53 * float_unit -> 0 < w ->
  float_divmod (FNum n) w
  = (FNum (n / (w * float_unit) * float_unit),
     FNum (n mod (w * float_unit))).
Proof.
  intros Hn Hw. pose proof float_unit_pos as HU.
  assert (Hwu : 0 < w * float_unit) by nia.
  pose proof (Z.div_mod n (w * float_unit) ltac:(lia)) as Hdm.
  pose proof (Z.mod_pos_bound n (w * float_unit) Hwu) as Hr.
  assert (Hq0 : 0 <= n / (w * float_unit)) by (apply Z.div_pos; lia).
  set (q := n / (w * float_unit)) in *.
  set (r := n mod (w * float_unit)) in *.
  assert (Hq : 0 <= q < 2 ^ 53) by nia.
  assert (Hwq : 0 <= w * q < 2 ^ 53) by nia.
  unfold float_divmod.
  rewrite Z.rem_mod_nonneg by lia. fold r.
  destruct (Z.ltb_spec n 0); [lia | ]. rewrite andb_false_r.
  assert (Hsub : float_sub (FNum n) (FNum r)
                 = FNum (q * (w * float_unit))).
  { rewrite float_sub_exact.
    - f_equal. lia.
    - lia.
    - replace (n - r) with (w * q * float_unit) by lia.
      apply float_unit_lt_huge. lia.
    - replace (n - r) with (w * q * float_unit) by lia.
      apply round53_scaled. exact Hwq. }
  rewrite Hsub. rewrite float_div_pos_exact by assumption.
  assert (Hmd :
    (if float_truthy (FNum r)
     then if float_is_neg (FNum r)
          then (float_add (FNum r) (FNum (w * float_unit)),
                float_sub (FNum (q * float_unit)) (FNum float_unit))
          else (FNum r, FNum (q * float_unit))
     else (FNum 0, FNum (q * float_unit)))
    = (FNum r, FNum (q * float_unit))).
  { cbn [float_truthy float_is_neg].
    destruct (Z.eqb_spec r 0) as [-> | Hne]; [reflexivity | ].
    destruct (Z.ltb_spec r 0); [lia | reflexivity]. }
  rewrite Hmd. f_equal.
  cbn [float_truthy float_floor float_is_neg].
  destruct (Z.eqb_spec (q * float_unit) 0) as [He | Hne].
  - cbn [negb]. destruct (Z.ltb_spec n 0); [lia | ]. rewrite He. reflexivity.
  - cbn [negb]. rewrite Z.div_mul by lia.
    rewrite float_sub_exact.
    + rewrite Z.sub_diag. cbn [float_gt].
      destruct (Z.ltb_spec (float_unit / 2) 0) as [Hneg | _];
        [ | reflexivity].
      exfalso. pose proof (Z.div_pos float_unit 2 ltac:(lia) ltac:(lia)).
      lia.
    + nia.
    + rewrite Z.sub_diag. unfold float_huge. apply pow2_pos. lia.
    + rewrite Z.sub_diag. reflexivity.
Qed.

Lemma int_of_float_scaled (q : Z) :
  int_of_float (FNum (q * float_unit)) = Ok q.
Proof.
  pose proof float_unit_pos. cbn [int_of_float].
  rewrite Z.quot_mul by lia. reflexivity.
Qed.

(** [seconds_to_hms] on a double below 2^53: every step is exact, and
    only the format rounds. *)
Lemma seconds_to_hms_exact (n : Z) :
  0 <= n < 2 ^ 53 * float_unit -> round53 n = n ->
  TimeUtils.seconds_to_hms (FNum n)
  = Ok (format_02d (n / (3600 * float_unit)) +:+ ":"
        +:+ format_02d (n mod (3600 * float_unit) / (60 * float_unit))
        +:+ ":" +:+ format_06_3f (FNum (n mod (60 * float_unit)))).
Proof.
  intros Hn Hfix. pose proof float_unit_pos as HU.
  unfold TimeUtils.seconds_to_hms, float_floordiv, float_mod.
  rewrite (float_divmod_exact n 3600) by lia. cbn [fst snd].
  rewrite int_of_float_scaled. cbn [rbind].
  pose proof (Z.div_mod n (3600 * float_unit) ltac:(lia)) as Hdm.
  pose proof (Z.mod_pos_bound n (3600 * float_unit) ltac:(lia)) as Hr.
  assert (Hq0 : 0 <= n / (3600 * float_unit)) by (apply Z.div_pos; lia).
  set (q := n / (3600 * float_unit)) in *.
  set (r := n mod (3600 * float_unit)) in *.
  rewrite (float_divmod_exact r 60) by lia. cbn [fst snd].
  rewrite int_of_float_scaled. cbn [rbind].
  pose proof (Z.div_mod r (60 * float_unit) ltac:(lia)) as Hdm2.
  pose proof (Z.mod_pos_bound r (60 * float_unit) ltac:(lia)) as Hr2.
  assert (Hm0 : 0 <= r / (60 * float_unit)) by (apply Z.div_pos; lia).
  set (m := r / (60 * float_unit)) in *.
  assert (Hs : n mod (60 * float_unit) = r mod (60 * float_unit)).
  { unfold r. symmetry. apply Z.mod_mod_divide. exists 60. ring. }
  rewrite Hs. set (s := r mod (60 * float_unit)) in *.
  assert (HK : 0 <= q * 3600 + m * 60 < 2 ^ 53) by nia.
  unfold float_sub_int. rewrite float_of_int_exact by exact HK.
  assert (Hsn : n - (q * 3600 + m * 60) * float_unit = s) by lia.
  rewrite float_sub_exact.
  - rewrite Hsn. reflexivity.
  - nia.
  - rewrite Hsn.
    assert (60 * float_unit < float_huge).
    { replace (60 * float_unit) with (60 * float_unit) by ring.
      apply float_unit_lt_huge. lia. }
    lia.
  - rewrite Hsn.
    apply (round53_below n s (q * 3600 + m * 60)); [nia | lia | exact Hfix | ].
    lia.
Qed.

End ExactFloats.

(** ** The text of a formatted number *)

Section Formats.

Local Open Scope Z_scope.

(** A check that holds on [0 .. N-1] by evaluation holds for every
    integer in that range. *)
Lemma forall_below (P : Z -> bool) (N : nat) :
  forallb P (map Z.of_nat (seq 0 N)) = true ->
  forall z, 0 <= z < Z.of_nat N -> P z = true.
Proof.
  intros Hall z Hz.
  apply (proj1 (forallb_forall P (map Z.of_nat (seq 0 N))) Hall).
  apply in_map_iff. exists (Z.to_nat z). split; [lia | ].
  apply in_seq. lia.
Qed.

Lemma format_02d_two_digits (k : Z) :
  0 <= k < 100 -> format_02d k = two_digits k.
Proof.
  intros Hk. apply String.eqb_eq.
  apply (forall_below (fun k => String.eqb (format_02d k) (two_digits k))
           100); [vm_compute; reflexivity | exact Hk].
Qed.

Lemma pad3_three_digits (k : Z) :
  0 <= k < 1000 -> pad_left_zeros 3 (str_of_nonneg k) = three_digits k.
Proof.
  intros Hk. apply String.eqb_eq.
  apply (forall_below
           (fun k => String.eqb (pad_left_zeros 3 (str_of_nonneg k))
                       (three_digits k)) 1000);
    [vm_compute; reflexivity | exact Hk].
Qed.

Lemma digit_chr_is_digit (d : Z) :
  0 <= d < 10 -> is_digit (digit_chr d) = true /\ digit_val (digit_chr d) = d.
Proof.
  intros Hd.
  assert (H : (is_digit (digit_chr d) && (digit_val (digit_chr d) =? d))%bool
              = true).
  { apply (forall_below
             (fun d => is_digit (digit_chr d)
                       && (digit_val (digit_chr d) =? d))%bool 10);
      [vm_compute; reflexivity | exact Hd]. }
  apply andb_prop in H. destruct H as [H1 H2].
  apply Z.eqb_eq in H2. auto.
Qed.

Lemma str_all_app (f : ascii -> bool) (a b : string) :
  str_all f (a +:+ b) = str_all f a && str_all f b.
Proof.
  induction a as [ | c a IH]; [reflexivity | ].
  change (f c && str_all f (a +:+ b) = f c && str_all f a && str_all f b).
  rewrite IH. rewrite andb_assoc. reflexivity.
Qed.

Lemma digits_value_from (ds : list Z) (acc : Z) :
  fold_left (fun a d => 10 * a + d) ds acc
  = acc * 10 ^ Z.of_nat (length ds) + digits_value ds.
Proof.
  unfold digits_value. revert acc.
  induction ds as [ | d ds IH]; intros acc.
  - cbn. lia.
  - cbn [fold_left length]. rewrite IH. rewrite (IH (10 * 0 + d)).
    rewrite Nat2Z.inj_succ, Z.pow_succ_r by lia. ring.
Qed.

Lemma str_vals_length (s : string) : length (str_vals s) = String.length s.
Proof.
  induction s as [ | c s IH]; [reflexivity | ]. cbn. rewrite IH. reflexivity.
Qed.

Lemma dec_value_cons (c : ascii) (s : string) :
  dec_value (String c s)
  = digit_val c * 10 ^ Z.of_nat (String.length s) + dec_value s.
Proof.
  unfold dec_value. cbn [str_vals]. unfold digits_value at 1.
  cbn [fold_left]. rewrite digits_value_from, str_vals_length. ring.
Qed.

(** The digits [dec_digits] writes are those of the number, given fuel
    for all of them. *)
Lemma dec_digits_S (fuel : nat) (n : Z) (acc : string) :
  dec_digits (S fuel) n acc
  = if n <? 10 then String (digit_chr (n mod 10)) acc
    else dec_digits fuel (n / 10) (String (digit_chr (n mod 10)) acc).
Proof. reflexivity. Qed.

Lemma dec_digits_value (fuel : nat) :
  forall n acc,
    0 <= n < 10 ^ Z.of_nat (S fuel) ->
    str_all is_digit acc = true ->
    str_all is_digit (dec_digits (S fuel) n acc) = true /\
    dec_value (dec_digits (S fuel) n acc)
    = n * 10 ^ Z.of_nat (String.length acc) + dec_value acc /\
    (String.length acc < String.length (dec_digits (S fuel) n acc))%nat.
Proof.
  induction fuel as [ | fuel IH]; intros n acc Hn Hacc;
    rewrite dec_digits_S;
    pose proof (Z.mod_pos_bound n 10 ltac:(lia)) as Hd;
    destruct (digit_chr_is_digit (n mod 10) Hd) as [Hdig Hval];
    pose proof (Z.div_mod n 10 ltac:(lia)) as Hdm;
    (assert (Hacc' : str_all is_digit (String (digit_chr (n mod 10)) acc)
                     = true)
      by (cbn; rewrite Hdig, Hacc; reflexivity));
    (assert (Hsmall : n < 10 ->
       str_all is_digit (String (digit_chr (n mod 10)) acc) = true /\
       dec_value (String (digit_chr (n mod 10)) acc)
       = n * 10 ^ Z.of_nat (String.length acc) + dec_value acc /\
       (String.length acc
        < String.length (String (digit_chr (n mod 10)) acc))%nat)
      by (intros Hlt; split; [exact Hacc' | ]; split; [ | cbn; lia];
          rewrite dec_value_cons, Hval; rewrite Z.mod_small by lia;
          reflexivity)).
  - destruct (Z.ltb_spec n 10) as [Hlt | Hge]; [exact (Hsmall Hlt) | ].
    change (10 ^ Z.of_nat 1) with 10 in Hn. lia.
    (* no digit is left over *)
  - destruct (Z.ltb_spec n 10) as [Hlt | Hge]; [exact (Hsmall Hlt) | ].
    assert (Hn' : 0 <= n / 10 < 10 ^ Z.of_nat (S fuel)).
    { split; [apply Z.div_pos; lia | ].
      apply Z.div_lt_upper_bound; [lia | ].
      rewrite (Nat2Z.inj_succ (S fuel)), Z.pow_succ_r in Hn by lia. lia. }
    destruct (IH (n / 10) _ Hn' Hacc') as (H1 & H2 & H3).
    split; [exact H1 | ]. split.
    + rewrite H2, dec_value_cons, Hval.
      change (String.length (String (digit_chr (n mod 10)) acc))
        with (S (String.length acc)).
      rewrite Nat2Z.inj_succ, Z.pow_succ_r by lia. lia.
    + cbn [String.length] in H3. lia.
Qed.

Lemma fuel_enough (n : Z) :
  0 <= n -> n < 10 ^ Z.of_nat (S (Z.to_nat (Z.log2 n))).
Proof.
  intros Hn. rewrite Nat2Z.inj_succ, Z2Nat.id by apply Z.log2_nonneg.
  destruct (Z.eq_dec n 0) as [-> | Hne]; [cbn; lia | ].
  pose proof (Z.log2_spec n ltac:(lia)) as [_ Hup].
  apply Z.lt_le_trans with (2 ^ Z.succ (Z.log2 n)); [exact Hup | ].
  apply Z.pow_le_mono_l. lia.
Qed.

(** [str(n)] is a run of digits that denotes [n]. *)
Lemma str_of_nonneg_value (n : Z) :
  0 <= n ->
  is_number (str_of_nonneg n) = true /\ dec_value (str_of_nonneg n) = n.
Proof.
  intros Hn. unfold str_of_nonneg.
  destruct (dec_digits_value (Z.to_nat (Z.log2 n)) n EmptyString)
    as (H1 & H2 & H3); [split; [lia | apply fuel_enough; lia] | reflexivity | ].
  split.
  - unfold is_number.
    destruct (dec_digits (S (Z.to_nat (Z.log2 n))) n "") eqn:E;
      [cbn in H3; lia | exact H1].
  - rewrite H2. cbn. lia.
Qed.

Lemma dec_digits_two (fuel : nat) (n : Z) :
  10 <= n -> (2 <= String.length (dec_digits (S (S fuel)) n ""))%nat.
Proof.
  intros Hn. cbn [dec_digits].
  destruct (Z.ltb_spec n 10); [lia | ].
  destruct (n / 10 <? 10).
  - cbn. lia.
  - match goal with
    | |- (2 <= String.length (dec_digits fuel ?m ?acc))%nat =>
        destruct fuel as [ | fuel']; [cbn; lia | ];
        assert (Hacc : str_all is_digit acc = true \/ True) by auto
    end.
    clear Hacc.
    assert (Hmono : forall f m acc,
               (String.length acc <= String.length (dec_digits f m acc))%nat).
    { induction f as [ | f IHf]; intros m acc; [cbn; lia | ].
      cbn [dec_digits]. destruct (m <? 10); [cbn; lia | ].
      etransitivity; [ | apply IHf]. cbn. lia. }
    etransitivity; [ | apply Hmono]. cbn. lia.
Qed.

(** The hours field: at least two digits, which denote the hours. *)
Lemma format_02d_hours (h : Z) :
  0 <= h ->
  format_02d h = hours_field h /\
  is_number (hours_field h) = true /\
  dec_value (hours_field h) = h /\
  (2 <= String.length (hours_field h))%nat.
Proof.
  intros Hh. unfold hours_field.
  destruct (Z.ltb_spec h 10) as [Hlt | Hge].
  - split; [apply format_02d_two_digits; lia | ].
    assert (H : (is_number (two_digits h) && (dec_value (two_digits h) =? h))%bool
                = true).
    { apply (forall_below
               (fun h => is_number (two_digits h)
                         && (dec_value (two_digits h) =? h))%bool 10);
        [vm_compute; reflexivity | lia]. }
    apply andb_prop in H. destruct H as [H1 H2]. apply Z.eqb_eq in H2.
    repeat split; [exact H1 | exact H2 | cbn; lia].
  - destruct (str_of_nonneg_value h Hh) as [Hnum Hval].
    assert (Hlen : (2 <= String.length (str_of_nonneg h))%nat).
    { unfold str_of_nonneg.
      assert (3 <= Z.log2 h).
      { apply Z.log2_le_pow2; [lia | ]. cbn. lia. }
      destruct (Z.to_nat (Z.log2 h)) as [ | f] eqn:Ef; [lia | ].
      apply dec_digits_two. exact Hge. }
    repeat split; try assumption.
    unfold format_02d, zero_pad. rewrite Z.abs_eq by lia.
    destruct (Z.ltb_spec h 0); [lia | ].
    destruct (String.length (str_of_nonneg h)) as [ | [ | l]] eqn:El;
      [lia | lia | reflexivity].
Qed.

(** The seconds field of a value below one minute. *)
Lemma format_06_3f_below_minute (s : Z) :
  0 <= s < 60 * float_unit ->
  let t := rhe_div (1000 * s) float_unit in
  format_06_3f (FNum s)
  = two_digits (t / 1000) +:+ "." +:+ three_digits (t mod 1000) /\
  0 <= t <= 60000.
Proof.
  intros Hs t. pose proof float_unit_pos as HU.
  assert (Ht : 0 <= t <= 60000).
  { split.
    - apply rhe_div_nonneg; lia.
    - apply rhe_div_upper; lia. }
  split; [ | exact Ht].
  unfold format_06_3f. destruct (Z.ltb_spec s 0); [lia | ].
  rewrite Z.abs_eq by lia. replace (s * 1000) with (1000 * s) by ring.
  fold t.
  rewrite pad3_three_digits by (apply Z.mod_pos_bound; lia).
  assert (Hq : 0 <= t / 1000 < 100).
  { split; [apply Z.div_pos; lia | apply Z.div_lt_upper_bound; lia]. }
  rewrite <- (format_02d_two_digits (t / 1000) Hq).
  unfold format_02d, zero_pad. destruct (Z.ltb_spec (t / 1000) 0); [lia | ].
  rewrite Z.abs_eq by lia. unfold three_digits.
  assert (Hlen : (String.length (str_of_nonneg (t / 1000)) <=? 2)%nat = true).
  { apply (forall_below
             (fun q => (String.length (str_of_nonneg q) <=? 2)%nat) 100);
      [vm_compute; reflexivity | exact Hq]. }
  apply Nat.leb_le in Hlen.
  destruct (str_of_nonneg (t / 1000)) as [ | a [ | b [ | c r]]];
    [reflexivity | reflexivity | reflexivity | cbn in Hlen; lia].
Qed.

End Formats.

(** ** [seconds_to_hms] *)

(** For a finite number of seconds from +0.0 up to 2^53 (2^53 itself left
    out), [seconds_to_hms] writes HH:MM:SS.mmm with the whole hours in at
    least two digits, the minutes of the hour in two digits, and the
    seconds of the minute rounded to the nearest millisecond (ties to even),
    two digits and three; rounding can bring the seconds field to 60.000.
    Negative zero, which is not below zero either, is outside that form: its
    seconds field carries the sign, -0.000. *)
Theorem seconds_to_hms_rounds :
  (forall n : Z,
      0 <= n < 2 ^ 53 * float_unit ->
      is_double n = true ->
      let hours := n / (3600 * float_unit) in
      let minutes := n mod (3600 * float_unit) / (60 * float_unit) in
      let millis := rhe_div (1000 * (n mod (60 * float_unit))) float_unit in
      TimeUtils.seconds_to_hms (FNum n)
      = Ok (hours_field hours +:+ ":" +:+ two_digits minutes +:+ ":"
            +:+ two_digits (millis / 1000) +:+ "."
            +:+ three_digits (millis mod 1000)) /\
      is_number (hours_field hours) = true /\
      dec_value (hours_field hours) = hours /\
      (2 <= String.length (hours_field hours))%nat /\
      0 <= minutes < 60 /\
      0 <= millis <= 60000 /\
      2 * Z.abs (millis * float_unit - 1000 * (n mod (60 * float_unit)))
      <= float_unit) /\
  TimeUtils.seconds_to_hms FNegZero = Ok "00:00:-0.000".
Proof.
  split; [ | vm_compute; reflexivity].
  intros n Hn Hdouble hours minutes millis.
  pose proof float_unit_pos as HU.
  unfold is_double in Hdouble. apply andb_prop in Hdouble.
  destruct Hdouble as [_ Hfix]. rewrite Z.abs_eq in Hfix by lia.
  apply Z.eqb_eq in Hfix.
  assert (Hh : 0 <= hours) by (apply Z.div_pos; lia).
  pose proof (Z.mod_pos_bound n (3600 * float_unit) ltac:(lia)) as Hr.
  pose proof (Z.mod_pos_bound n (60 * float_unit) ltac:(lia)) as Hs.
  assert (Hm : 0 <= minutes < 60).
  { split; [apply Z.div_pos; lia | ].
    apply Z.div_lt_upper_bound; lia. }
  destruct (format_02d_hours hours Hh) as (Hf & Hnum & Hval & Hlen).
  destruct (format_06_3f_below_minute (n mod (60 * float_unit)) Hs)
    as [Hsecs Hmillis].
  fold millis in Hsecs, Hmillis.
  split; [ | repeat split; try assumption; try lia].
  - rewrite (seconds_to_hms_exact n Hn Hfix).
    fold hours. fold minutes. rewrite Hf.
    rewrite (format_02d_two_digits minutes) by lia.
    rewrite Hsecs. reflexivity.
  - pose proof (rhe_div_error (1000 * (n mod (60 * float_unit))) float_unit
                  HU) as He.
    fold millis in He. exact He.
Qed.

(** 3661.5 seconds, and +0.0. *)
Lemma seconds_to_hms_rounds_witness :
  TimeUtils.seconds_to_hms (FNum (7323 * float_unit / 2))
  = Ok "01:01:01.500" /\
  TimeUtils.seconds_to_hms (FNum 0) = Ok "00:00:00.000".
Proof.
  split.
  - pose proof (proj1 seconds_to_hms_rounds (7323 * float_unit / 2)) as H.
    destruct H as [H _].
    + vm_compute. split; [discriminate | reflexivity].
    + vm_compute. reflexivity.
    + rewrite H. vm_compute. reflexivity.
  - pose proof (proj1 seconds_to_hms_rounds 0) as H.
    destruct H as [H _].
    + vm_compute. split; [discriminate | reflexivity].
    + vm_compute. reflexivity.
    + rewrite H. vm_compute. reflexivity.
Defined.

(** C6 as stated fails: 0.9375 seconds print as 00.938 where truncation
    gives 937 milliseconds; 60 - 2^-11 seconds print with the seconds
    field 60.000; and an infinite number of seconds, which is not negative,
    has no text at all. *)
Lemma seconds_to_hms_truncation_counterexample :
  TimeUtils.seconds_to_hms (FNum (15 * float_unit / 16))
  = Ok "00:00:00.938" /\
  1000 * (15 * float_unit / 16) / float_unit = 937 /\
  TimeUtils.seconds_to_hms (FNum (60 * float_unit - float_unit / 2048))
  = Ok "00:00:60.000" /\
  is_ok (TimeUtils.seconds_to_hms (FInf false)) = false.
Proof. vm_compute. repeat split. Qed.

(** ** Texts made of digits *)

Section DigitStrings.

Local Open Scope Z_scope.

(** What a digit is not. *)
Lemma digit_facts (c : ascii) :
  is_digit c = true ->
  is_num_space c = false /\ char_eqb c "." = false /\
  char_eqb c ":" = false /\ char_eqb c "_" = false /\
  (forall s, split_sign (String c s) = (false, String c s)).
Proof.
  intros H.
  destruct c as [[] [] [] [] [] [] [] []]; vm_compute in H;
    try discriminate H; repeat split.
Qed.

Lemma space_facts (c : ascii) :
  is_num_space c = true ->
  char_eqb c "." = false /\ char_eqb c ":" = false.
Proof.
  intros H.
  destruct c as [[] [] [] [] [] [] [] []]; vm_compute in H;
    try discriminate H; repeat split.
Qed.

Lemma str_all_impl (f g : ascii -> bool) (s : string) :
  (forall c, f c = true -> g c = true) ->
  str_all f s = true -> str_all g s = true.
Proof.
  intros Hfg. induction s as [ | c s IH]; [reflexivity | ].
  cbn. intros H. apply andb_prop in H. destruct H as [Hc Hs].
  rewrite (Hfg c Hc), (IH Hs). reflexivity.
Qed.

Lemma str_contains_app (c : ascii) (a b : string) :
  str_contains c (a +:+ b) = str_contains c a || str_contains c b.
Proof.
  induction a as [ | d a IH]; [reflexivity | ].
  change (char_eqb d c || str_contains c (a +:+ b)
          = char_eqb d c || str_contains c a || str_contains c b).
  rewrite IH, orb_assoc. reflexivity.
Qed.

(** A text whose characters all lack a property does not contain a
    character that has it. *)
Lemma str_contains_none (f : ascii -> bool) (c : ascii) (s : string) :
  str_all f s = true -> f c = false -> str_contains c s = false.
Proof.
  intros Hs Hc. induction s as [ | d s IH]; [reflexivity | ].
  cbn in Hs. apply andb_prop in Hs. destruct Hs as [Hd Hs].
  cbn. rewrite (IH Hs), orb_false_r. unfold char_eqb.
  destruct (Ascii.eqb_spec d c) as [-> | Hne]; [congruence | reflexivity].
Qed.

Lemma str_split_whole (sep : ascii) (a : string) :
  str_contains sep a = false -> str_split sep a = [a].
Proof.
  induction a as [ | c a IH]; [reflexivity | ].
  cbn. intros H. apply orb_false_elim in H. destruct H as [Hc Ha].
  rewrite Hc, (IH Ha). reflexivity.
Qed.

Lemma str_split_app (sep : ascii) (a b : string) :
  str_contains sep a = false ->
  str_split sep (a +:+ String sep b) = a :: str_split sep b.
Proof.
  induction a as [ | c a IH].
  - intros _. change ("" +:+ String sep b) with (String sep b).
    cbn [str_split]. unfold char_eqb. rewrite Ascii.eqb_refl. reflexivity.
  - cbn [str_contains]. intros H. apply orb_false_elim in H.
    destruct H as [Hc Ha].
    change (String c a +:+ String sep b) with (String c (a +:+ String sep b)).
    cbn [str_split]. rewrite Hc, (IH Ha). reflexivity.
Qed.

Lemma rstrip_all (f : ascii -> bool) (ws : string) :
  str_all f ws = true -> rstrip_with f ws = EmptyString.
Proof.
  induction ws as [ | c ws IH]; [reflexivity | ].
  cbn. intros H. apply andb_prop in H. destruct H as [Hc Hws].
  rewrite (IH Hws), Hc. reflexivity.
Qed.

(** Stripping on the right removes a trailing run and stops at the first
    character that is not to be stripped. *)
Lemma rstrip_app (f : ascii -> bool) (a ws : string) :
  str_all (fun c => negb (f c)) a = true -> str_all f ws = true ->
  rstrip_with f (a +:+ ws) = a.
Proof.
  intros Ha Hws. induction a as [ | c a IH].
  - apply rstrip_all. exact Hws.
  - cbn in Ha. apply andb_prop in Ha. destruct Ha as [Hc Ha].
    change (String c a +:+ ws) with (String c (a +:+ ws)).
    cbn [rstrip_with]. rewrite (IH Ha).
    apply negb_true_iff in Hc. rewrite Hc.
    destruct a; reflexivity.
Qed.

Lemma digits_not_space (s : string) :
  str_all is_digit s = true ->
  str_all (fun c => negb (is_num_space c)) s = true.
Proof.
  apply str_all_impl. intros c Hc.
  destruct (digit_facts c Hc) as [H _]. rewrite H. reflexivity.
Qed.

Lemma scan_digits_all (s : string) :
  str_all is_digit s = true -> scan_digits true s = Some (str_vals s).
Proof.
  induction s as [ | c s IH]; [reflexivity | ].
  cbn. intros H. apply andb_prop in H. destruct H as [Hc Hs].
  rewrite Hc, (IH Hs). reflexivity.
Qed.

(** [int] of a run of digits, white space after it or not. *)
Lemma py_int_number (d ws : string) :
  is_number d = true -> (String.length d <= int_max_str_digits)%nat ->
  str_all is_num_space ws = true ->
  py_int (d +:+ ws) = Ok (dec_value d).
Proof.
  intros Hd Hlen Hws. destruct d as [ | c d]; [discriminate Hd | ].
  unfold is_number in Hd. pose proof Hd as Hall.
  cbn in Hd. apply andb_prop in Hd. destruct Hd as [Hc Hd].
  destruct (digit_facts c Hc) as (Hsp & _ & _ & _ & Hsign).
  unfold py_int.
  change (String c d +:+ ws) with (String c (d +:+ ws)).
  cbn [lstrip_with]. rewrite Hsp.
  change (String c (d +:+ ws)) with (String c d +:+ ws).
  rewrite rstrip_app by (auto using digits_not_space).
  rewrite Hsign. cbn [scan_digits]. rewrite Hc.
  rewrite (scan_digits_all d Hd).
  change (digit_val c :: str_vals d) with (str_vals (String c d)).
  rewrite str_vals_length.
  destruct (Nat.ltb_spec int_max_str_digits (String.length (String c d)));
    [lia | reflexivity].
Qed.

Lemma drop_underscores_none (prev : ascii) (a : string) :
  char_eqb prev "_" = false -> str_contains "_" a = false ->
  drop_underscores prev a = Some a.
Proof.
  revert prev. induction a as [ | c a IH]; intros prev Hprev Ha.
  - cbn. rewrite Hprev. reflexivity.
  - cbn in Ha. apply orb_false_elim in Ha. destruct Ha as [Hc Ha].
    cbn [drop_underscores]. rewrite Hc, Hprev. cbn [andb].
    rewrite (IH c Hc Ha). reflexivity.
Qed.

Lemma take_digits_all (s : string) :
  str_all is_digit s = true -> take_digits s = (str_vals s, EmptyString).
Proof.
  induction s as [ | c s IH]; [reflexivity | ].
  cbn. intros H. apply andb_prop in H. destruct H as [Hc Hs].
  rewrite Hc, (IH Hs). reflexivity.
Qed.

Lemma digits_no_underscore (s : string) :
  str_all is_digit s = true -> str_contains "_" s = false.
Proof.
  intros H. apply (str_contains_none is_digit); [exact H | reflexivity].
Qed.

(** [float] of ["0."], a run of digits, white space after it or not. *)
Lemma py_float_fraction (f ws : string) :
  str_all is_digit f = true -> str_all is_num_space ws = true ->
  py_float ("0." +:+ f +:+ ws) = Ok (fraction_value f).
Proof.
  intros Hf Hws. unfold py_float.
  change ("0." +:+ f +:+ ws) with (String "0" (String "." (f +:+ ws))).
  change (lstrip_with is_num_space (String "0" (String "." (f +:+ ws))))
    with (String "0" (String "." f) +:+ ws).
  rewrite rstrip_app;
    [ | cbn [str_all]; rewrite (digits_not_space f Hf); reflexivity
      | exact Hws].
  rewrite drop_underscores_none;
    [ | reflexivity
      | cbn [str_contains]; rewrite (digits_no_underscore f Hf); reflexivity].
  unfold parse_float_literal.
  change (split_sign (String "0" (String "." f)))
    with (false, String "0" (String "." f)).
  cbv beta iota.
  change (String.eqb (str_lower (String "0" (String "." f))) "inf") with false.
  change (String.eqb (str_lower (String "0" (String "." f))) "infinity")
    with false.
  change (String.eqb (str_lower (String "0" (String "." f))) "nan") with false.
  cbv beta iota. cbn [orb].
  change (take_digits (String "0" (String "." f)))
    with ([0], String "." f).
  cbv beta iota.
  rewrite (take_digits_all f Hf).
  cbn [app parse_exponent]. rewrite str_vals_length.
  unfold fraction_value, dec_value. rewrite Z.sub_0_l. reflexivity.
Qed.

End DigitStrings.

(** ** [hms_to_seconds] on texts made of numbers *)

Section ParseNumbers.

Local Open Scope Z_scope.

Lemma component_facts (p : string) (v : Z) :
  component p v ->
  py_int p = Ok v /\ str_contains ":" p = false /\
  str_contains "." p = false.
Proof.
  intros (d & ws & -> & Hd & Hlen & Hws & ->).
  split; [apply py_int_number; assumption | ].
  assert (Hdig : str_all is_digit d = true).
  { destruct d; [discriminate Hd | exact Hd]. }
  rewrite !str_contains_app.
  rewrite (str_contains_none is_digit ":" d Hdig eq_refl).
  rewrite (str_contains_none is_digit "." d Hdig eq_refl).
  rewrite (str_contains_none is_num_space ":" ws Hws eq_refl).
  rewrite (str_contains_none is_num_space "." ws Hws eq_refl).
  split; reflexivity.
Qed.

(** The first half of [hms_to_seconds]: the text before the dot, and the
    fraction after it. *)
Lemma split_fraction (t tail : string) (ms : pyfloat)
      (K : string * pyfloat -> result pyfloat) :
  str_contains "." t = false -> fraction tail ms ->
  rbind
    (if str_contains "." (t +:+ tail) then
       match str_split "." (t +:+ tail) with
       | [t0; ms0] =>
           rbind (py_float ("0." +:+ ms0)) (fun ms1 => Ok (t0, ms1))
       | _ => raise_cls ValueError "too many values to unpack (expected 2)"
       end
     else Ok (t +:+ tail, FNum 0)) K
  = K (t, ms).
Proof.
  intros Ht [[-> ->] | (f & ws & -> & Hf & Hws & ->)].
  - rewrite str_app_empty_r, Ht. reflexivity.
  - assert (Hfw : str_contains "." (f +:+ ws) = false).
    { rewrite str_contains_app.
      rewrite (str_contains_none is_digit "." f Hf eq_refl).
      rewrite (str_contains_none is_num_space "." ws Hws eq_refl).
      reflexivity. }
    change ("." +:+ f +:+ ws) with (String "." (f +:+ ws)).
    rewrite str_contains_app, Ht.
    cbn [str_contains orb]. unfold char_eqb at 1.
    rewrite Ascii.eqb_refl. cbn [orb].
    rewrite str_split_app by exact Ht.
    rewrite str_split_whole by exact Hfw.
    rewrite py_float_fraction by assumption. reflexivity.
Qed.

Lemma hms_to_seconds_3 h m s vh vm vs tail ms :
  component h vh -> component m vm -> component s vs -> fraction tail ms ->
  TimeUtils.hms_to_seconds (h +:+ ":" +:+ m +:+ ":" +:+ s +:+ tail)
  = int_add_float (vh * 3600 + vm * 60 + vs) ms.
Proof.
  intros Hh Hm Hs Htail.
  destruct (component_facts h vh Hh) as (Hih & Hch & Hdh).
  destruct (component_facts m vm Hm) as (Him & Hcm & Hdm).
  destruct (component_facts s vs Hs) as (His & Hcs & Hds).
  replace (h +:+ ":" +:+ m +:+ ":" +:+ s +:+ tail)
    with ((h +:+ ":" +:+ m +:+ ":" +:+ s) +:+ tail)
    by (rewrite !str_app_assoc; reflexivity).
  unfold TimeUtils.hms_to_seconds.
  rewrite (split_fraction _ tail ms).
  - change (":" +:+ m +:+ ":" +:+ s) with (String ":" (m +:+ String ":" s)).
    rewrite str_split_app by exact Hch.
    rewrite str_split_app by exact Hcm.
    rewrite str_split_whole by exact Hcs.
    cbn [length Nat.eqb]. rewrite Hih, Him, His. reflexivity.
  - rewrite !str_contains_app, Hdh, Hdm, Hds. reflexivity.
  - exact Htail.
Qed.

Lemma hms_to_seconds_2 m s vm vs tail ms :
  component m vm -> component s vs -> fraction tail ms ->
  TimeUtils.hms_to_seconds (m +:+ ":" +:+ s +:+ tail)
  = int_add_float (vm * 60 + vs) ms.
Proof.
  intros Hm Hs Htail.
  destruct (component_facts m vm Hm) as (Him & Hcm & Hdm).
  destruct (component_facts s vs Hs) as (His & Hcs & Hds).
  replace (m +:+ ":" +:+ s +:+ tail) with ((m +:+ ":" +:+ s) +:+ tail)
    by (rewrite !str_app_assoc; reflexivity).
  unfold TimeUtils.hms_to_seconds.
  rewrite (split_fraction _ tail ms).
  - change (":" +:+ s) with (String ":" s).
    rewrite str_split_app by exact Hcm.
    rewrite str_split_whole by exact Hcs.
    cbn [length Nat.eqb]. rewrite Him, His. reflexivity.
  - rewrite !str_contains_app, Hdm, Hds. reflexivity.
  - exact Htail.
Qed.


End ParseNumbers.

(** ** What [hms_to_seconds] reads *)

Lemma int_add_float_small (z : Z) (ms : pyfloat) :
  0 <= z < 2 ^ 53 ->
  int_add_float z ms = Ok (float_add (FNum (z * float_unit)) ms).
Proof.
  intros Hz. unfold int_add_float. rewrite float_of_int_exact by exact Hz.
  reflexivity.
Qed.



Lemma str_split_nonempty (sep : ascii) (s : string) :
  str_split sep s <> [].
Proof.
  destruct s as [ | c s]; cbn; [discriminate | ].
  destruct (char_eqb c sep); [discriminate | ].
  destruct (str_split sep s); discriminate.
Qed.




(** A text with two dots or more cannot be unpacked into a time part and
    a fraction: [hms_to_seconds] raises [ValueError]. *)
Theorem hms_to_seconds_two_dots (a b c : string) :
  str_contains "." a = false -> str_contains "." b = false ->
  exists msg,
    TimeUtils.hms_to_seconds (a +:+ "." +:+ b +:+ "." +:+ c)
    = Raise (PyExn ValueError msg).
Proof.
  intros Ha Hb. unfold TimeUtils.hms_to_seconds.
  change ("." +:+ b +:+ "." +:+ c) with (String "." (b +:+ String "." c)).
  rewrite str_contains_app. cbn [str_contains].
  unfold char_eqb at 1. rewrite Ascii.eqb_refl. rewrite orb_true_r.
  rewrite str_split_app by exact Ha.
  rewrite str_split_app by exact Hb.
  destruct (str_split "." c) as [ | x l] eqn:E;
    [exfalso; exact (str_split_nonempty _ _ E) | ].
  eexists. reflexivity.
Qed.

(** "1.2.3" *)
Lemma hms_to_seconds_two_dots_witness :
  exists msg, TimeUtils.hms_to_seconds "1.2.3" = Raise (PyExn ValueError msg).
Proof.
  exact (hms_to_seconds_two_dots "1" "2" "3" eq_refl eq_refl).
Defined.

(** ** What [validate_time_format] accepts *)

Section Validator.

Local Open Scope Z_scope.

(** A run of digits of a length between two bounds. *)
Let digits (x : string) (lo hi : nat) : Prop :=
  str_all is_digit x = true /\ (lo <= String.length x <= hi)%nat.

Lemma lang_range_digit (hi : ascii) (x : string) :
  (ord hi <=? 57)%nat = true -> lang (RRange "0" hi) x ->
  exists d, x = String d EmptyString /\ is_digit d = true.
Proof.
  intros Hhi (d & -> & Hd). exists d. split; [reflexivity | ].
  apply Nat.leb_le in Hhi.
  change (ord "0") with 48%nat in Hd. unfold is_digit.
  apply andb_true_intro. split; apply Nat.leb_le; lia.
Qed.

Lemma lang_pow_digits (k : nat) (x : string) :
  lang_pow (lang re_digit) k x -> digits x k k.
Proof.
  revert x. induction k as [ | k IH]; intros x Hx.
  - cbn in Hx. subst x. split; [reflexivity | cbn; lia].
  - cbn [lang_pow] in Hx. destruct Hx as (t1 & t2 & -> & H1 & H2).
    apply (lang_range_digit "9") in H1; [ | reflexivity].
    destruct H1 as (d & -> & Hd). destruct (IH t2 H2) as [Hall Hlen].
    change (String d "" +:+ t2) with (String d t2). split.
    + cbn [str_all]. rewrite Hd, Hall. reflexivity.
    + cbn [String.length]. lia.
Qed.

Lemma lang_rep_digits (lo hi : nat) (x : string) :
  lang (RRep re_digit lo hi) x -> digits x lo hi.
Proof.
  intros (k & Hk & Hpow). destruct (lang_pow_digits k x Hpow) as [H1 H2].
  split; [exact H1 | lia].
Qed.

(** The texts of the time pattern, spelled out: an optional hours part of
    one or two digits and a colon, minutes of one or two digits, a colon,
    seconds of two digits, an optional dot and one to three digits. *)
Lemma time_regex_shape (t : string) :
  lang time_regex t ->
  exists hp m s fp,
    t = hp +:+ m +:+ ":" +:+ s +:+ fp /\
    (hp = EmptyString \/ exists h, hp = h +:+ ":" /\ digits h 1 2) /\
    digits m 1 2 /\ digits s 2 2 /\
    (fp = EmptyString \/ exists f, fp = "." +:+ f /\ digits f 1 3).
Proof.
  intros H. cbn [lang time_regex] in H.
  destruct H as (hp & r1 & -> & Hhp & m1 & r2 & -> & Hm1 & m2 & r3 & ->
                 & Hm2 & c & r4 & -> & -> & s1 & r5 & -> & Hs1 & s2 & fp
                 & -> & Hs2 & Hfp).
  apply (lang_range_digit "9") in Hm2; [ | reflexivity].
  apply (lang_range_digit "5") in Hs1; [ | reflexivity].
  apply (lang_range_digit "9") in Hs2; [ | reflexivity].
  destruct Hm2 as (dm2 & -> & Hdm2). destruct Hs1 as (ds1 & -> & Hds1).
  destruct Hs2 as (ds2 & -> & Hds2).
  exists hp, (m1 +:+ String dm2 ""), (String ds1 (String ds2 "")), fp.
  split; [rewrite !str_app_assoc; reflexivity | ].
  split; [ | split; [ | split]].
  - destruct Hhp as [-> | (h & c0 & -> & Hh & ->)]; [left; reflexivity | ].
    right. exists h. split; [reflexivity | ].
    exact (lang_rep_digits 1 2 h Hh).
  - destruct Hm1 as [-> | Hm1].
    + change ("" +:+ String dm2 "") with (String dm2 "").
      split; [cbn [str_all]; rewrite Hdm2; reflexivity | cbn; lia].
    + apply (lang_range_digit "5") in Hm1; [ | reflexivity].
      destruct Hm1 as (dm1 & -> & Hdm1).
      change (String dm1 "" +:+ String dm2 "")
        with (String dm1 (String dm2 "")).
      split; [cbn [str_all]; rewrite Hdm1, Hdm2; reflexivity | cbn; lia].
  - split; [cbn [str_all]; rewrite Hds1, Hds2; reflexivity | cbn; lia].
  - destruct Hfp as [-> | (c0 & f & -> & -> & Hf)]; [left; reflexivity | ].
    right. exists f. split; [reflexivity | ].
    exact (lang_rep_digits 1 3 f Hf).
Qed.

Lemma dec_value_bound (d : string) :
  str_all is_digit d = true ->
  0 <= dec_value d < 10 ^ Z.of_nat (String.length d).
Proof.
  induction d as [ | c d IH]; intros Hd; [cbn; lia | ].
  cbn in Hd. apply andb_prop in Hd. destruct Hd as [Hc Hd].
  specialize (IH Hd). rewrite dec_value_cons.
  assert (Hv : 0 <= digit_val c <= 9).
  { unfold digit_val, is_digit in *. apply andb_prop in Hc.
    destruct Hc as [H1 H2]. apply Nat.leb_le in H1, H2. lia. }
  cbn [String.length]. rewrite Nat2Z.inj_succ, Z.pow_succ_r by lia.
  nia.
Qed.

Lemma digits_component (d ws : string) (lo hi : nat) :
  digits d lo hi -> (1 <= lo)%nat -> (hi <= 3)%nat ->
  str_all is_num_space ws = true ->
  component (d +:+ ws) (dec_value d) /\ 0 <= dec_value d < 1000.
Proof.
  intros [Hall Hlen] Hlo Hhi Hws. split.
  - exists d, ws. repeat split; try assumption.
    + destruct d; [cbn in Hlen; lia | exact Hall].
    + unfold int_max_str_digits. lia.
  - pose proof (dec_value_bound d Hall) as Hb.
    assert (10 ^ Z.of_nat (String.length d) <= 10 ^ 3)
      by (apply Z.pow_le_mono_r; lia).
    lia.
Qed.

(** What the validator accepts, the parser reads: a text that passes
    [validate_time_format] makes [hms_to_seconds] return a float. *)
Theorem validated_time_parses (text : string) :
  TimeUtils.validate_time_format text = true ->
  exists x, TimeUtils.hms_to_seconds text = Ok x.
Proof.
  intros Hv. apply validate_time_format_lang in Hv.
  assert (Hgen : forall t w,
             lang time_regex t -> str_all is_num_space w = true ->
             exists x, TimeUtils.hms_to_seconds (t +:+ w) = Ok x).
  { intros t w Ht Hw.
    destruct (time_regex_shape t Ht) as (hp & m & s & fp & -> & Hhp & Hm
                                         & Hs & Hfp).
    assert (Htail : exists s' tail ms,
               s +:+ fp +:+ w = s' +:+ tail /\
               component s' (dec_value s) /\ fraction tail ms).
    { destruct Hfp as [-> | (f & -> & Hf)].
      - exists (s +:+ w), EmptyString, (FNum 0).
        split; [rewrite str_app_empty_r; reflexivity | ].
        split; [ | left; split; reflexivity].
        apply (digits_component s w 2 2 Hs); [lia | lia | exact Hw].
      - exists s, ("." +:+ f +:+ w), (fraction_value f).
        split; [rewrite !str_app_assoc; reflexivity | ].
        split.
        + rewrite <- (str_app_empty_r s) at 1.
          apply (digits_component s "" 2 2 Hs); [lia | lia | reflexivity].
        + right. exists f, w. destruct Hf as [Hf _]. repeat split; assumption. }
    destruct Htail as (s' & tail & ms & Heq & Hcs & Hfr).
    destruct (digits_component s "" 2 2 Hs ltac:(lia) ltac:(lia) eq_refl)
      as [_ Hbs].
    destruct (digits_component m "" 1 2 Hm ltac:(lia) ltac:(lia) eq_refl)
      as [Hcm Hbm].
    rewrite str_app_empty_r in Hcm.
    destruct Hhp as [-> | (h & -> & Hh)].
    - replace (("" +:+ m +:+ ":" +:+ s +:+ fp) +:+ w)
        with (m +:+ ":" +:+ s' +:+ tail).
      + rewrite (hms_to_seconds_2 m s' _ _ tail ms Hcm Hcs Hfr).
        rewrite int_add_float_small by lia. eauto.
      + rewrite <- Heq. change ("" +:+ m +:+ ":" +:+ s +:+ fp)
          with (m +:+ ":" +:+ s +:+ fp).
        rewrite !str_app_assoc. reflexivity.
    - destruct (digits_component h "" 1 2 Hh ltac:(lia) ltac:(lia) eq_refl)
        as [Hch Hbh].
      rewrite str_app_empty_r in Hch.
      replace (((h +:+ ":") +:+ m +:+ ":" +:+ s +:+ fp) +:+ w)
        with (h +:+ ":" +:+ m +:+ ":" +:+ s' +:+ tail).
      + rewrite (hms_to_seconds_3 h m s' _ _ _ tail ms Hch Hcm Hcs Hfr).
        rewrite int_add_float_small by lia. eauto.
      + rewrite <- Heq. rewrite !str_app_assoc. reflexivity. }
  destruct Hv as [Ht | (t & -> & Ht)].
  - rewrite <- (str_app_empty_r text). apply Hgen; [exact Ht | reflexivity].
  - apply Hgen; [exact Ht | reflexivity].
Qed.

(** "5:00" passes, and is 300 seconds. *)
Lemma validated_time_parses_witness :
  exists x, TimeUtils.hms_to_seconds "5:00" = Ok x.
Proof. exact (validated_time_parses "5:00" eq_refl). Defined.

(** The validator asks for a colon: a text without one, a bare number of
    seconds among them, does not pass, although the parser reads it. *)
Theorem bare_seconds_rejected (text : string) :
  str_contains ":" text = false ->
  TimeUtils.validate_time_format text = false.
Proof.
  intros Hc. destruct (TimeUtils.validate_time_format text) eqn:Hv;
    [ | reflexivity].
  exfalso. apply validate_time_format_lang in Hv.
  assert (Hcolon : forall t, lang time_regex t -> str_contains ":" t = true).
  { intros t Ht.
    destruct (time_regex_shape t Ht) as (hp & m & s & fp & -> & _).
    rewrite !str_contains_app.
    change (str_contains ":" ":") with true.
    rewrite !orb_true_r. reflexivity. }
  destruct Hv as [Ht | (t & -> & Ht)].
  - rewrite (Hcolon text Ht) in Hc. discriminate Hc.
  - rewrite str_contains_app, (Hcolon t Ht) in Hc. discriminate Hc.
Qed.

(** "90" does not pass, and is 90 seconds. *)
Lemma bare_seconds_rejected_witness :
  TimeUtils.validate_time_format "90" = false /\
  TimeUtils.hms_to_seconds "90" = Ok (FNum (90 * float_unit)).
Proof.
  split.
  - exact (bare_seconds_rejected "90" eq_refl).
  - vm_compute. reflexivity.
Defined.

End Validator.

(** [validate_time_format] accepts exactly the texts that the pattern
    ([0-9]{1,2}:)?[0-5]?[0-9]:[0-5][0-9](\.[0-9]{1,3})? spells in full, and
    those texts followed by one newline, which [$] lets through. *)
Theorem validate_time_format_accepts (text : string) :
  TimeUtils.validate_time_format text = true <->
  lang time_regex text \/
  exists t, text = t +:+ nl /\ lang time_regex t.
Proof.
  split; [apply validate_time_format_lang | ].
  intros [Ht | (t & -> & Ht)]; apply validate_time_format_search.
  - assert (Heol : exists x,
               In x (rmatch REol (String.length text, EmptyString))).
    { apply eol_holds. left. reflexivity. }
    destruct Heol as [x Hx]. exists x. eexists. split; [ | exact Hx].
    apply (rmatch_decides time_regex eq_refl). exists text.
    rewrite str_app_empty_r. auto.
  - assert (Heol : exists x,
               In x (rmatch REol (String.length t, nl))).
    { apply eol_holds. right. reflexivity. }
    destruct Heol as [x Hx]. exists x. eexists. split; [ | exact Hx].
    apply (rmatch_decides time_regex eq_refl). exists t. auto.
Qed.

(** ** The round trip of a time code *)

Section RoundTrip.

Local Open Scope Z_scope.

Lemma ratio_exp_le (p q e : Z) :
  0 <= e -> p / q < 2 ^ (53 + e) -> ratio_exp p q <= e.
Proof.
  intros He Hp. unfold ratio_exp.
  destruct (Z_le_gt_dec (p / q) 0) as [Hle | Hgt].
  - destruct (p / q) as [ | x | x]; cbn; lia.
  - assert (Z.log2 (p / q) < 53 + e) by (apply Z.log2_lt_pow2; lia). lia.
Qed.

Lemma float_unit_split (e : Z) :
  0 <= e <= 1074 -> float_unit = 2 ^ (1074 - e) * 2 ^ e.
Proof.
  intros He. unfold float_unit. rewrite <- Z.pow_add_r by lia.
  f_equal. lia.
Qed.

(** Rounding twice is rounding once. *)
Lemma round53_idem (y : Z) : 0 <= y -> round53 (round53 y) = round53 y.
Proof.
  intros Hy.
  destruct (Z_lt_ge_dec y (2 ^ 53)) as [Hsmall | Hbig].
  - rewrite (round53_small y) by lia. apply round53_small. lia.
  - assert (Hpos : 0 < y) by (pose proof (pow2_pos 53 ltac:(lia)); lia).
    pose proof (Z.log2_spec y Hpos) as [Hlo Hhi].
    assert (HL : 53 <= Z.log2 y).
    { apply Z.log2_le_pow2; lia. }
    set (L := Z.log2 y) in *.
    assert (He : ratio_exp y 1 = L - 52).
    { unfold ratio_exp. rewrite Z.div_1_r. fold L. lia. }
    unfold round53 at 2. unfold round53 at 2. rewrite round_ratio_unfold, He.
    rewrite Z.mul_1_l.
    assert (Hk : 0 < 2 ^ (L - 52)) by (apply pow2_pos; lia).
    assert (HpL : 2 ^ L = 2 ^ 52 * 2 ^ (L - 52)).
    { rewrite <- Z.pow_add_r by lia. f_equal. lia. }
    assert (HpL1 : 2 ^ Z.succ L = 2 ^ 53 * 2 ^ (L - 52)).
    { rewrite <- Z.pow_add_r by lia. f_equal. lia. }
    pose proof (rhe_div_lower y (2 ^ (L - 52)) (2 ^ 52) Hk ltac:(lia)) as Hm1.
    pose proof (rhe_div_upper y (2 ^ (L - 52)) (2 ^ 53) Hk ltac:(lia)) as Hm2.
    set (m := rhe_div y (2 ^ (L - 52))) in *.
    apply round53_multiple; [nia | ].
    destruct (Z.eq_dec m (2 ^ 53)) as [Hm | Hm].
    + assert (Hr : m * 2 ^ (L - 52) = 2 ^ Z.succ L) by (rewrite Hm; lia).
      rewrite Hr. apply pow2_divide. split; [apply ratio_exp_nonneg | ].
      unfold ratio_exp. rewrite Z.div_1_r.
      rewrite Z.log2_pow2 by lia. lia.
    + assert (Hlog : Z.log2 (m * 2 ^ (L - 52)) = L).
      { apply Z.log2_unique; [lia | ]. split; nia. }
      assert (Hexp : ratio_exp (m * 2 ^ (L - 52)) 1 = L - 52).
      { unfold ratio_exp. rewrite Z.div_1_r, Hlog. lia. }
      rewrite Hexp. apply Z.divide_factor_r.
Qed.

(** The double nearest k / 1000 misses it by at most 2^-54. *)
Lemma fraction_value_millis (k : Z) :
  0 <= k < 1000 ->
  exists a,
    float_of_decimal false k (- 3) = FNum a /\ 0 <= a /\
    2 * Z.abs (1000 * a - k * float_unit) <= 1000 * 2 ^ 1021.
Proof.
  intros Hk. pose proof float_unit_pos as HU.
  pose proof (float_unit_split 1021 ltac:(lia)) as HU21.
  change (1074 - 1021) with 53 in HU21.
  pose proof (pow2_pos 1021 ltac:(lia)) as HP.
  change (2 ^ 53) with 9007199254740992 in HU21.
  unfold float_of_decimal.
  destruct (Z.eqb_spec k 0) as [-> | Hne].
  - exists 0. split; [reflexivity | ]. split; [lia | ]. cbn [Z.mul Z.sub Z.abs].
    lia.
  - change (0 <=? - 3) with false. cbv iota.
    change (10 ^ (- (- 3))) with 1000.
    set (r := round_ratio (k * float_unit) 1000).
    assert (He : ratio_exp (k * float_unit) 1000 <= 1021).
    { apply ratio_exp_le; [lia | ].
      change (53 + 1021) with 1074. fold float_unit.
      apply Z.div_lt_upper_bound; lia. }
    pose proof (round_ratio_error (k * float_unit) 1000 ltac:(lia)) as Herr.
    fold r in Herr.
    assert (Hpow : 2 ^ ratio_exp (k * float_unit) 1000 <= 2 ^ 1021).
    { apply Z.pow_le_mono_r; [lia | exact He]. }
    assert (Hr0 : 0 <= r) by (apply round_ratio_nonneg; lia).
    unfold float_of_ratio. fold r.
    assert (Hrhuge : r < float_huge).
    { pose proof (float_unit_lt_huge 1 ltac:(lia)). lia. }
    destruct (Z.leb_spec float_huge r); [lia | ].
    destruct (Z.eqb_spec r 0) as [Hz | Hnz]; [lia | ].
    exists r. split; [reflexivity | ]. split; [lia | ]. lia.
Qed.

(** The float sum of N whole seconds and k milliseconds, N below 2^19 and
    k below 1000: a double between N and N + 1 that misses N + k / 1000 by
    less than a quarter of a microsecond. *)
Lemma seconds_plus_millis (N k : Z) :
  0 <= N < 2 ^ 19 - 1 -> 0 <= k < 1000 ->
  exists x,
    float_add (FNum (N * float_unit)) (float_of_decimal false k (- 3))
    = FNum x /\
    round53 x = x /\
    N * float_unit <= x < (N + 1) * float_unit /\
    2 * Z.abs (1000 * (x - N * float_unit) - k * float_unit) < float_unit.
Proof.
  intros HN Hk. pose proof float_unit_pos as HU.
  destruct (fraction_value_millis k Hk) as (a & -> & Ha0 & Ha).
  pose proof (float_unit_split 1021 ltac:(lia)) as HU21.
  pose proof (float_unit_split 1040 ltac:(lia)) as HU40.
  change (1074 - 1021) with 53 in HU21. change (1074 - 1040) with 34 in HU40.
  pose proof (pow2_pos 1021 ltac:(lia)) as HP21.
  pose proof (pow2_pos 1040 ltac:(lia)) as HP40.
  change (2 ^ 53) with 9007199254740992 in HU21.
  change (2 ^ 34) with 17179869184 in HU40.
  change (2 ^ 19 - 1) with 524287 in HN.
  set (y := N * float_unit + a).
  assert (Hy : 0 <= y < 2 ^ (53 + 1040)).
  { change (53 + 1040) with (19 + 1074). rewrite Z.pow_add_r by lia.
    fold float_unit. change (2 ^ 19) with 524288. unfold y. nia. }
  assert (He : ratio_exp y 1 <= 1040) by (apply ratio_exp_one_le; lia).
  pose proof (ratio_exp_nonneg y 1) as He0.
  assert (Hpow : 2 ^ ratio_exp y 1 <= 2 ^ 1040).
  { apply Z.pow_le_mono_r; lia. }
  pose proof (pow2_pos _ He0) as Hpe.
  pose proof (round_ratio_error y 1 ltac:(lia)) as Herr.
  fold (round53 y) in Herr. rewrite Z.mul_1_r, Z.mul_1_l in Herr.
  assert (Hlow : N * float_unit <= round53 y).
  { unfold round53. rewrite round_ratio_unfold, Z.mul_1_l.
    assert (Hdiv : (2 ^ ratio_exp y 1 | N * float_unit)).
    { apply Z.divide_trans with float_unit; [ | apply Z.divide_factor_r].
      apply pow2_divide. lia. }
    destruct Hdiv as [c Hc].
    pose proof (rhe_div_lower y (2 ^ ratio_exp y 1) c Hpe) as Hl.
    rewrite <- Hc in Hl. specialize (Hl ltac:(unfold y; lia)).
    rewrite Hc. nia. }
  exists (round53 y). split; [ | split; [ | split]].
  - unfold float_add. fold y.
    destruct (Z.eqb_spec y 0) as [Hz | Hnz].
    + rewrite Hz. reflexivity.
    + unfold float_round. destruct (Z.ltb_spec y 0); [lia | ].
      rewrite Z.abs_eq by lia. unfold float_of_ratio.
      fold (round53 y).
      assert (round53 y < float_huge).
      { pose proof (float_unit_lt_huge (N + 1) ltac:(lia)). lia. }
      destruct (Z.leb_spec float_huge (round53 y)); [lia | ].
      destruct (Z.eqb_spec (round53 y) 0) as [Hz | Hz];
        [rewrite Hz | ]; reflexivity.
  - apply round53_idem. lia.
  - split; [exact Hlow | ]. unfold y in *. lia.
  - unfold y in *. lia.
Qed.

Lemma digit_chr_val (c : ascii) :
  is_digit c = true -> digit_chr (digit_val c) = c /\ 0 <= digit_val c <= 9.
Proof.
  intros H.
  destruct c as [[] [] [] [] [] [] [] []]; vm_compute in H;
    try discriminate H; split; try reflexivity; vm_compute; split;
    discriminate.
Qed.

Lemma is_0_to_5_val (c : ascii) :
  is_0_to_5 c = true -> is_digit c = true /\ digit_val c <= 5.
Proof.
  intros H.
  destruct c as [[] [] [] [] [] [] [] []]; vm_compute in H;
    try discriminate H; split; try reflexivity; vm_compute; discriminate.
Qed.

Lemma two_digits_chars (c1 c2 : ascii) :
  is_digit c1 = true -> is_digit c2 = true ->
  two_digits (10 * digit_val c1 + digit_val c2)
  = String c1 (String c2 EmptyString).
Proof.
  intros H1 H2.
  destruct (digit_chr_val c1 H1) as [E1 B1].
  destruct (digit_chr_val c2 H2) as [E2 B2].
  unfold two_digits.
  replace ((10 * digit_val c1 + digit_val c2) / 10) with (digit_val c1)
    by (apply (Z.div_unique _ 10 _ (digit_val c2)); lia).
  replace ((10 * digit_val c1 + digit_val c2) mod 10) with (digit_val c2)
    by (apply (Z.mod_unique _ 10 (digit_val c1)); lia).
  rewrite E1, E2. reflexivity.
Qed.

Lemma three_digits_chars (c1 c2 c3 : ascii) :
  is_digit c1 = true -> is_digit c2 = true -> is_digit c3 = true ->
  three_digits (100 * digit_val c1 + 10 * digit_val c2 + digit_val c3)
  = String c1 (String c2 (String c3 EmptyString)).
Proof.
  intros H1 H2 H3.
  destruct (digit_chr_val c1 H1) as [E1 B1].
  destruct (digit_chr_val c2 H2) as [E2 B2].
  destruct (digit_chr_val c3 H3) as [E3 B3].
  unfold three_digits.
  set (k := 100 * digit_val c1 + 10 * digit_val c2 + digit_val c3).
  replace (k / 100) with (digit_val c1)
    by (apply (Z.div_unique _ 100 _ (10 * digit_val c2 + digit_val c3));
        unfold k; lia).
  replace (k / 10) with (10 * digit_val c1 + digit_val c2)
    by (apply (Z.div_unique _ 10 _ (digit_val c3)); unfold k; lia).
  replace ((10 * digit_val c1 + digit_val c2) mod 10) with (digit_val c2)
    by (apply (Z.mod_unique _ 10 (digit_val c1)); lia).
  replace (k mod 10) with (digit_val c3)
    by (apply (Z.mod_unique _ 10 (10 * digit_val c1 + digit_val c2));
        unfold k; lia).
  rewrite E1, E2, E3. reflexivity.
Qed.

End RoundTrip.

(** A text of the exact form HH:MM:SS.mmm (two digits of hours, minutes and
    seconds below 60, three digits of milliseconds) survives the round
    trip: [seconds_to_hms (hms_to_seconds s)] is [s] again. *)
Theorem hms_round_trip (s : string) :
  is_canonical_hms s = true ->
  exists x,
    TimeUtils.hms_to_seconds s = Ok x /\ TimeUtils.seconds_to_hms x = Ok s.
Proof.
  intros Hc.
  destruct s as [ | h1 [ | h2 [ | c1 [ | m1 [ | m2 [ | c2 [ | s1 [ | s2
                [ | dot [ | f1 [ | f2 [ | f3 [ | x rest]]]]]]]]]]]]];
    try discriminate Hc.
  cbn [is_canonical_hms] in Hc.
  apply andb_prop in Hc; destruct Hc as [Hc Hf3].
  apply andb_prop in Hc; destruct Hc as [Hc Hf2].
  apply andb_prop in Hc; destruct Hc as [Hc Hf1].
  apply andb_prop in Hc; destruct Hc as [Hc Hdot].
  apply andb_prop in Hc; destruct Hc as [Hc Hs2].
  apply andb_prop in Hc; destruct Hc as [Hc Hs1].
  apply andb_prop in Hc; destruct Hc as [Hc Hc2].
  apply andb_prop in Hc; destruct Hc as [Hc Hm2].
  apply andb_prop in Hc; destruct Hc as [Hc Hm1].
  apply andb_prop in Hc; destruct Hc as [Hc Hc1].
  apply andb_prop in Hc; destruct Hc as [Hh1 Hh2].
  apply Ascii.eqb_eq in Hdot, Hc1, Hc2. subst dot c1 c2.
  destruct (is_0_to_5_val m1 Hm1) as [Hdm1 Hm1v].
  destruct (is_0_to_5_val s1 Hs1) as [Hds1 Hs1v].
  pose proof (digit_chr_val h1 Hh1) as [_ Bh1].
  pose proof (digit_chr_val h2 Hh2) as [_ Bh2].
  pose proof (digit_chr_val m1 Hdm1) as [_ Bm1].
  pose proof (digit_chr_val m2 Hm2) as [_ Bm2].
  pose proof (digit_chr_val s1 Hds1) as [_ Bs1].
  pose proof (digit_chr_val s2 Hs2) as [_ Bs2].
  pose proof (digit_chr_val f1 Hf1) as [_ Bf1].
  pose proof (digit_chr_val f2 Hf2) as [_ Bf2].
  pose proof (digit_chr_val f3 Hf3) as [_ Bf3].
  set (vh := 10 * digit_val h1 + digit_val h2).
  set (vm := 10 * digit_val m1 + digit_val m2).
  set (vs := 10 * digit_val s1 + digit_val s2).
  set (k := 100 * digit_val f1 + 10 * digit_val f2 + digit_val f3).
  assert (Hpair : forall a b,
             is_digit a = true -> is_digit b = true ->
             component (String a (String b "")) (10 * digit_val a + digit_val b)).
  { intros a b Ha Hb. exists (String a (String b "")), EmptyString.
    split; [reflexivity | ].
    split; [cbn [is_number str_all]; rewrite Ha, Hb; reflexivity | ].
    split; [cbn; unfold int_max_str_digits; lia | ].
    split; [reflexivity | ].
    unfold dec_value, digits_value. cbn [str_vals fold_left]. lia. }
  assert (Hfrac : fraction (String "." (String f1 (String f2 (String f3 ""))))
                    (float_of_decimal false k (- 3))).
  { right. exists (String f1 (String f2 (String f3 ""))), EmptyString.
    split; [reflexivity | ].
    split; [cbn [str_all]; rewrite Hf1, Hf2, Hf3; reflexivity | ].
    split; [reflexivity | ].
    unfold fraction_value. f_equal.
    unfold dec_value, digits_value, k. cbn [str_vals fold_left]. lia. }
  pose proof (hms_to_seconds_3 _ _ _ _ _ _ _ _
                (Hpair h1 h2 Hh1 Hh2) (Hpair m1 m2 Hdm1 Hm2)
                (Hpair s1 s2 Hds1 Hs2) Hfrac) as Hparse.
  fold vh vm vs in Hparse.
  change (String h1 (String h2 "") +:+ ":" +:+ String m1 (String m2 "")
          +:+ ":" +:+ String s1 (String s2 "")
          +:+ String "." (String f1 (String f2 (String f3 ""))))
    with (String h1 (String h2 (String ":" (String m1 (String m2
            (String ":" (String s1 (String s2 (String "."
               (String f1 (String f2 (String f3 "")))))))))))) in Hparse.
  set (N := vh * 3600 + vm * 60 + vs) in *.
  assert (HN : 0 <= N < 2 ^ 19 - 1).
  { change (2 ^ 19 - 1) with 524287. unfold N, vh, vm, vs. lia. }
  assert (Hk : 0 <= k < 1000) by (unfold k; lia).
  rewrite int_add_float_small in Hparse
    by (change (2 ^ 53) with 9007199254740992;
        change (2 ^ 19 - 1) with 524287 in HN; lia).
  destruct (seconds_plus_millis N k HN Hk) as (x & Hx & Hfix & Hrange & Herr).
  rewrite Hx in Hparse. exists (FNum x). split; [exact Hparse | ].
  pose proof float_unit_pos as HU.
  set (d := x - N * float_unit) in *.
  assert (Hd : 0 <= d < float_unit) by (unfold d; lia).
  assert (Hvh : 0 <= vh < 100) by (unfold vh; lia).
  assert (Hvm : 0 <= vm < 60) by (unfold vm; lia).
  assert (Hvs : 0 <= vs < 60) by (unfold vs; lia).
  assert (Hxe : x = (vh * 3600 + vm * 60 + vs) * float_unit + d)
    by (unfold d, N; lia).
  assert (Evh : vh = 10 * digit_val h1 + digit_val h2) by reflexivity.
  assert (Evm : vm = 10 * digit_val m1 + digit_val m2) by reflexivity.
  assert (Evs : vs = 10 * digit_val s1 + digit_val s2) by reflexivity.
  assert (Ek : k = 100 * digit_val f1 + 10 * digit_val f2 + digit_val f3)
    by reflexivity.
  clearbody vh vm vs k d. clear Hparse Hx.
  rewrite seconds_to_hms_exact;
    [ | split; [lia | ];
        change (2 ^ 53) with 9007199254740992;
        change (2 ^ 19 - 1) with 524287 in HN; nia
      | exact Hfix].
  assert (Hq : x / (3600 * float_unit) = vh).
  { symmetry.
    apply (Z.div_unique x (3600 * float_unit) vh
             ((vm * 60 + vs) * float_unit + d)); nia. }
  assert (Hr : x mod (3600 * float_unit) = (vm * 60 + vs) * float_unit + d).
  { symmetry. apply (Z.mod_unique x (3600 * float_unit) vh); nia. }
  assert (Hm : ((vm * 60 + vs) * float_unit + d) / (60 * float_unit) = vm).
  { symmetry.
    apply (Z.div_unique _ (60 * float_unit) vm (vs * float_unit + d)); nia. }
  assert (Hsec : x mod (60 * float_unit) = vs * float_unit + d).
  { symmetry. apply (Z.mod_unique x (60 * float_unit) (vh * 60 + vm)); nia. }
  rewrite Hq, Hr, Hm, Hsec.
  destruct (format_06_3f_below_minute (vs * float_unit + d) ltac:(nia))
    as [Hfmt _].
  assert (Ht : rhe_div (1000 * (vs * float_unit + d)) float_unit
               = 1000 * vs + k).
  { apply rhe_div_unique; [exact HU | ].
    replace (1000 * (vs * float_unit + d) - (1000 * vs + k) * float_unit)
      with (1000 * d - k * float_unit) by ring.
    exact Herr. }
  cbv zeta in Hfmt. rewrite Ht in Hfmt. rewrite Hfmt.
  replace ((1000 * vs + k) / 1000) with vs
    by (apply (Z.div_unique _ 1000 _ k); lia).
  replace ((1000 * vs + k) mod 1000) with k
    by (apply (Z.mod_unique _ 1000 vs); lia).
  rewrite !format_02d_two_digits by lia.
  rewrite Evh, Evm, Evs, Ek.
  rewrite !two_digits_chars, three_digits_chars by assumption.
  reflexivity.
Qed.

(** "01:02:03.450" *)
Lemma hms_round_trip_witness :
  exists x,
    TimeUtils.hms_to_seconds "01:02:03.450" = Ok x /\
    TimeUtils.seconds_to_hms x = Ok "01:02:03.450".
Proof. exact (hms_round_trip "01:02:03.450" eq_refl). Defined.


(** ** What a run leaves alone *)

(** Whatever its outcome, [process_audio] shows nothing on the page, keeps
    the session as it is, takes one temporary directory, and neither adds
    nor removes a file other than its own clips: the source file and
    every other file are as before. *)
Theorem process_audio_frame
    (env : Collaborators) (file_path start_time : string)
    (end_time : option string) (whisper_model : string) (w : World) :
  let w' :=
    snd (Main.process_audio env file_path start_time end_time
           whisper_model w) in
  ui w' = ui w /\ session w' = session w /\
  tmp_count w' = S (tmp_count w) /\
  (forall q,
      q <> run_clip w ->
      (forall j, q <> Main.segment_path (run_temp_dir w) j) ->
      q ∈ files w' <-> q ∈ files w).
Proof.
  unfold Main.process_audio, bind, mkdtemp, trim_audio, lift.
  fold (run_temp_dir w). fold (run_clip w). cbn [files].
  destruct (trim_succeeds env file_path start_time end_time (run_clip w));
    [ | cbn; repeat split; tauto].
  destruct (run_clip_nonempty w) as (c & p & Hp). rewrite Hp.
  assert (Hclip : forall q : string,
             q <> String c p ->
             q ∈ files w ∪ {[String c p]} <-> q ∈ files w) by set_solver.
  destruct (run_diarization env (String c p)) as [spans | e];
    [ | cbn; repeat split; try tauto; apply Hclip; assumption].
  destruct (Transcriber.init env whisper_model) as [transcriber | e];
    [ | cbn; repeat split; try tauto; apply Hclip; assumption].
  unfold set_files. cbn [files tmp_count ui session].
  destruct (Main.process_segments env transcriber (run_temp_dir w)
              (String c p) 0 spans [] _) as [r1 w1] eqn:Hloop.
  apply process_segments_frame in Hloop.
  cbn [files tmp_count ui session] in Hloop.
  destruct Hloop as (Hf & Hu & Hs & Ht).
  destruct r1 as [ts | e].
  - unfold os_remove.
    destruct (decide (String c p ∈ files w1)); cbn; rewrite Hu, Hs, Ht;
      (split; [reflexivity | split; [reflexivity | split; [reflexivity | ]]]);
      intros q Hq Hsegs.
    + rewrite <- (Hclip q Hq), <- (Hf q Hsegs). set_solver.
    + rewrite <- (Hclip q Hq), <- (Hf q Hsegs). reflexivity.
  - cbn. rewrite Hu, Hs, Ht.
    split; [reflexivity | split; [reflexivity | split; [reflexivity | ]]].
    intros q Hq Hsegs. rewrite <- (Hclip q Hq), <- (Hf q Hsegs). reflexivity.
Qed.

(** The world [transcribe_audio_source] hands to [process_audio]. *)
Lemma transcribe_local_unfold env src start_time end_time model w :
  Main.transcribe_audio_source env src false start_time end_time model w
  = Main.process_and_store env src start_time end_time model
      {| files := files w; tmp_count := S (tmp_count w); ui := ui w;
         session := session w |}.
Proof. reflexivity. Qed.

(** For a local file: when [process_audio] returns a transcript that is
    not empty, [transcribe_audio_source] replaces the session wholesale
    (the transcript, its flattened text, and an empty answer), prints the
    text and reports no error; when [process_audio] raises, the exception
    goes through and the session keeps what it had. *)
Theorem transcribe_audio_source_outcomes
    (env : Collaborators) (audio_source start_time : string)
    (end_time : option string) (whisper_model : string) (w w1 : World)
    (r : result (list Transcription)) :
  Main.process_audio env audio_source start_time end_time whisper_model
    {| files := files w; tmp_count := S (tmp_count w); ui := ui w;
       session := session w |} = (r, w1) ->
  match r with
  | Ok [] => True
  | Ok transcriptions =>
      Main.transcribe_audio_source env audio_source false start_time
        end_time whisper_model w
      = (Ok tt,
         {| files := files w1; tmp_count := tmp_count w1;
            ui := ui w ++
                  [Printed ("Transcriptions: "
                            +:+ Main.combine_transcriptions transcriptions)];
            session :=
              {| ss_transcriptions := transcriptions;
                 ss_transcript_text :=
                   Main.combine_transcriptions transcriptions;
                 ss_llm_response := "" |} |})
  | Raise e =>
      Main.transcribe_audio_source env audio_source false start_time
        end_time whisper_model w = (Raise e, w1) /\
      session w1 = session w /\ ui w1 = ui w
  end.
Proof.
  intros Hrun. rewrite transcribe_local_unfold.
  pose proof (process_audio_frame env audio_source start_time end_time
                whisper_model
                {| files := files w; tmp_count := S (tmp_count w);
                   ui := ui w; session := session w |}) as Hframe.
  unfold Main.process_and_store, bind. rewrite Hrun in *.
  cbn [snd ui session] in Hframe. destruct Hframe as (Hu & Hs & _).
  destruct r as [[ | t ts] | e].
  - exact I.
  - unfold Main.store_session, py_print. cbn. rewrite Hu. reflexivity.
  - auto.
Qed.

(** Three spans, all transcribed: the session holds the three entries and
    the three lines. *)
Lemma transcribe_audio_source_outcomes_witness :
  let w' :=
    snd (Main.transcribe_audio_source (sample_env three_spans none none)
           "/data/talk.wav" false "00:00" (Some "00:30") "base" world0) in
  length (ss_transcriptions (session w')) = 3%nat /\
  ss_llm_response (session w') = EmptyString /\
  ss_transcript_text (session w')
  = Main.combine_transcriptions (ss_transcriptions (session w')).
Proof.
  pose proof (transcribe_audio_source_outcomes
                (sample_env three_spans none none)
                "/data/talk.wav" "00:00" (Some "00:30") "base" world0
                _ _ (surjective_pairing _)) as H.
  match type of H with
  | match ?r with _ => _ end => set (r0 := r) in H; vm_compute in r0
  end.
  subst r0. cbv iota in H. cbv zeta. rewrite H.
  cbn [snd session ss_transcriptions ss_llm_response ss_transcript_text
       length].
  repeat split.
Defined.

(** ** The flattened transcript *)

Lemma str_split_join (sep : ascii) (xs : list string) :
  xs <> [] ->
  Forall (fun x => str_contains sep x = false) xs ->
  str_split sep (str_join (String sep EmptyString) xs) = xs.
Proof.
  induction xs as [ | x [ | y rest] IH]; intros Hne Hall.
  - contradiction Hne. reflexivity.
  - inversion Hall; subst. cbn [str_join]. apply str_split_whole. assumption.
  - inversion Hall as [ | ? ? Hx Hrest]; subst.
    change (str_join (String sep "") (x :: y :: rest))
      with (x +:+ String sep (str_join (String sep "") (y :: rest))).
    rewrite str_split_app by exact Hx.
    rewrite IH; [reflexivity | discriminate | exact Hrest].
Qed.

(** [combine_transcriptions] writes one line per entry, in order: as long
    as no speaker label and no text holds a newline, splitting the result
    at the newlines gives back the lines "speaker: text" of the entries. *)
Theorem combine_transcriptions_lines (transcriptions : list Transcription) :
  transcriptions <> [] ->
  Forall (fun seg => str_contains newline (t_speaker seg) = false /\
                     str_contains newline (t_text seg) = false)
         transcriptions ->
  str_split newline (Main.combine_transcriptions transcriptions)
  = map (fun seg => t_speaker seg +:+ ": " +:+ t_text seg) transcriptions.
Proof.
  intros Hne Hall. unfold Main.combine_transcriptions.
  apply str_split_join.
  - destruct transcriptions; [contradiction Hne; reflexivity | discriminate].
  - clear Hne. induction Hall as [ | seg rest [Hs Ht] _ IH]; cbn [map];
      constructor; [ | exact IH].
    rewrite !str_contains_app, Hs, Ht. reflexivity.
Qed.

(** Two entries, two lines. *)
Lemma combine_transcriptions_lines_witness :
  str_split newline
    (Main.combine_transcriptions
       [ {| t_speaker := "A"; t_text := "hi"; t_start := FNum 0;
            t_end := FNum float_unit |};
         {| t_speaker := "B"; t_text := "hello there";
            t_start := FNum float_unit; t_end := FNum (2 * float_unit) |} ])
  = ["A: hi"; "B: hello there"].
Proof.
  rewrite combine_transcriptions_lines.
  - reflexivity.
  - discriminate.
  - repeat constructor.
Defined.

(** ** Stripped text *)

Lemma rstrip_idem (f : ascii -> bool) (s : string) :
  rstrip_with f (rstrip_with f s) = rstrip_with f s.
Proof.
  induction s as [ | c s IH]; [reflexivity | ].
  cbn [rstrip_with].
  destruct (rstrip_with f s) as [ | d r] eqn:E.
  - destruct (f c) eqn:Hc; [reflexivity | ].
    cbn [rstrip_with]. rewrite Hc. reflexivity.
  - cbn [rstrip_with] in IH |- *.
    change (rstrip_with f (String c (String d r)))
      with (match rstrip_with f (String d r) with
            | EmptyString => if f c then EmptyString else String c EmptyString
            | r0 => String c r0
            end).
    rewrite IH. reflexivity.
Qed.

Lemma rstrip_keeps_head (f : ascii -> bool) (c : ascii) (s : string) :
  f c = false -> exists r, rstrip_with f (String c s) = String c r.
Proof.
  intros Hc. cbn [rstrip_with]. rewrite Hc.
  destruct (rstrip_with f s); eauto.
Qed.

Lemma lstrip_head (f : ascii -> bool) (s : string) :
  match lstrip_with f s with
  | EmptyString => True
  | String c _ => f c = false
  end.
Proof.
  induction s as [ | c s IH]; [exact I | ].
  cbn [lstrip_with]. destruct (f c) eqn:Hc; [exact IH | exact Hc].
Qed.

Lemma rstrip_last (f : ascii -> bool) (s : string) :
  match str_last (rstrip_with f s) with
  | None => True
  | Some c => f c = false
  end.
Proof.
  induction s as [ | c s IH]; [exact I | ].
  cbn [rstrip_with].
  destruct (rstrip_with f s) as [ | d r] eqn:E.
  - destruct (f c) eqn:Hc; [exact I | cbn; exact Hc].
  - exact IH.
Qed.

(** [s.strip()] has no white space at either end, and stripping it again
    changes nothing. *)
Lemma str_strip_stripped (s : string) :
  str_strip (str_strip s) = str_strip s /\
  match str_strip s with
  | EmptyString => True
  | String c _ => is_space c = false
  end /\
  match str_last (str_strip s) with
  | None => True
  | Some c => is_space c = false
  end.
Proof.
  unfold str_strip.
  pose proof (lstrip_head is_space s) as Hhead.
  pose proof (rstrip_last is_space (lstrip_with is_space s)) as Hlast.
  destruct (lstrip_with is_space s) as [ | c t] eqn:E.
  - cbn. auto.
  - destruct (rstrip_keeps_head is_space c t Hhead) as [r Hr].
    rewrite Hr in *. split; [ | split; [exact Hhead | exact Hlast]].
    cbn [lstrip_with]. rewrite Hhead. rewrite <- Hr. apply rstrip_idem.
Qed.

(** The text [WhisperTranscriber.transcribe] returns neither starts nor
    ends with white space, whatever the engine produced. *)
Theorem transcribe_returns_stripped
    (env : Collaborators) (self : Transcriber.WhisperTranscriber env)
    (audio_file text : string) :
  Transcriber.transcribe self audio_file = Ok text ->
  str_strip text = text /\
  (forall c rest, text = String c rest -> is_space c = false) /\
  (forall c, str_last text = Some c -> is_space c = false).
Proof.
  unfold Transcriber.transcribe.
  destruct (whisper_transcribe env (Transcriber.model self) audio_file)
    as [raw | e]; [ | discriminate].
  intros [= <-].
  destruct (str_strip_stripped raw) as (Hidem & Hhead & Hlast).
  split; [exact Hidem | ]. split.
  - intros c rest Heq. rewrite Heq in Hhead. exact Hhead.
  - intros c Heq. rewrite Heq in Hlast. exact Hlast.
Qed.

(** The sample engine pads its text with blanks; the transcriber returns
    it without them. *)
Lemma transcribe_returns_stripped_witness :
  str_strip "words of /tmp/tmp0/segment_0.wav"
  = "words of /tmp/tmp0/segment_0.wav".
Proof.
  exact (proj1 (transcribe_returns_stripped
                  (sample_env three_spans none none)
                  (sample_transcriber three_spans none none)
                  "/tmp/tmp0/segment_0.wav"
                  "words of /tmp/tmp0/segment_0.wav" eq_refl)).
Defined.

(** ** What the query responder does to the world *)

(** [answer_with_llm] never touches the files, the session or the
    temporary directories.  It raises only what is no [Exception]
    (KeyboardInterrupt, SystemExit), and then shows nothing; it shows at
    most one message, an error, and then returns "LLM request failed.". *)
Theorem answer_with_llm_effects
    (env : Collaborators) (context question model_name : string)
    (temperature : pyfloat) (w : World) :
  let out :=
    LlmServices.answer_with_llm env context question model_name
      temperature w in
  files (snd out) = files w /\ session (snd out) = session w /\
  tmp_count (snd out) = tmp_count w /\
  match fst out with
  | Raise e => is_Exception e = false /\ snd out = w
  | Ok answer =>
      snd out = w \/
      (answer = "LLM request failed." /\
       exists e, is_Exception e = true /\
                 ui (snd out)
                 = ui w ++ [StError ("Error calling LLM: " +:+ exn_msg e)])
  end.
Proof.
  unfold LlmServices.answer_with_llm.
  destruct (LlmServices.ask_model env _ model_name temperature) as [a | e].
  - cbn. auto.
  - destruct (is_Exception e) eqn:He.
    + cbn. repeat split. right. split; [reflexivity | ]. eauto.
    + cbn. auto.
Qed.

(** ** The downloaded audio *)

Lemma str_app_suffix (a b x y : string) :
  a +:+ x = b +:+ y -> String.length x = String.length y -> x = y.
Proof.
  revert b. induction a as [ | c a IH]; intros b Heq Hlen.
  - destruct b as [ | d b]; [exact Heq | ].
    exfalso. apply (f_equal String.length) in Heq.
    change ("" +:+ x) with x in Heq. rewrite str_length_app in Heq.
    cbn [String.length] in Heq. lia.
  - destruct b as [ | d b].
    + exfalso. apply (f_equal String.length) in Heq.
      change ("" +:+ y) with y in Heq. rewrite str_length_app in Heq.
      cbn [String.length] in Heq. lia.
    + change (String c (a +:+ x) = String d (b +:+ y)) in Heq.
      injection Heq as _ Heq. exact (IH b Heq Hlen).
Qed.

(** A run of digits ends with a digit. *)
Lemma number_last_digit (d : string) :
  is_number d = true ->
  exists d' c, d = d' +:+ String c EmptyString /\ is_digit c = true.
Proof.
  intros Hd. destruct d as [ | c d]; [discriminate Hd | ].
  unfold is_number in Hd. revert c Hd.
  induction d as [ | c2 d IH]; intros c Hd.
  - exists EmptyString, c. split; [reflexivity | ].
    cbn in Hd. rewrite andb_true_r in Hd. exact Hd.
  - cbn [str_all] in Hd. apply andb_prop in Hd. destruct Hd as [Hc Hd].
    destruct (IH c2 Hd) as (d' & c' & Heq & Hc').
    exists (String c d'), c'. split; [ | exact Hc'].
    change (String c d' +:+ String c' "") with (String c (d' +:+ String c' "")).
    rewrite <- Heq. reflexivity.
Qed.

(** The path of the download is the path of no clip of the run that
    follows it. *)
Lemma download_path_apart (dir1 dir2 : string) :
  os_path_join dir1 "youtube_audio.wav"
  <> os_path_join dir2 "trimmed_audio.wav" /\
  forall j,
    os_path_join dir1 "youtube_audio.wav" <> Main.segment_path dir2 j.
Proof.
  split.
  - rewrite !os_path_join_relative by (intros H; discriminate H).
    intros H. apply str_app_suffix in H; [discriminate H | reflexivity].
  - intros j H.
    change (Main.segment_path dir2 j)
      with (os_path_join dir2
              (String "s"
                 ("egment_" +:+ str_of_int (Z.of_nat j) +:+ ".wav"))) in H.
    rewrite !os_path_join_relative in H by (intros E; discriminate E).
    unfold str_of_int in H.
    destruct (Z.ltb_spec (Z.of_nat j) 0) as [Hneg | _]; [lia | ].
    destruct (str_of_nonneg_value (Z.of_nat j) ltac:(lia)) as [Hnum _].
    destruct (number_last_digit _ Hnum) as (d' & c & Hd & Hc).
    rewrite Hd in H.
    assert (Hl : join_prefix dir1 +:+ "youtube_audio.wav"
                 = (join_prefix dir1 +:+ "youtube_audi") +:+ "o.wav").
    { rewrite str_app_assoc. reflexivity. }
    assert (Hr : join_prefix dir2
                 +:+ String "s" ("egment_" +:+ (d' +:+ String c "") +:+ ".wav")
                 = (join_prefix dir2 +:+ "segment_" +:+ d')
                   +:+ String c ".wav").
    { rewrite !str_app_assoc. reflexivity. }
    rewrite Hl, Hr in H.
    apply str_app_suffix in H; [ | reflexivity].
    injection H as Ho. subst c. discriminate Hc.
Qed.

(** [transcribe_audio_source] never removes the audio it downloaded:
    whatever the outcome of the run, the file is still in the temporary
    directory afterwards. *)
Theorem downloaded_audio_left_behind
    (env : Collaborators) (url start_time : string)
    (end_time : option string) (whisper_model : string) (w : World) :
  let download := os_path_join (run_temp_dir w) "youtube_audio.wav" in
  download_succeeds env url download = true ->
  download ∈
    files (snd (Main.transcribe_audio_source env url true start_time
                  end_time whisper_model w)).
Proof.
  intros download Hok.
  unfold Main.transcribe_audio_source, bind, mkdtemp, download_youtube_audio.
  fold (run_temp_dir w). fold download. rewrite Hok.
  destruct (os_path_join_nonempty (run_temp_dir w) "y" "outube_audio.wav")
    as (c & p & Hp).
  change (os_path_join (run_temp_dir w) "youtube_audio.wav")
    with download in Hp.
  rewrite Hp. rewrite <- Hp.
  unfold set_files. cbn [files tmp_count ui session].
  set (w1 := {| files := files w ∪ {[download]};
                tmp_count := S (tmp_count w); ui := ui w;
                session := session w |}).
  pose proof (process_audio_frame env download start_time end_time
                whisper_model w1) as Hframe.
  unfold Main.process_and_store, bind.
  destruct (Main.process_audio env download start_time end_time
              whisper_model w1) as [r w2].
  cbn [snd] in Hframe. destruct Hframe as (_ & _ & _ & Hfiles).
  assert (Hin : download ∈ files w2).
  { apply Hfiles.
    - apply (download_path_apart (run_temp_dir w) (run_temp_dir w1)).
    - apply (download_path_apart (run_temp_dir w) (run_temp_dir w1)).
    - unfold w1. cbn [files]. set_solver. }
  destruct r as [[ | t ts] | e]; cbn; exact Hin.
Qed.

(** A download that succeeds and a run that returns. *)
Lemma downloaded_audio_left_behind_witness :
  "/tmp/tmp0/youtube_audio.wav" ∈
    files (snd (Main.transcribe_audio_source
                  (sample_env three_spans none none)
                  "https://www.youtube.com/watch?v=x" true "00:00"
                  (Some "00:30") "base" world0)).
Proof.
  exact (downloaded_audio_left_behind (sample_env three_spans none none)
           "https://www.youtube.com/watch?v=x" "00:00" (Some "00:30")
           "base" world0 eq_refl).
Defined.

(** ** Failures that end a run *)

(** When the diarizer raises, or the Whisper model cannot be loaded,
    [process_audio] raises the same exception; the main clip it had
    trimmed stays on disk, and nothing else has changed. *)
Theorem diarization_failure_aborts
    (env : Collaborators) (file_path start_time : string)
    (end_time : option string) (whisper_model : string) (w : World)
    (e : exn) :
  trim_succeeds env file_path start_time end_time (run_clip w) = true ->
  run_diarization env (run_clip w) = Raise e \/
  (is_ok (run_diarization env (run_clip w)) = true /\
   whisper_load_model env whisper_model = Raise e) ->
  Main.process_audio env file_path start_time end_time whisper_model w
  = (Raise e, world_with_clip w) /\
  run_clip w ∈ files (world_with_clip w).
Proof.
  intros Htrim Hfail. split; [ | cbn; set_solver].
  unfold Main.process_audio, bind, mkdtemp, trim_audio, lift.
  fold (run_temp_dir w). fold (run_clip w). cbn [files]. rewrite Htrim.
  unfold world_with_clip.
  destruct (run_clip_nonempty w) as (c & p & Hp). rewrite Hp in *.
  destruct Hfail as [Hd | [Hd Hl]].
  - rewrite Hd. reflexivity.
  - destruct (run_diarization env (String c p)); [ | discriminate Hd].
    unfold Transcriber.init. rewrite Hl. reflexivity.
Qed.

(** A diarizer that crashes. *)
Lemma diarization_failure_aborts_witness :
  let env :=
    {| whisper_handle := unit;
       trim_succeeds := fun _ _ _ _ => true;
       download_succeeds := fun _ _ => true;
       run_diarization := fun _ =>
         raise_cls RuntimeError "unsupported audio format";
       whisper_load_model := fun _ => Ok tt;
       whisper_transcribe := fun _ _ => Ok "";
       llm_client := fun _ => Ok tt;
       llm_create := fun _ _ _ => Ok [] |} in
  fst (Main.process_audio env "/data/talk.wav" "00:00" (Some "00:30")
         "base" world0)
  = Raise (PyExn RuntimeError "unsupported audio format").
Proof.
  intros env.
  rewrite (proj1 (diarization_failure_aborts env "/data/talk.wav" "00:00"
                    (Some "00:30") "base" world0
                    (PyExn RuntimeError "unsupported audio format")
                    eq_refl (or_introl eq_refl))).
  reflexivity.
Defined.

Section BadSpans.

Variable env : Collaborators.
Variable transcriber : Transcriber.WhisperTranscriber env.
Variables temp_dir clip : string.

(** The loop stops at the first span whose bounds do not print. *)
Lemma process_segments_bad_span spans :
  forall i transcriptions w k segment e,
    spans !! k = Some segment ->
    Main.seconds_to_hms (d_start segment) = Raise e \/
    (is_ok (Main.seconds_to_hms (d_start segment)) = true /\
     Main.seconds_to_hms (d_end segment) = Raise e) ->
    (forall j s, (j < k)%nat -> spans !! j = Some s -> span_prints s) ->
    (forall p, is_ok (Transcriber.transcribe transcriber p) = true) ->
    fst (Main.process_segments env transcriber temp_dir clip i spans
           transcriptions w) = Raise e.
Proof.
  induction spans as [ | s0 rest IH];
    intros i acc w k segment e Hk Hbad Hbefore Htr.
  - discriminate Hk.
  - cbn [Main.process_segments]. unfold bind at 1.
    destruct k as [ | k].
    + cbn in Hk. injection Hk as ->.
      unfold Main.process_segment, bind, lift.
      destruct Hbad as [Hs | [Hs He]].
      * rewrite Hs. reflexivity.
      * destruct (Main.seconds_to_hms (d_start segment));
          [ | discriminate Hs].
        rewrite He. reflexivity.
    + cbn in Hk.
      pose proof (process_segment_result env transcriber temp_dir clip i s0
                    acc w (Hbefore 0%nat s0 ltac:(lia) eq_refl)
                    (fun _ => Htr _))
        as Hstep.
      destruct (Main.process_segment env transcriber temp_dir clip i s0
                  acc w) as [[r | e0] w1]; cbn in Hstep;
        [ | discriminate Hstep].
      apply (IH (S i) r w1 k segment e Hk Hbad); [ | exact Htr].
      intros j s Hj Hs. exact (Hbefore (S j) s ltac:(lia) Hs).
Qed.

End BadSpans.

Lemma seconds_to_hms_not_finite :
  forall x,
    x = FNan \/ x = FInf false \/ x = FInf true ->
    exists msg, Main.seconds_to_hms x = Raise (PyExn ValueError msg).
Proof.
  intros x [-> | [-> | ->]]; eexists; vm_compute; reflexivity.
Qed.

(** A span whose start or end is NaN or infinite ends the run: the first
    such span makes [process_audio] raise [ValueError], after the spans
    before it have been processed. *)
Theorem span_not_finite_aborts
    (env : Collaborators) (file_path start_time : string)
    (end_time : option string) (whisper_model : string) (w : World)
    (spans : list DiarSegment)
    (transcriber : Transcriber.WhisperTranscriber env)
    (k : nat) (segment : DiarSegment) :
  trim_succeeds env file_path start_time end_time (run_clip w) = true ->
  run_diarization env (run_clip w) = Ok spans ->
  Transcriber.init env whisper_model = Ok transcriber ->
  spans !! k = Some segment ->
  (d_start segment = FNan \/ d_start segment = FInf false \/
   d_start segment = FInf true) \/
  (is_ok (Main.seconds_to_hms (d_start segment)) = true /\
   (d_end segment = FNan \/ d_end segment = FInf false \/
    d_end segment = FInf true)) ->
  (forall j s, (j < k)%nat -> spans !! j = Some s -> span_prints s) ->
  (forall p, is_ok (Transcriber.transcribe transcriber p) = true) ->
  exists msg,
    fst (Main.process_audio env file_path start_time end_time
           whisper_model w) = Raise (PyExn ValueError msg).
Proof.
  intros Htrim Hdia Hinit Hk Hbad Hbefore Htr.
  assert (He : exists msg,
             Main.seconds_to_hms (d_start segment)
             = Raise (PyExn ValueError msg) \/
             (is_ok (Main.seconds_to_hms (d_start segment)) = true /\
              Main.seconds_to_hms (d_end segment)
              = Raise (PyExn ValueError msg))).
  { destruct Hbad as [Hs | [Hs He]].
    - destruct (seconds_to_hms_not_finite _ Hs) as [msg Hm]. eauto.
    - destruct (seconds_to_hms_not_finite _ He) as [msg Hm]. eauto. }
  destruct He as [msg He]. exists msg.
  rewrite (process_audio_after_trim _ _ _ _ _ _ _ _ Htrim Hdia Hinit).
  pose proof (process_segments_bad_span env transcriber (run_temp_dir w)
                (run_clip w) spans 0%nat [] (world_with_clip w) k segment _
                Hk He Hbefore Htr) as Hloop.
  destruct (Main.process_segments env transcriber (run_temp_dir w)
              (run_clip w) 0 spans [] (world_with_clip w))
    as [[r | e0] w1]; cbn [fst] in Hloop; [discriminate Hloop | ].
  exact Hloop.
Qed.

(** Two spans, the second starts at NaN. *)
Lemma span_not_finite_aborts_witness :
  let spans :=
    [span "SPEAKER_00" 0 2;
     {| d_speaker := "SPEAKER_01"; d_start := FNan;
        d_end := FNum (5 * float_unit) |}] in
  exists msg,
    fst (Main.process_audio (sample_env spans none none) "/data/talk.wav"
           "00:00" (Some "00:30") "base" world0)
    = Raise (PyExn ValueError msg).
Proof.
  intros spans.
  apply (span_not_finite_aborts (sample_env spans none none)
           "/data/talk.wav" "00:00" (Some "00:30") "base" world0 spans
           (sample_transcriber spans none none) 1%nat
           {| d_speaker := "SPEAKER_01"; d_start := FNan;
              d_end := FNum (5 * float_unit) |}).
  - reflexivity.
  - reflexivity.
  - reflexivity.
  - reflexivity.
  - left. left. reflexivity.
  - intros j s Hj Hs. assert (j = 0%nat) as -> by lia.
    cbn in Hs. injection Hs as <-. split; vm_compute; reflexivity.
  - intros p. reflexivity.
Defined.
